(** * paperless-gpt: the OCR provider layer, process start-up and the re-OCR handler

    A shallow embedding of
    - package [ocr]: [GoogleAIProvider] (module [GoogleAI]) and
      [LLMProvider] with [ProcessImage] (module [LLMOcr]),
    - [main.go]: process start-up (module [Main]),
    - [web-app/src/ExperimentalOCR.tsx]: [handleReOcrPage] (module
      [ExperimentalOCR]),
    followed by the properties of the specification that these sources
    decide. Line numbers in the comments of [GoogleAI] and [LLMOcr] count
    from the start of the [GoogleAIProvider] source, with the [LLMProvider]
    source following it. *)

From Stdlib Require Import ZArith NArith String Ascii List Lia Bool.
From Stdlib Require Import Strings.Byte DecimalString.
From stdpp Require Import base option list gmap strings.

Open Scope string_scope.
Open Scope list_scope.
Open Scope Z_scope.

(** ** Go values shared by the packages *)

(** What a Go call of type [(T, error)] can do: return a value, return a
    non-nil error (kept as its message), or panic at run time. *)
Inductive Outcome (A : Type) : Type :=
| Ok (a : A)
| Err (e : string)
| Panic (msg : string).
Arguments Ok {A} a.
Arguments Err {A} e.
Arguments Panic {A} msg.

Definition is_Ok {A} (o : Outcome A) : bool :=
  match o with Ok _ => true | _ => false end.


(** A [float64] is only ever forwarded by the code below; it is kept as its
    IEEE-754 bit pattern. *)
Definition float64 := Z.

(** Dynamic values stored under [any] keys of a Go map. *)
Inductive GoAny : Type :=
| AnyNil
| AnyInt (v : Z)
| AnyInt64 (v : Z)
| AnyFloat64 (v : float64)
| AnyString (s : string)
| AnyBool (b : bool).

(** The run-time panics of the Go runtime that the code below can raise. *)
Definition nil_dereference : string :=
  "runtime error: invalid memory address or nil pointer dereference".
Definition index_out_of_range : string :=
  "runtime error: index out of range [0] with length 0".

(** ** [os]: the process environment *)
Module os.

(** [os.Getenv]: the empty string when the variable is not set. *)
Definition Getenv (env : gmap string string) (key : string) : string :=
  default "" (env !! key).

(** [os.LookupEnv] *)
Definition LookupEnv (env : gmap string string) (key : string) : option string :=
  env !! key.

End os.

(** ** [github.com/tmc/langchaingo/llms]: the types the sources use *)
Module llms.

(** [ContentPart] is an interface: [OtherPart] stands for a value of any
    other dynamic type (a pointer to one of the structs, or nil), known by
    the name of that type. *)
Inductive ContentPart : Type :=
| TextContent (Text : string)
| ImageURLContent (URL : string) (Detail : string)
| BinaryContent (MIMEType : string) (Data : list byte)
| ToolCall (ID : string) (Name : string) (Arguments : string)
| ToolCallResponse (ToolCallID : string) (Name : string) (Content : string)
| OtherPart (goType : string).

Definition TextPart (s : string) : ContentPart := TextContent s.
Definition BinaryPart (mime : string) (data : list byte) : ContentPart :=
  BinaryContent mime data.
Definition ImageURLPart (url : string) : ContentPart := ImageURLContent url "".

(** The [%T] rendering of a part's dynamic type. *)
Definition type_name (part : ContentPart) : string :=
  match part with
  | TextContent _ => "llms.TextContent"
  | ImageURLContent _ _ => "llms.ImageURLContent"
  | BinaryContent _ _ => "llms.BinaryContent"
  | ToolCall _ _ _ => "llms.ToolCall"
  | ToolCallResponse _ _ _ => "llms.ToolCallResponse"
  | OtherPart goType => goType
  end.

Inductive ChatMessageType : Type :=
| ChatMessageTypeAI
| ChatMessageTypeHuman
| ChatMessageTypeSystem
| ChatMessageTypeGeneric
| ChatMessageTypeFunction
| ChatMessageTypeTool.

Record MessageContent : Type := {
  Role : ChatMessageType;
  Parts : list ContentPart
}.

(** A [CallOption] is a closure over [CallOptions]; only the three
    constructors the sources call are needed. *)
Inductive CallOption : Type :=
| WithMaxTokens (maxTokens : Z)
| WithTemperature (temperature : float64)
| WithTopK (topK : Z).

(** [GenerationInfo] is a [map[string]any]; [None] is the nil map. *)
Record ContentChoice : Type := {
  Content : string;
  StopReason : string;
  GenerationInfo : option (gmap string GoAny)
}.

(** [Choices] is a [[]*ContentChoice]: an entry may be a nil pointer. *)
Record ContentResponse : Type := {
  Choices : list (option ContentChoice)
}.

(** The [llms.Model] interface, as the method table of an interface value.
    [GenerateContent] returns a pointer to a [ContentResponse] and an
    error; the pointer may be nil. *)
Record Model : Type := {
  GenerateContent :
    list MessageContent -> list CallOption -> Outcome (option ContentResponse)
}.

End llms.

(** ** [google.golang.org/genai]: the types the sources use *)
Module genai.

Record Blob : Type := {
  MIMEType : string;
  Data : list byte
}.

Record Part : Type := {
  Text : string;
  InlineData : option Blob
}.

Record Content : Type := {
  Parts : list (option Part);
  Role : string
}.

Record Candidate : Type := {
  Content_ : option Content
}.

Record GenerateContentResponse : Type := {
  Candidates : list (option Candidate)
}.

Record ThinkingConfig : Type := {
  ThinkingBudget : option Z
}.

Record GenerateContentConfig : Type := {
  ThinkingConfig_ : option ThinkingConfig
}.

(** [client.Models.GenerateContent(ctx, model, contents, config)]: the
    network call, taken as a function of its arguments. *)
Record Client : Type := {
  Models_GenerateContent :
    string -> list (option Content) -> option GenerateContentConfig ->
    Outcome (option GenerateContentResponse)
}.

Definition TextPart (s : string) : Part := {| Text := s; InlineData := None |}.

End genai.

(** ** [GoogleAIProvider] *)
Module GoogleAI.

Record GoogleAIProvider : Type := {
  client : option genai.Client;
  thinkingBudget : option Z;
  model : string
}.

(** [NewGoogleAIProvider]; [genai_NewClient] is [genai.NewClient] applied
    to the API key (the backend is always the Gemini API). *)
Definition NewGoogleAIProvider (genai_NewClient : string -> Outcome genai.Client)
    (model : string) (apiKey : string) (thinkingBudget : option Z)
    : Outcome GoogleAIProvider :=
  if String.eqb apiKey "" then
    Err "GOOGLEAI_API_KEY environment variable is not set"
  else
    match genai_NewClient apiKey with
    | Err e => Err ("failed to create googleai client: " +:+ e)
    | Panic msg => Panic msg
    | Ok c =>
        Ok {| client := Some c; thinkingBudget := thinkingBudget; model := model |}
    end.

(** The [for _, part := range messages[0].Parts] loop of
    [GenerateContent]: [genaiParts] is the slice built so far. *)
Fixpoint convertParts (parts : list llms.ContentPart)
    (genaiParts : list (option genai.Part)) : Outcome (list (option genai.Part)) :=
  match parts with
  | [] => Ok genaiParts
  | part :: rest =>
      match part with
      | llms.TextContent t =>
          convertParts rest
            (genaiParts ++ [Some {| genai.Text := t; genai.InlineData := None |}])
      | llms.BinaryContent mime data =>
          convertParts rest
            (genaiParts ++
             [Some {| genai.Text := "";
                      genai.InlineData :=
                        Some {| genai.MIMEType := mime; genai.Data := data |} |}])
      | v =>
          Err ("unsupported content part type for GoogleAIProvider: "
               +:+ llms.type_name v)
      end
  end.

Definition genConfigOf (p : GoogleAIProvider) : option genai.GenerateContentConfig :=
  match thinkingBudget p with
  | Some b =>
      Some {| genai.ThinkingConfig_ := Some {| genai.ThinkingBudget := Some b |} |}
  | None => None
  end.

(** The guarded chain that reads [resp.Candidates[0].Content.Parts[0].Text];
    [content] stays [""] when any link is missing. *)
Definition firstText (resp : genai.GenerateContentResponse) : string :=
  match genai.Candidates resp with
  | Some cand :: _ =>
      match genai.Content_ cand with
      | Some c =>
          match genai.Parts c with
          | Some part :: _ =>
              if String.eqb (genai.Text part) "" then "" else genai.Text part
          | _ => ""
          end
      | None => ""
      end
  | _ => ""
  end.

(** What [GenerateContent] does with the answer of the API call. *)
Definition handleResponse (r : Outcome (option genai.GenerateContentResponse))
    : Outcome (option llms.ContentResponse) :=
  match r with
  | Err e => Err ("googleai GenerateContent API error: " +:+ e)
  | Panic m => Panic m
  | Ok None => Err "googleai GenerateContent API returned empty response"
  | Ok (Some resp) =>
      if (length (genai.Candidates resp) =? 0)%nat
      then Err "googleai GenerateContent API returned empty response"
      else
        let content := firstText resp in
        Ok (Some {| llms.Choices :=
                      [Some {| llms.Content := content;
                               llms.StopReason := "";
                               llms.GenerationInfo := None |}] |})
  end.

Definition GenerateContent (p : GoogleAIProvider)
    (messages : list llms.MessageContent) (opts : list llms.CallOption)
    : Outcome (option llms.ContentResponse) :=
  match messages with
  | [] => Err "no prompt provided"
  | m0 :: _ =>
      if (length (llms.Parts m0) =? 0)%nat then Err "no prompt provided"
      else
        match convertParts (llms.Parts m0) [] with
        | Err e => Err e
        | Panic m => Panic m
        | Ok genaiParts =>
            let contents :=
              [Some {| genai.Parts := genaiParts; genai.Role := "" |}] in
            let genConfig := genConfigOf p in
            match client p with
            | None => Panic nil_dereference
            | Some c =>
                handleResponse
                  (genai.Models_GenerateContent c (model p) contents genConfig)
            end
        end
  end.

(** [GenerateText]: the text-only path. *)
Definition GenerateText (p : GoogleAIProvider) (prompt : string) : Outcome string :=
  match client p with
  | None => Err "googleai client not initialized"
  | Some c =>
      let genConfig := genConfigOf p in
      let contents :=
        [Some {| genai.Parts := [Some (genai.TextPart prompt)];
                 genai.Role := "user" |}] in
      match genai.Models_GenerateContent c (model p) contents genConfig with
      | Err e => Err ("googleai GenerateContent API error: " +:+ e)
      | Panic m => Panic m
      | Ok None => Err "googleai GenerateContent API returned empty response"
      | Ok (Some resp) =>
          if (length (genai.Candidates resp) =? 0)%nat
          then Err "googleai GenerateContent API returned empty response"
          else Ok (firstText resp)
      end
  end.

Definition Call (p : GoogleAIProvider) (prompt : string)
    (opts : list llms.CallOption) : Outcome string :=
  GenerateText p prompt.

Definition IsGoogleAIProvider (p : GoogleAIProvider) : bool := true.
Definition ProviderName (p : GoogleAIProvider) : string := "googleai".

(** A [*GoogleAIProvider] used as an [llms.Model]. *)
Definition asModel (p : GoogleAIProvider) : llms.Model :=
  {| llms.GenerateContent := GenerateContent p |}.

End GoogleAI.

(** ** [encoding/base64]: [StdEncoding.EncodeToString] *)
Module base64.

Definition encodeStd : string :=
  "ABCDEFGHIJKLMNOPQRSTUVWXYZabcdefghijklmnopqrstuvwxyz0123456789+/".

Definition StdPadding : ascii := "="%char.

(** [enc.encode[v & 0x3F]] *)
Definition enc (v : N) : ascii :=
  match String.get (N.to_nat (N.land v 63)) encodeStd with
  | Some c => c
  | None => StdPadding
  end.

Definition u (b : byte) : N := Byte.to_N b.

(** [Encoding.Encode]: full three-byte quanta first, then the remainder
    of one or two bytes with padding. *)
Fixpoint EncodeToString (src : list byte) : string :=
  match src with
  | [] => ""
  | [b0] =>
      let val := N.shiftl (u b0) 16 in
      String (enc (N.shiftr val 18))
        (String (enc (N.shiftr val 12))
           (String StdPadding (String StdPadding "")))
  | [b0; b1] =>
      let val := N.lor (N.shiftl (u b0) 16) (N.shiftl (u b1) 8) in
      String (enc (N.shiftr val 18))
        (String (enc (N.shiftr val 12))
           (String (enc (N.shiftr val 6)) (String StdPadding "")))
  | b0 :: b1 :: b2 :: rest =>
      let val :=
        N.lor (N.lor (N.shiftl (u b0) 16) (N.shiftl (u b1) 8)) (u b2) in
      String (enc (N.shiftr val 18))
        (String (enc (N.shiftr val 12))
           (String (enc (N.shiftr val 6))
              (String (enc val) (EncodeToString rest))))
  end.

End base64.

(** ** [LLMProvider]: OCR through a vision model *)
Module LLMOcr.

Record OCRResult : Type := {
  Text : string;
  Metadata : gmap string string;
  OcrLimitHit : bool;
  GenerationInfo : option (gmap string GoAny)
}.

Record LLMProvider : Type := {
  Provider : string;
  Model : string;
  LLM : llms.Model;
  Prompt : string;
  OllamaOcrMaxTokensPerPage : Z;
  OllamaOcrTemperature : option float64;
  OllamaOcrTopK : option Z
}.

(** [ocr.Config], with the fields the sources read or write. *)
Record Config : Type := {
  cfgProvider : string;
  GoogleProjectID : string;
  GoogleLocation : string;
  GoogleProcessorID : string;
  VisionLLMProvider : string;
  VisionLLMModel : string;
  VisionLLMPrompt : string;
  VisionLLMThinkingBudget : Z;
  AzureEndpoint : string;
  AzureAPIKey : string;
  AzureModelID : string;
  AzureOutputContentFormat : string;
  AzureTimeout : Z;
  cfgOllamaOcrMaxTokensPerPage : Z;
  cfgOllamaOcrTemperature : option float64;
  cfgOllamaOcrTopK : option Z
}.

(** The decoded image is only used to log its dimensions. *)
Record Image : Type := { Dx : Z; Dy : Z }.

(** The calls [ProcessImage] makes outside the package, in order. *)
Inductive Event : Type :=
| EvImageDecode (data : list byte)
| EvGenerateContent (messages : list llms.MessageContent)
    (opts : list llms.CallOption).

(** A computation: the calls it made and how it ended. *)
Definition Prog (A : Type) : Type := (list Event * Outcome A)%type.

Definition ret {A} (a : A) : Prog A := ([], Ok a).

Definition bind {A B} (m : Prog A) (k : A -> Prog B) : Prog B :=
  match m with
  | (t, Ok a) => let (t', r) := k a in (t ++ t', r)
  | (t, Err e) => (t, Err e)
  | (t, Panic msg) => (t, Panic msg)
  end.

Notation "x <- m ;; k" := (bind m (fun x => k))
  (at level 100, m at next level, right associativity).

(** One outside call with its answer. *)
Definition perform {A} (ev : Event) (answer : Outcome A) : Prog A := ([ev], answer).

(** [fmt.Errorf(prefix + ": %w", err)] on the error path. *)
Definition wrapError {A} (prefix : string) (m : Prog A) : Prog A :=
  match m with
  | (t, Err e) => (t, Err (prefix +:+ e))
  | _ => m
  end.

(** [p.field] through a pointer that may be nil. *)
Definition deref {A} (ptr : option A) : Prog A :=
  match ptr with
  | Some a => ret a
  | None => ([], Panic nil_dereference)
  end.

(** [s[0]] on a slice. *)
Definition index0 {A} (s : list A) : Prog A :=
  match s with
  | a :: _ => ret a
  | [] => ([], Panic index_out_of_range)
  end.

Definition trace {A} (m : Prog A) : list Event := fst m.
Definition outcome {A} (m : Prog A) : Outcome A := snd m.

(** The requests sent to the model during a computation. *)
Definition requests {A} (m : Prog A)
    : list (list llms.MessageContent * list llms.CallOption) :=
  omap (fun ev => match ev with
                  | EvGenerateContent msgs opts => Some (msgs, opts)
                  | _ => None
                  end) (trace m).

Section WithLibraries.

(** Library functions the provider calls: [strings.ToLower],
    [image.Decode] and [llms.CountTokens]. *)
Variable strings_ToLower : string -> string.
Variable image_Decode : list byte -> Outcome Image.
Variable llms_CountTokens : string -> string -> Z.

(** The client constructors: [openai.New] (model, token), [ollama.New]
    (model, server URL, context size) and [genai.NewClient] (API key). *)
Variable openai_New : string -> string -> Outcome llms.Model.
Variable ollama_New : string -> string -> Z -> Outcome llms.Model.
Variable genai_NewClient : string -> Outcome genai.Client.

Definition createGoogleAIClient (env : gmap string string) (config : Config)
    : Outcome llms.Model :=
  let apiKey := os.Getenv env "GOOGLEAI_API_KEY" in
  if String.eqb apiKey "" then
    Err "GOOGLEAI_API_KEY environment variable is not set"
  else
    let thinkingBudget :=
      if negb (VisionLLMThinkingBudget config =? 0)
      then Some (VisionLLMThinkingBudget config) else None in
    match GoogleAI.NewGoogleAIProvider genai_NewClient
            (VisionLLMModel config) apiKey thinkingBudget with
    | Err e => Err ("failed to create GoogleAI provider: " +:+ e)
    | Panic msg => Panic msg
    | Ok provider => Ok (GoogleAI.asModel provider)
    end.

Definition createOpenAIClient (env : gmap string string) (config : Config)
    : Outcome llms.Model :=
  let apiKey := os.Getenv env "OPENAI_API_KEY" in
  if String.eqb apiKey "" then Err "OpenAI API key is not set"
  else openai_New (VisionLLMModel config) apiKey.

Definition createOllamaClient (env : gmap string string) (config : Config)
    : Outcome llms.Model :=
  let host := os.Getenv env "OLLAMA_HOST" in
  let host := if String.eqb host "" then "http://127.0.0.1:11434" else host in
  ollama_New (VisionLLMModel config) host (cfgOllamaOcrMaxTokensPerPage config).

Definition newLLMProvider (env : gmap string string) (config : Config)
    : Outcome LLMProvider :=
  let lower := strings_ToLower (VisionLLMProvider config) in
  let created :=
    if String.eqb lower "openai" then Some (createOpenAIClient env config)
    else if String.eqb lower "ollama" then Some (createOllamaClient env config)
    else if String.eqb lower "googleai" then Some (createGoogleAIClient env config)
    else None in
  match created with
  | None =>
      Err ("unsupported vision LLM provider: " +:+ VisionLLMProvider config)
  | Some (Err e) => Err ("error creating vision LLM client: " +:+ e)
  | Some (Panic msg) => Panic msg
  | Some (Ok model) =>
      Ok {| Provider := VisionLLMProvider config;
            Model := VisionLLMModel config;
            LLM := model;
            Prompt := VisionLLMPrompt config;
            OllamaOcrMaxTokensPerPage := cfgOllamaOcrMaxTokensPerPage config;
            OllamaOcrTemperature := cfgOllamaOcrTemperature config;
            OllamaOcrTopK := cfgOllamaOcrTopK config |}
  end.

(** [strings.ToLower(p.Provider) == name] *)
Definition providerIs (p : LLMProvider) (name : string) : bool :=
  String.eqb (strings_ToLower (Provider p)) name.

(** Lines 255-270: the content parts. *)
Definition buildParts (p : LLMProvider) (imageContent : list byte)
    : list llms.ContentPart :=
  if negb (providerIs p "openai") then
    [ llms.BinaryPart "image/jpeg" imageContent;
      llms.TextPart (Prompt p) ]
  else
    let base64Image := base64.EncodeToString imageContent in
    [ llms.ImageURLPart ("data:image/jpeg;base64," +:+ base64Image);
      llms.TextPart (Prompt p) ].

(** Lines 272-284: the call options. *)
Definition buildCallOpts (p : LLMProvider) : list llms.CallOption :=
  let callOpts := [] in
  if providerIs p "ollama" then
    let callOpts :=
      if 0 <? OllamaOcrMaxTokensPerPage p
      then callOpts ++ [llms.WithMaxTokens (OllamaOcrMaxTokensPerPage p)]
      else callOpts in
    let callOpts :=
      match OllamaOcrTemperature p with
      | Some t => callOpts ++ [llms.WithTemperature t]
      | None => callOpts
      end in
    let callOpts :=
      match OllamaOcrTopK p with
      | Some k => callOpts ++ [llms.WithTopK k]
      | None => callOpts
      end in
    callOpts
  else callOpts.

(** Lines 305-314: the value of [tokenCount] when it is compared with
    the bound. *)
Definition tokenCountOf (p : LLMProvider) (text : string)
    (genInfo : option (gmap string GoAny)) : Z :=
  let tokenCount := -1 in
  let tokenCount :=
    match genInfo with
    | Some m =>
        match m !! "TotalTokens" with
        | Some (AnyInt v) => v
        | _ => tokenCount
        end
    | None => tokenCount
    end in
  if tokenCount <? 0 then llms_CountTokens (Model p) text else tokenCount.

(** Lines 300-318: [limitHit]. *)
Definition limitHitOf (p : LLMProvider) (text : string)
    (genInfo : option (gmap string GoAny)) : bool :=
  let limitHit := false in
  if providerIs p "ollama" && (0 <? OllamaOcrMaxTokensPerPage p) then
    let tokenCount := tokenCountOf p text genInfo in
    if tokenCount >=? OllamaOcrMaxTokensPerPage p then true else limitHit
  else limitHit.

(** Lines 299-328: the result built from the first choice. *)
Definition resultOf (p : LLMProvider) (choice : llms.ContentChoice) : OCRResult :=
  let text := llms.Content choice in
  let limitHit := limitHitOf p text (llms.GenerationInfo choice) in
  {| Text := text;
     Metadata := <["provider" := Provider p]> (<["model" := Model p]> ∅);
     OcrLimitHit := limitHit;
     GenerationInfo := llms.GenerationInfo choice |}.

(** Lines 288-293: the single human message handed to the model. *)
Definition messagesOf (parts : list llms.ContentPart) : list llms.MessageContent :=
  [ {| llms.Role := llms.ChatMessageTypeHuman; llms.Parts := parts |} ].

(** [ProcessImage]; logging is left out. *)
Definition ProcessImage (p : LLMProvider) (imageContent : list byte)
    (pageNumber : Z) : Prog OCRResult :=
  img <- wrapError "error decoding image: "
           (perform (EvImageDecode imageContent) (image_Decode imageContent)) ;;
  let parts := buildParts p imageContent in
  let callOpts := buildCallOpts p in
  let messages := messagesOf parts in
  completionPtr <- wrapError "error getting response from LLM: "
           (perform (EvGenerateContent messages callOpts)
              (llms.GenerateContent (LLM p) messages callOpts)) ;;
  completion <- deref completionPtr ;;
  choicePtr <- index0 (llms.Choices completion) ;;
  choice <- deref choicePtr ;;
  ret (resultOf p choice).

End WithLibraries.

(** ASCII lower-casing: what [strings.ToLower] does on ASCII text. *)
Definition asciiLower (c : ascii) : ascii :=
  let n := N_of_ascii c in
  if ((65 <=? n) && (n <=? 90))%N then ascii_of_N (n + 32) else c.

Fixpoint asciiToLower (s : string) : string :=
  match s with
  | EmptyString => EmptyString
  | String c rest => String (asciiLower c) (asciiToLower rest)
  end.

End LLMOcr.

(** ** [main.go]: process start-up *)
Module Main.

(** *** How start-up can end *)

(** The places where [main.go] ends the process through [log.Fatal]. *)
Inductive FatalSite : Type :=
| AtValidateEnv
| AtInitLogger
| AtInitializeDB
| AtLoadTemplates
| AtCreateLLM
| AtCreateVisionLLM
| AtOcrTemplate
| AtOcrProvider
| AtOcrLimitPages.

(** A start-up step goes on with a value, ends the process through
    [log.Fatal] (exit status 1), or crashes with a panic. *)
Inductive Startup (A : Type) : Type :=
| Continue (a : A)
| Fatal (site : FatalSite) (msg : string)
| Crash (msg : string).
Arguments Continue {A} a.
Arguments Fatal {A} site msg.
Arguments Crash {A} msg.

Definition bind {A B} (m : Startup A) (k : A -> Startup B) : Startup B :=
  match m with
  | Continue a => k a
  | Fatal site msg => Fatal site msg
  | Crash msg => Crash msg
  end.

Notation "x <- m ;; k" := (bind m (fun x => k))
  (at level 100, m at next level, right associativity).

(** [if err != nil { log.Fatalf(prefix + "%v", err) }] *)
Definition fatalOnError {A} (site : FatalSite) (prefix : string)
    (o : Outcome A) : Startup A :=
  match o with
  | Ok a => Continue a
  | Err e => Fatal site (prefix +:+ e)
  | Panic msg => Crash msg
  end.

(** [if cond { log.Fatal(msg) }] *)
Definition fatalIf (cond : bool) (site : FatalSite) (msg : string) : Startup unit :=
  if cond then Fatal site msg else Continue tt.

Definition nonEmpty (s : string) : bool := negb (String.eqb s "").

(** *** Package-level variables *)

(** The package variables that [main.go] itself reads or writes. *)
Record Globals : Type := {
  paperlessBaseURL : string;
  paperlessAPIToken : string;
  azureDocAIEndpoint : string;
  azureDocAIKey : string;
  azureDocAIModelID : string;
  azureDocAITimeout : string;
  AzureDocAIOutputContentFormat : string;
  openaiAPIKey : string;
  manualTag : string;
  autoTag : string;
  manualOcrTag : string;
  autoOcrTag : string;
  llmProvider : string;
  llmModel : string;
  visionLlmProvider : string;
  visionLlmModel : string;
  logLevel : string;
  listenInterface : string;
  limitOcrPages : Z;
  tokenLimit : Z
}.

Definition defaultOcrPrompt : string :=
  "Just transcribe the text in this image and preserve the formatting and layout (high quality OCR). Do that for ALL the text in the image. Be thorough and pay attention. This is very important. The image is from a text document so be sure to continue until the bottom of the page. Thanks a lot! You tend to forget about some text in the image so please focus! Use markdown format but without a code block.".

(** *** Types of the collaborators *)

(** The arguments [NewPaperlessClient] is called with. *)
Record PaperlessClient : Type := {
  BaseURL : string;
  APIToken : string
}.

Inductive Database : Type := DB.

(** A parsed [text/template]. *)
Record Template : Type := {
  tmplName : string;
  tmplText : string
}.

(** An [ocr.Provider] value: the vision-model provider of package [ocr]
    or one of the document-AI providers, which are known by name only. *)
Inductive Provider : Type :=
| VisionProvider (p : LLMOcr.LLMProvider)
| DocumentAIProvider (name : string).

Record App : Type := {
  Client : PaperlessClient;
  Database_ : Database;
  LLM : option llms.Model;
  VisionLLM : option llms.Model;
  ocrProvider : option Provider
}.

Definition isOcrEnabled (app : App) : bool :=
  match ocrProvider app with
  | Some _ => true
  | None => false
  end.

(** Everything outside [main.go] that start-up calls: library functions,
    the file system under [prompts/], the client constructors and the
    constructors of the other packages. An error of [InitializeDB] stands
    for the message it ends the process with. *)
Record World : Type := {
  strings_ToLower : string -> string;
  strings_Title : string -> string;
  strconv_Atoi : string -> Outcome Z;
  os_MkdirAll : string -> option string;
  os_ReadFile : string -> Outcome string;
  os_WriteFile : string -> string -> option string;
  template_Parse : string -> string -> Outcome Template;
  template_Execute : Template -> string -> Outcome string;
  defaultTitleTemplate : string;
  defaultTagTemplate : string;
  defaultCorrespondentTemplate : string;
  defaultCreatedDateTemplate : string;
  InitializeDB : Outcome Database;
  openai_New : string -> string -> Outcome llms.Model;
  ollama_New : string -> string -> Outcome llms.Model;
  genai_NewClient : string -> Outcome genai.Client;
  ocr_NewProvider : LLMOcr.Config -> Outcome (option Provider)
}.

(** The same world with another [ocr.NewProvider]. *)
Definition withNewProvider (w : World)
    (newProvider : LLMOcr.Config -> Outcome (option Provider)) : World :=
  {| strings_ToLower := strings_ToLower w;
     strings_Title := strings_Title w;
     strconv_Atoi := strconv_Atoi w;
     os_MkdirAll := os_MkdirAll w;
     os_ReadFile := os_ReadFile w;
     os_WriteFile := os_WriteFile w;
     template_Parse := template_Parse w;
     template_Execute := template_Execute w;
     defaultTitleTemplate := defaultTitleTemplate w;
     defaultTagTemplate := defaultTagTemplate w;
     defaultCorrespondentTemplate := defaultCorrespondentTemplate w;
     defaultCreatedDateTemplate := defaultCreatedDateTemplate w;
     InitializeDB := InitializeDB w;
     openai_New := openai_New w;
     ollama_New := ollama_New w;
     genai_NewClient := genai_NewClient w;
     ocr_NewProvider := newProvider |}.

(** Conversion [int32(v)] of a Go [int]. *)
Definition int32 (v : Z) : Z :=
  (v + 2 ^ 31) mod 2 ^ 32 - 2 ^ 31.

(** A pool executor, known by its index. *)
Record Worker : Type := { workerID : Z }.

(** Modelled from the spec: [startWorkerPool] is called by [main] but its
    body is not among the sources. Section 4.4: a fixed number of
    background executors, given by the count it is called with, consume
    job-start signals from the queue. The executors are numbered from 0. *)
Definition startWorkerPool (app : App) (numWorkers : Z) : list Worker :=
  map (fun i => {| workerID := Z.of_nat i |}) (seq 0 (Z.to_nat numWorkers)).

(** What is running once [main] reaches [router.Run]. *)
Record Server : Type := {
  app_ : App;
  globals : Globals;
  numWorkers_ : Z;
  workers : list Worker;
  listenOn : string
}.

(** Assignments to the package variables. *)
Definition withTags (g : Globals) (manual auto manualOcr autoOcr : string) : Globals :=
  {| paperlessBaseURL := paperlessBaseURL g;
     paperlessAPIToken := paperlessAPIToken g;
     azureDocAIEndpoint := azureDocAIEndpoint g;
     azureDocAIKey := azureDocAIKey g;
     azureDocAIModelID := azureDocAIModelID g;
     azureDocAITimeout := azureDocAITimeout g;
     AzureDocAIOutputContentFormat := AzureDocAIOutputContentFormat g;
     openaiAPIKey := openaiAPIKey g;
     manualTag := manual;
     autoTag := auto;
     manualOcrTag := manualOcr;
     autoOcrTag := autoOcr;
     llmProvider := llmProvider g;
     llmModel := llmModel g;
     visionLlmProvider := visionLlmProvider g;
     visionLlmModel := visionLlmModel g;
     logLevel := logLevel g;
     listenInterface := listenInterface g;
     limitOcrPages := limitOcrPages g;
     tokenLimit := tokenLimit g |}.

Definition withLimits (g : Globals) (limitPages limitTokens : Z)
    (listen : string) : Globals :=
  {| paperlessBaseURL := paperlessBaseURL g;
     paperlessAPIToken := paperlessAPIToken g;
     azureDocAIEndpoint := azureDocAIEndpoint g;
     azureDocAIKey := azureDocAIKey g;
     azureDocAIModelID := azureDocAIModelID g;
     azureDocAITimeout := azureDocAITimeout g;
     AzureDocAIOutputContentFormat := AzureDocAIOutputContentFormat g;
     openaiAPIKey := openaiAPIKey g;
     manualTag := manualTag g;
     autoTag := autoTag g;
     manualOcrTag := manualOcrTag g;
     autoOcrTag := autoOcrTag g;
     llmProvider := llmProvider g;
     llmModel := llmModel g;
     visionLlmProvider := visionLlmProvider g;
     visionLlmModel := visionLlmModel g;
     logLevel := logLevel g;
     listenInterface := listen;
     limitOcrPages := limitPages;
     tokenLimit := limitTokens |}.

(** [%d] *)
Definition itoa (v : Z) : string := NilZero.string_of_int (Z.to_int v).

Definition orDefault (s dflt : string) : string :=
  if String.eqb s "" then dflt else s.

(** The templates that [loadTemplates] leaves in the package variables. *)
Record Templates : Type := {
  titleTemplate : Template;
  tagTemplate : Template;
  correspondentTemplate : Template;
  createdDateTemplate : Template;
  ocrTemplate : Template
}.

Section Startup.

Variable w : World.
Variable env : gmap string string.

(** The initial values of the package variables. *)
Definition initGlobals : Globals :=
  {| paperlessBaseURL := os.Getenv env "PAPERLESS_BASE_URL";
     paperlessAPIToken := os.Getenv env "PAPERLESS_API_TOKEN";
     azureDocAIEndpoint := os.Getenv env "AZURE_DOCAI_ENDPOINT";
     azureDocAIKey := os.Getenv env "AZURE_DOCAI_KEY";
     azureDocAIModelID := os.Getenv env "AZURE_DOCAI_MODEL_ID";
     azureDocAITimeout := os.Getenv env "AZURE_DOCAI_TIMEOUT_SECONDS";
     AzureDocAIOutputContentFormat := os.Getenv env "AZURE_DOCAI_OUTPUT_CONTENT_FORMAT";
     openaiAPIKey := os.Getenv env "OPENAI_API_KEY";
     manualTag := os.Getenv env "MANUAL_TAG";
     autoTag := os.Getenv env "AUTO_TAG";
     manualOcrTag := os.Getenv env "MANUAL_OCR_TAG";
     autoOcrTag := os.Getenv env "AUTO_OCR_TAG";
     llmProvider := os.Getenv env "LLM_PROVIDER";
     llmModel := os.Getenv env "LLM_MODEL";
     visionLlmProvider := os.Getenv env "VISION_LLM_PROVIDER";
     visionLlmModel := os.Getenv env "VISION_LLM_MODEL";
     logLevel := strings_ToLower w (os.Getenv env "LOG_LEVEL");
     listenInterface := os.Getenv env "LISTEN_INTERFACE";
     limitOcrPages := 0;
     tokenLimit := 0 |}.

Definition validateOrDefaultEnvVars (g : Globals) : Startup Globals :=
  let g := withTags g
             (orDefault (manualTag g) "paperless-gpt")
             (orDefault (autoTag g) "paperless-gpt-auto")
             (orDefault (manualOcrTag g) "paperless-gpt-ocr")
             (orDefault (autoOcrTag g) "paperless-gpt-ocr-auto") in
  _ <- fatalIf (String.eqb (paperlessBaseURL g) "") AtValidateEnv
         "Please set the PAPERLESS_BASE_URL environment variable." ;;
  _ <- fatalIf (String.eqb (paperlessAPIToken g) "") AtValidateEnv
         "Please set the PAPERLESS_API_TOKEN environment variable." ;;
  _ <- fatalIf (String.eqb (llmProvider g) "") AtValidateEnv
         "Please set the LLM_PROVIDER environment variable." ;;
  _ <- fatalIf (nonEmpty (visionLlmProvider g)
                && negb (String.eqb (visionLlmProvider g) "openai")
                && negb (String.eqb (visionLlmProvider g) "ollama"))
         AtValidateEnv
         "Please set the VISION_LLM_PROVIDER environment variable to 'openai' or 'ollama'." ;;
  _ <- fatalIf (negb (String.eqb (llmProvider g) "openai")
                && negb (String.eqb (llmProvider g) "ollama")
                && negb (String.eqb (llmProvider g) "googleai"))
         AtValidateEnv
         "Please set the LLM_PROVIDER environment variable to 'openai', 'ollama', or 'googleai'." ;;
  let ocrProvider := os.Getenv env "OCR_PROVIDER" in
  _ <- (if String.eqb ocrProvider "azure" then
          _ <- fatalIf (String.eqb (azureDocAIEndpoint g) "") AtValidateEnv
                 "Please set the AZURE_DOCAI_ENDPOINT environment variable for Azure provider" ;;
          fatalIf (String.eqb (azureDocAIKey g) "") AtValidateEnv
            "Please set the AZURE_DOCAI_KEY environment variable for Azure provider"
        else Continue tt) ;;
  _ <- fatalIf (String.eqb (llmModel g) "") AtValidateEnv
         "Please set the LLM_MODEL environment variable." ;;
  _ <- fatalIf ((String.eqb (llmProvider g) "openai"
                 || String.eqb (visionLlmProvider g) "openai")
                && String.eqb (openaiAPIKey g) "")
         AtValidateEnv
         "Please set the OPENAI_API_KEY environment variable for OpenAI provider." ;;
  let limit := os.Getenv env "TOKEN_LIMIT" in
  if nonEmpty limit then
    match strconv_Atoi w limit with
    | Ok parsed =>
        if parsed <? 0 then
          Fatal AtValidateEnv
            ("TOKEN_LIMIT must be non-negative, got: " +:+ itoa parsed)
        else Continue (withLimits g (limitOcrPages g) parsed (listenInterface g))
    | _ => Continue g
    end
  else Continue g.

Definition initLogger (g : Globals) : Startup unit :=
  let l := logLevel g in
  if String.eqb l "debug" || String.eqb l "info"
     || String.eqb l "warn" || String.eqb l "error"
  then Continue tt
  else fatalIf (nonEmpty l) AtInitLogger ("Invalid log level: '" +:+ l +:+ "'.").

Definition getLikelyLanguage : string :=
  let likelyLanguage := orDefault (os.Getenv env "LLM_LANGUAGE") "English" in
  strings_Title w (strings_ToLower w likelyLanguage).

(** One of the five blocks of [loadTemplates]: read the file, fall back
    to the default text (and write it to disk), parse. [what] and
    [whatParse] are the words used in the two fatal messages. *)
Definition loadTemplate (name file dflt what whatParse : string) : Startup Template :=
  let path := "prompts/" +:+ file in
  content <-
    match os_ReadFile w path with
    | Ok content => Continue content
    | Panic msg => Crash msg
    | Err _ =>
        match os_WriteFile w path dflt with
        | Some e =>
            Fatal AtLoadTemplates
              ("Failed to write default " +:+ what +:+ " template to disk: " +:+ e)
        | None => Continue dflt
        end
    end ;;
  fatalOnError AtLoadTemplates ("Failed to parse " +:+ whatParse +:+ " template: ")
    (template_Parse w name content).

Definition loadTemplates : Startup Templates :=
  _ <- match os_MkdirAll w "prompts" with
       | Some e => Fatal AtLoadTemplates ("Failed to create prompts directory: " +:+ e)
       | None => Continue tt
       end ;;
  title <- loadTemplate "title" "title_prompt.tmpl"
             (defaultTitleTemplate w) "title" "title" ;;
  tag <- loadTemplate "tag" "tag_prompt.tmpl"
           (defaultTagTemplate w) "tag" "tag" ;;
  correspondent <- loadTemplate "correspondent" "correspondent_prompt.tmpl"
           (defaultCorrespondentTemplate w) "correspondent" "correspondent" ;;
  createdDate <- loadTemplate "created_date" "created_date_prompt.tmpl"
           (defaultCreatedDateTemplate w) "date" "createdDate" ;;
  ocr <- loadTemplate "ocr" "ocr_prompt.tmpl" defaultOcrPrompt "OCR" "OCR" ;;
  Continue {| titleTemplate := title;
              tagTemplate := tag;
              correspondentTemplate := correspondent;
              createdDateTemplate := createdDate;
              ocrTemplate := ocr |}.

Definition ollamaHost : string :=
  orDefault (os.Getenv env "OLLAMA_HOST") "http://127.0.0.1:11434".

Definition createLLM (g : Globals) : Outcome llms.Model :=
  let lower := strings_ToLower w (llmProvider g) in
  if String.eqb lower "openai" then
    if String.eqb (openaiAPIKey g) "" then Err "OpenAI API key is not set"
    else openai_New w (llmModel g) (openaiAPIKey g)
  else if String.eqb lower "ollama" then
    ollama_New w (llmModel g) ollamaHost
  else if String.eqb lower "googleai" then
    let apiKey := os.Getenv env "GOOGLEAI_API_KEY" in
    let thinkingBudget :=
      match os.LookupEnv env "GOOGLEAI_THINKING_BUDGET" with
      | Some val =>
          match strconv_Atoi w val with
          | Ok v => Some (int32 v)
          | _ => None
          end
      | None => None
      end in
    match GoogleAI.NewGoogleAIProvider (genai_NewClient w)
            (llmModel g) apiKey thinkingBudget with
    | Err e => Err ("failed to create GoogleAI provider: " +:+ e)
    | Panic msg => Panic msg
    | Ok provider => Ok (GoogleAI.asModel provider)
    end
  else
    Err ("unsupported LLM provider: " +:+ llmProvider g
         +:+ " (supported: openai, ollama, googleai)").

(** [createVisionLLM]: [Ok None] is the [nil, nil] of the default case. *)
Definition createVisionLLM (g : Globals) : Outcome (option llms.Model) :=
  let lower := strings_ToLower w (visionLlmProvider g) in
  let some (o : Outcome llms.Model) : Outcome (option llms.Model) :=
    match o with
    | Ok m => Ok (Some m)
    | Err e => Err e
    | Panic msg => Panic msg
    end in
  if String.eqb lower "openai" then
    if String.eqb (openaiAPIKey g) "" then Err "OpenAI API key is not set"
    else some (openai_New w (visionLlmModel g) (openaiAPIKey g))
  else if String.eqb lower "ollama" then
    some (ollama_New w (visionLlmModel g) ollamaHost)
  else Ok None.

(** Lines 175-179: the provider type, ["llm"] when [OCR_PROVIDER] is
    not set. *)
Definition providerTypeOf : string :=
  orDefault (os.Getenv env "OCR_PROVIDER") "llm".

(** Lines 191-212: the configuration passed to [ocr.NewProvider]. The
    fields [main] does not mention keep their zero values. *)
Definition ocrConfigOf (g : Globals) (providerType ocrPrompt : string)
    : LLMOcr.Config :=
  let timeout :=
    if nonEmpty (azureDocAITimeout g) then
      match strconv_Atoi w (azureDocAITimeout g) with
      | Ok timeout => timeout
      | _ => 0
      end
    else 0 in
  {| LLMOcr.cfgProvider := providerType;
     LLMOcr.GoogleProjectID := os.Getenv env "GOOGLE_PROJECT_ID";
     LLMOcr.GoogleLocation := os.Getenv env "GOOGLE_LOCATION";
     LLMOcr.GoogleProcessorID := os.Getenv env "GOOGLE_PROCESSOR_ID";
     LLMOcr.VisionLLMProvider := visionLlmProvider g;
     LLMOcr.VisionLLMModel := visionLlmModel g;
     LLMOcr.VisionLLMPrompt := ocrPrompt;
     LLMOcr.VisionLLMThinkingBudget := 0;
     LLMOcr.AzureEndpoint := azureDocAIEndpoint g;
     LLMOcr.AzureAPIKey := azureDocAIKey g;
     LLMOcr.AzureModelID := azureDocAIModelID g;
     LLMOcr.AzureOutputContentFormat := AzureDocAIOutputContentFormat g;
     LLMOcr.AzureTimeout := timeout;
     LLMOcr.cfgOllamaOcrMaxTokensPerPage := 0;
     LLMOcr.cfgOllamaOcrTemperature := None;
     LLMOcr.cfgOllamaOcrTopK := None |}.

(** Lines 214-222: the OCR provider, left nil when the provider type is
    ["llm"] and no vision provider is named. *)
Definition initOcrProvider (g : Globals) (providerType : string)
    (ocrConfig : LLMOcr.Config) : Startup (option Provider) :=
  let ocrProvider := None in
  if String.eqb providerType "llm" && String.eqb (visionLlmProvider g) "" then
    Continue ocrProvider
  else
    fatalOnError AtOcrProvider "Failed to initialize OCR provider: "
      (ocr_NewProvider w ocrConfig).

(** Lines 233-246: the page limit, read only when OCR is enabled. *)
Definition initLimitOcrPages (g : Globals) (app : App) : Startup Globals :=
  if isOcrEnabled app then
    let rawLimitOcrPages := os.Getenv env "OCR_LIMIT_PAGES" in
    if String.eqb rawLimitOcrPages "" then
      Continue (withLimits g 5 (tokenLimit g) (listenInterface g))
    else
      limit <- fatalOnError AtOcrLimitPages "Invalid OCR_LIMIT_PAGES value: "
                 (strconv_Atoi w rawLimitOcrPages) ;;
      Continue (withLimits g limit (tokenLimit g) (listenInterface g))
  else Continue g.

(** [main], up to the point where [router.Run] starts to serve. The
    version banner, the background tasks and the route table have no
    part in what follows and are left out. *)
Definition main : Startup Server :=
  g <- validateOrDefaultEnvVars initGlobals ;;
  _ <- initLogger g ;;
  let client := {| BaseURL := paperlessBaseURL g;
                   APIToken := paperlessAPIToken g |} in
  database <- fatalOnError AtInitializeDB "" (InitializeDB w) ;;
  templates <- loadTemplates ;;
  llm <- fatalOnError AtCreateLLM "Failed to create LLM client: " (createLLM g) ;;
  visionLlm <- fatalOnError AtCreateVisionLLM "Failed to create Vision LLM client: "
                 (createVisionLLM g) ;;
  let providerType := providerTypeOf in
  ocrPrompt <- fatalOnError AtOcrTemplate "error executing tag template: "
                 (template_Execute w (ocrTemplate templates) getLikelyLanguage) ;;
  let ocrConfig := ocrConfigOf g providerType ocrPrompt in
  ocrProvider <- initOcrProvider g providerType ocrConfig ;;
  let app := {| Client := client;
                Database_ := database;
                LLM := Some llm;
                VisionLLM := visionLlm;
                ocrProvider := ocrProvider |} in
  g <- initLimitOcrPages g app ;;
  let numWorkers := 1 in
  let pool := startWorkerPool app numWorkers in
  let listen := orDefault (listenInterface g) ":8080" in
  let g := withLimits g (limitOcrPages g) (tokenLimit g) listen in
  Continue {| app_ := app;
              globals := g;
              numWorkers_ := numWorkers;
              workers := pool;
              listenOn := listen |}.

End Startup.

End Main.

(** ** [ExperimentalOCR.tsx]: the re-OCR handler of the page *)
Module ExperimentalOCR.

Record OCRPageResult : Type := {
  text : string;
  ocrLimitHit : bool;
  generationInfo : option (gmap string string)
}.

(** The body of a successful answer of the re-OCR endpoint. *)
Record ReOcrData : Type := {
  data_text : string;
  data_ocrLimitHit : bool
}.

(** How the [axios.post] promise settles. *)
Inductive PostResult : Type :=
| Resolved (data : ReOcrData)
| Rejected.

(** [arr[i]] for a JavaScript number [i] that holds an integer:
    [undefined] outside the array. *)
Definition js_index {A} (arr : list A) (i : Z) : option A :=
  if i <? 0 then None else arr !! Z.to_nat i.

Section Component.

(** [Document] comes from another module of the web application. *)
Variable Document : Type.

(** The state cells of the component and its one ref. *)
Record State : Type := {
  documentId : Z;
  jobId : string;
  ocrResult : string;
  status : string;
  error : option string;
  pagesDone : Z;
  saving : bool;
  documentDetails : option Document;
  perPageResults : list OCRPageResult;
  lastFetchedPagesDoneRef : Z;
  reOcrLoading : gmap Z bool;
  reOcrErrors : gmap Z string
}.

Definition setPerPageResults (f : list OCRPageResult -> list OCRPageResult)
    (s : State) : State :=
  {| documentId := documentId s; jobId := jobId s; ocrResult := ocrResult s;
     status := status s; error := error s; pagesDone := pagesDone s;
     saving := saving s; documentDetails := documentDetails s;
     perPageResults := f (perPageResults s);
     lastFetchedPagesDoneRef := lastFetchedPagesDoneRef s;
     reOcrLoading := reOcrLoading s; reOcrErrors := reOcrErrors s |}.

Definition setReOcrLoading (f : gmap Z bool -> gmap Z bool) (s : State) : State :=
  {| documentId := documentId s; jobId := jobId s; ocrResult := ocrResult s;
     status := status s; error := error s; pagesDone := pagesDone s;
     saving := saving s; documentDetails := documentDetails s;
     perPageResults := perPageResults s;
     lastFetchedPagesDoneRef := lastFetchedPagesDoneRef s;
     reOcrLoading := f (reOcrLoading s); reOcrErrors := reOcrErrors s |}.

Definition setReOcrErrors (f : gmap Z string -> gmap Z string) (s : State) : State :=
  {| documentId := documentId s; jobId := jobId s; ocrResult := ocrResult s;
     status := status s; error := error s; pagesDone := pagesDone s;
     saving := saving s; documentDetails := documentDetails s;
     perPageResults := perPageResults s;
     lastFetchedPagesDoneRef := lastFetchedPagesDoneRef s;
     reOcrLoading := reOcrLoading s; reOcrErrors := f (reOcrErrors s) |}.

Definition setLastFetchedPagesDone (v : Z) (s : State) : State :=
  {| documentId := documentId s; jobId := jobId s; ocrResult := ocrResult s;
     status := status s; error := error s; pagesDone := pagesDone s;
     saving := saving s; documentDetails := documentDetails s;
     perPageResults := perPageResults s;
     lastFetchedPagesDoneRef := v;
     reOcrLoading := reOcrLoading s; reOcrErrors := reOcrErrors s |}.

(** The updater passed to [setPerPageResults] after a successful
    re-OCR: [prev.map((res, idx) => idx === pageIdx ? {...} : res)]. *)
Definition replacePage (pageIdx : Z) (data : ReOcrData)
    (prev : list OCRPageResult) : list OCRPageResult :=
  imap (fun idx res =>
          if Z.of_nat idx =? pageIdx
          then {| text := data_text data;
                  ocrLimitHit := data_ocrLimitHit data;
                  generationInfo := None |}
          else res) prev.

(** [handleReOcrPage(pageIdx)], with the way the request settles. *)
Definition handleReOcrPage (pageIdx : Z) (post : PostResult) (s : State) : State :=
  match js_index (perPageResults s) pageIdx with
  | None =>
      setReOcrErrors (fun prev => <[pageIdx := "Page data not available."]> prev) s
  | Some _ =>
      let s := setReOcrLoading (fun prev => <[pageIdx := true]> prev) s in
      let s := setReOcrErrors (fun prev => <[pageIdx := ""]> prev) s in
      let s :=
        match post with
        | Resolved data =>
            let s := setPerPageResults (replacePage pageIdx data) s in
            if pageIdx + 1 >? lastFetchedPagesDoneRef s
            then setLastFetchedPagesDone (pageIdx + 1) s
            else s
        | Rejected =>
            setReOcrErrors (fun prev => <[pageIdx := "Failed to re-OCR page."]> prev) s
        end in
      setReOcrLoading (fun prev => <[pageIdx := false]> prev) s
  end.

End Component.

Arguments documentId {Document} s.
Arguments ocrResult {Document} s.
Arguments perPageResults {Document} s.
Arguments lastFetchedPagesDoneRef {Document} s.
Arguments reOcrLoading {Document} s.
Arguments reOcrErrors {Document} s.
Arguments handleReOcrPage {Document} pageIdx post s.

End ExperimentalOCR.

(** ** [main.go]: [removeTagFromList] *)
Module Tags.

(** The [for _, tag := range tags] loop; [filteredTags] is the slice built
    so far. *)
Fixpoint removeTagLoop (tags : list string) (tagToRemove : string)
    (filteredTags : list string) : list string :=
  match tags with
  | [] => filteredTags
  | tag :: rest =>
      if negb (String.eqb tag tagToRemove)
      then removeTagLoop rest tagToRemove (filteredTags ++ [tag])
      else removeTagLoop rest tagToRemove filteredTags
  end.

Definition removeTagFromList (tags : list string) (tagToRemove : string)
    : list string :=
  let filteredTags := [] in
  removeTagLoop tags tagToRemove filteredTags.

End Tags.

(** ** [main.go]: [headerTransport] and [createCustomHTTPClient] *)
Module Transport.

(** An [*http.Request], with its header map. *)
Record Request : Type := {
  Method : string;
  URL : string;
  Header : gmap string (list string)
}.

Record Response : Type := {
  StatusCode : Z;
  Body : string
}.

(** An [http.RoundTripper]: [http.DefaultTransport] or a [headerTransport]
    around another one. *)
Inductive RoundTripper : Type :=
| DefaultTransport
| headerTransport (transport : RoundTripper) (headers : gmap string string).

(** An [http.Client]; a nil [Transport] stands for [DefaultTransport]. *)
Record Client : Type := {
  Transport : option RoundTripper
}.

(** The package variable [http.DefaultClient], shared by every caller. *)
Record Globals : Type := {
  DefaultClient : Client
}.

(** The pointer [createCustomHTTPClient] returns. *)
Inductive ClientPtr : Type := PtrDefaultClient.

Definition deref (st : Globals) (ptr : ClientPtr) : Client :=
  match ptr with PtrDefaultClient => DefaultClient st end.

Definition setHeader (h : gmap string (list string)) (req : Request) : Request :=
  {| Method := Method req; URL := URL req; Header := h |}.

Section WithNetwork.

(** [textproto.CanonicalMIMEHeaderKey], the order in which a [range] visits
    a map (unspecified in Go), and [http.DefaultTransport.RoundTrip]. *)
Variable canonical : string -> string.
Variable rangeOf : gmap string string -> list (string * string).
Variable network : Request -> Outcome Response.

(** [h.Add(key, value)] *)
Definition Header_Add (h : gmap string (list string)) (key value : string)
    : gmap string (list string) :=
  <[canonical key := default [] (h !! canonical key) ++ [value]]> h.

(** The loop of [headerTransport.RoundTrip] over the visited entries. *)
Fixpoint addHeaders (entries : list (string * string)) (req : Request) : Request :=
  match entries with
  | [] => req
  | (key, value) :: rest =>
      addHeaders rest (setHeader (Header_Add (Header req) key value) req)
  end.

(** [RoundTrip]: the request as it is left behind (the header map is
    changed in place) and the answer. *)
Fixpoint RoundTrip (t : RoundTripper) (req : Request) : Request * Outcome Response :=
  match t with
  | DefaultTransport => (req, network req)
  | headerTransport transport headers =>
      let req := addHeaders (rangeOf headers) req in
      RoundTrip transport req
  end.

(** [c.Do(req)]: through the client's transport. *)
Definition Client_Do (c : Client) (req : Request) : Request * Outcome Response :=
  match Transport c with
  | Some t => RoundTrip t req
  | None => RoundTrip DefaultTransport req
  end.

End WithNetwork.

Definition createCustomHTTPClient (st : Globals) : Globals * ClientPtr :=
  let customTransport :=
    headerTransport DefaultTransport (<["X-Title" := "paperless-gpt"]> ∅) in
  let httpClient := PtrDefaultClient in
  ({| DefaultClient := {| Transport := Some customTransport |} |}, httpClient).

End Transport.

(** ** [ExperimentalOCR.tsx]: the other handlers of the page *)
Module OCRPage.

(** How a request settles. *)
Inductive Settled (A : Type) : Type :=
| Resolved (data : A)
| Rejected.
Arguments Resolved {A} data.
Arguments Rejected {A}.

(** The body of an answer of the job status endpoint. *)
Record JobData : Type := {
  job_status : string;
  pages_done : Z;
  result : string;
  job_error : option string
}.

(** What [JSON.parse] makes of the result of a completed job: it throws,
    it yields a falsy value, or it yields the object with the combined text
    and the pages. *)
Inductive Parsed : Type :=
| ParseThrows
| ParsedFalsy
| ParsedResult (combinedText : string)
    (perPageResults : list ExperimentalOCR.OCRPageResult).

Section Handlers.

Variable Document : Type.
Variable JSON_parse : string -> Parsed.

Local Abbreviation State := (ExperimentalOCR.State Document).

(** The requests the page sends. *)
Inductive Request : Type :=
| GetDocument (documentId : Z)
| GetOcrPages (documentId : Z)
| PostOcr (documentId : Z)
| GetJob (jobId : string)
| PatchUpdateDocuments (id : Z) (original_document : Document)
    (suggested_content : string).

Definition setStatus (v : string) (s : State) : State :=
  {| ExperimentalOCR.documentId := ExperimentalOCR.documentId s;
     ExperimentalOCR.jobId := ExperimentalOCR.jobId Document s;
     ExperimentalOCR.ocrResult := ExperimentalOCR.ocrResult s;
     ExperimentalOCR.status := v;
     ExperimentalOCR.error := ExperimentalOCR.error Document s;
     ExperimentalOCR.pagesDone := ExperimentalOCR.pagesDone Document s;
     ExperimentalOCR.saving := ExperimentalOCR.saving Document s;
     ExperimentalOCR.documentDetails := ExperimentalOCR.documentDetails Document s;
     ExperimentalOCR.perPageResults := ExperimentalOCR.perPageResults s;
     ExperimentalOCR.lastFetchedPagesDoneRef := ExperimentalOCR.lastFetchedPagesDoneRef s;
     ExperimentalOCR.reOcrLoading := ExperimentalOCR.reOcrLoading s;
     ExperimentalOCR.reOcrErrors := ExperimentalOCR.reOcrErrors s |}.

Definition setError (v : option string) (s : State) : State :=
  {| ExperimentalOCR.documentId := ExperimentalOCR.documentId s;
     ExperimentalOCR.jobId := ExperimentalOCR.jobId Document s;
     ExperimentalOCR.ocrResult := ExperimentalOCR.ocrResult s;
     ExperimentalOCR.status := ExperimentalOCR.status Document s;
     ExperimentalOCR.error := v;
     ExperimentalOCR.pagesDone := ExperimentalOCR.pagesDone Document s;
     ExperimentalOCR.saving := ExperimentalOCR.saving Document s;
     ExperimentalOCR.documentDetails := ExperimentalOCR.documentDetails Document s;
     ExperimentalOCR.perPageResults := ExperimentalOCR.perPageResults s;
     ExperimentalOCR.lastFetchedPagesDoneRef := ExperimentalOCR.lastFetchedPagesDoneRef s;
     ExperimentalOCR.reOcrLoading := ExperimentalOCR.reOcrLoading s;
     ExperimentalOCR.reOcrErrors := ExperimentalOCR.reOcrErrors s |}.

Definition setJobId (v : string) (s : State) : State :=
  {| ExperimentalOCR.documentId := ExperimentalOCR.documentId s;
     ExperimentalOCR.jobId := v;
     ExperimentalOCR.ocrResult := ExperimentalOCR.ocrResult s;
     ExperimentalOCR.status := ExperimentalOCR.status Document s;
     ExperimentalOCR.error := ExperimentalOCR.error Document s;
     ExperimentalOCR.pagesDone := ExperimentalOCR.pagesDone Document s;
     ExperimentalOCR.saving := ExperimentalOCR.saving Document s;
     ExperimentalOCR.documentDetails := ExperimentalOCR.documentDetails Document s;
     ExperimentalOCR.perPageResults := ExperimentalOCR.perPageResults s;
     ExperimentalOCR.lastFetchedPagesDoneRef := ExperimentalOCR.lastFetchedPagesDoneRef s;
     ExperimentalOCR.reOcrLoading := ExperimentalOCR.reOcrLoading s;
     ExperimentalOCR.reOcrErrors := ExperimentalOCR.reOcrErrors s |}.

Definition setOcrResult (v : string) (s : State) : State :=
  {| ExperimentalOCR.documentId := ExperimentalOCR.documentId s;
     ExperimentalOCR.jobId := ExperimentalOCR.jobId Document s;
     ExperimentalOCR.ocrResult := v;
     ExperimentalOCR.status := ExperimentalOCR.status Document s;
     ExperimentalOCR.error := ExperimentalOCR.error Document s;
     ExperimentalOCR.pagesDone := ExperimentalOCR.pagesDone Document s;
     ExperimentalOCR.saving := ExperimentalOCR.saving Document s;
     ExperimentalOCR.documentDetails := ExperimentalOCR.documentDetails Document s;
     ExperimentalOCR.perPageResults := ExperimentalOCR.perPageResults s;
     ExperimentalOCR.lastFetchedPagesDoneRef := ExperimentalOCR.lastFetchedPagesDoneRef s;
     ExperimentalOCR.reOcrLoading := ExperimentalOCR.reOcrLoading s;
     ExperimentalOCR.reOcrErrors := ExperimentalOCR.reOcrErrors s |}.

Definition setPagesDone (v : Z) (s : State) : State :=
  {| ExperimentalOCR.documentId := ExperimentalOCR.documentId s;
     ExperimentalOCR.jobId := ExperimentalOCR.jobId Document s;
     ExperimentalOCR.ocrResult := ExperimentalOCR.ocrResult s;
     ExperimentalOCR.status := ExperimentalOCR.status Document s;
     ExperimentalOCR.error := ExperimentalOCR.error Document s;
     ExperimentalOCR.pagesDone := v;
     ExperimentalOCR.saving := ExperimentalOCR.saving Document s;
     ExperimentalOCR.documentDetails := ExperimentalOCR.documentDetails Document s;
     ExperimentalOCR.perPageResults := ExperimentalOCR.perPageResults s;
     ExperimentalOCR.lastFetchedPagesDoneRef := ExperimentalOCR.lastFetchedPagesDoneRef s;
     ExperimentalOCR.reOcrLoading := ExperimentalOCR.reOcrLoading s;
     ExperimentalOCR.reOcrErrors := ExperimentalOCR.reOcrErrors s |}.

Definition setSaving (v : bool) (s : State) : State :=
  {| ExperimentalOCR.documentId := ExperimentalOCR.documentId s;
     ExperimentalOCR.jobId := ExperimentalOCR.jobId Document s;
     ExperimentalOCR.ocrResult := ExperimentalOCR.ocrResult s;
     ExperimentalOCR.status := ExperimentalOCR.status Document s;
     ExperimentalOCR.error := ExperimentalOCR.error Document s;
     ExperimentalOCR.pagesDone := ExperimentalOCR.pagesDone Document s;
     ExperimentalOCR.saving := v;
     ExperimentalOCR.documentDetails := ExperimentalOCR.documentDetails Document s;
     ExperimentalOCR.perPageResults := ExperimentalOCR.perPageResults s;
     ExperimentalOCR.lastFetchedPagesDoneRef := ExperimentalOCR.lastFetchedPagesDoneRef s;
     ExperimentalOCR.reOcrLoading := ExperimentalOCR.reOcrLoading s;
     ExperimentalOCR.reOcrErrors := ExperimentalOCR.reOcrErrors s |}.

Definition setDocumentDetails (v : option Document) (s : State) : State :=
  {| ExperimentalOCR.documentId := ExperimentalOCR.documentId s;
     ExperimentalOCR.jobId := ExperimentalOCR.jobId Document s;
     ExperimentalOCR.ocrResult := ExperimentalOCR.ocrResult s;
     ExperimentalOCR.status := ExperimentalOCR.status Document s;
     ExperimentalOCR.error := ExperimentalOCR.error Document s;
     ExperimentalOCR.pagesDone := ExperimentalOCR.pagesDone Document s;
     ExperimentalOCR.saving := ExperimentalOCR.saving Document s;
     ExperimentalOCR.documentDetails := v;
     ExperimentalOCR.perPageResults := ExperimentalOCR.perPageResults s;
     ExperimentalOCR.lastFetchedPagesDoneRef := ExperimentalOCR.lastFetchedPagesDoneRef s;
     ExperimentalOCR.reOcrLoading := ExperimentalOCR.reOcrLoading s;
     ExperimentalOCR.reOcrErrors := ExperimentalOCR.reOcrErrors s |}.

(** [fetchDocumentDetails], for the document id its closure holds; its
    own [catch] keeps a failure from the caller. *)
Definition fetchDocumentDetails (documentId : Z) (answer : Settled Document)
    (s : State) : list Request * State :=
  if documentId =? 0 then ([], s)
  else
    match answer with
    | Resolved data => ([GetDocument documentId], setDocumentDetails (Some data) s)
    | Rejected =>
        ([GetDocument documentId],
         setError (Some "Failed to fetch document details.") s)
    end.

(** [fetchPerPageResults], likewise. *)
Definition fetchPerPageResults (documentId : Z)
    (answer : Settled (list ExperimentalOCR.OCRPageResult))
    (s : State) : list Request * State :=
  if documentId =? 0 then ([], s)
  else
    match answer with
    | Resolved pages =>
        ([GetOcrPages documentId],
         ExperimentalOCR.setPerPageResults Document (fun _ => pages) s)
    | Rejected =>
        ([GetOcrPages documentId],
         setError (Some "Failed to fetch per-page OCR results.") s)
    end.

(** [submitOCRJob], with the way its two requests settle ([post] holds
    the job id of the answer). *)
Definition submitOCRJob (details : Settled Document) (post : Settled string)
    (s : State) : list Request * State :=
  let documentId := ExperimentalOCR.documentId s in
  let s := setStatus "" s in
  let s := setError (Some "") s in
  let s := setJobId "" s in
  let s := setOcrResult "" s in
  let s := setPagesDone 0 s in
  let s := ExperimentalOCR.setPerPageResults Document (fun _ => []) s in
  let s := ExperimentalOCR.setLastFetchedPagesDone Document 0 s in
  let s := setStatus "Fetching document details..." s in
  let '(sent, s) := fetchDocumentDetails documentId details s in
  let s := setStatus "Submitting OCR job..." s in
  let sent := sent ++ [PostOcr documentId] in
  match post with
  | Resolved job_id =>
      let s := setJobId job_id s in
      (sent, setStatus "Job submitted. Processing..." s)
  | Rejected => (sent, setError (Some "Failed to submit OCR job.") s)
  end.

(** One run of [checkJobStatus], for the job id and document id its
    closure holds: the requests, the state, and whether it asks for another
    run through [setTimeout]. *)
Definition checkJobStatus (jobId : string) (documentId : Z)
    (job : Settled JobData)
    (pages : Settled (list ExperimentalOCR.OCRPageResult))
    (s : State) : list Request * State * bool :=
  if String.eqb jobId "" then ([], s, false)
  else
    match job with
    | Rejected =>
        ([GetJob jobId], setError (Some "Failed to check job status.") s, false)
    | Resolved data =>
        let jobStatus := job_status data in
        let newPagesDone := pages_done data in
        let s := setPagesDone newPagesDone s in
        let '(sent, s) :=
          if newPagesDone >? ExperimentalOCR.lastFetchedPagesDoneRef s then
            let '(sent, s) := fetchPerPageResults documentId pages s in
            (sent, ExperimentalOCR.setLastFetchedPagesDone Document newPagesDone s)
          else ([], s) in
        let sent := GetJob jobId :: sent in
        if String.eqb jobStatus "completed" then
          match JSON_parse (result data) with
          | ParseThrows =>
              let s := setOcrResult (result data) s in
              (sent, setStatus "OCR completed successfully." s, false)
          | ParsedFalsy => (sent, setStatus "OCR completed successfully." s, false)
          | ParsedResult combinedText perPageResults =>
              let s := setOcrResult combinedText s in
              let s :=
                ExperimentalOCR.setPerPageResults Document (fun _ => perPageResults) s in
              (sent, setStatus "OCR completed successfully." s, false)
          end
        else if String.eqb jobStatus "failed" then
          let s := setError (job_error data) s in
          (sent, setStatus "OCR failed." s, false)
        else
          (sent,
           setStatus ("Job status: " +:+ jobStatus +:+ ". This may take a few minutes.") s,
           true)
    end.

(** The runs of [checkJobStatus] that one start of the polling leads to,
    each on the next answers of the server, until a run asks for no other. *)
Fixpoint poll (jobId : string) (documentId : Z)
    (answers : list (Settled JobData * Settled (list ExperimentalOCR.OCRPageResult)))
    (s : State) : list Request * State :=
  match answers with
  | [] => ([], s)
  | (job, pages) :: rest =>
      let '(sent, s, again) := checkJobStatus jobId documentId job pages s in
      if again then
        let '(sent', s) := poll jobId documentId rest s in
        (sent ++ sent', s)
      else (sent, s)
  end.

(** [handleSaveContent], with the way the request settles. *)
Definition handleSaveContent (patch : Settled unit) (s : State)
    : list Request * State :=
  let documentDetails := ExperimentalOCR.documentDetails Document s in
  let documentId := ExperimentalOCR.documentId s in
  let ocrResult := ExperimentalOCR.ocrResult s in
  let s := setSaving true s in
  let s := setError None s in
  match documentDetails with
  | None =>
      let s := setError (Some "Document details not fetched.") s in
      let s := setError (Some "Failed to save content.") s in
      ([], setSaving false s)
  | Some details =>
      let sent := [PatchUpdateDocuments documentId details ocrResult] in
      match patch with
      | Resolved _ =>
          let s := setStatus "Content saved successfully." s in
          (sent, setSaving false s)
      | Rejected =>
          let s := setError (Some "Failed to save content.") s in
          (sent, setSaving false s)
      end
  end.

End Handlers.

(** An answer for a job that is neither completed nor failed. *)
Definition stillRunning
    (answer : Settled JobData * Settled (list ExperimentalOCR.OCRPageResult)) : Prop :=
  exists data,
    fst answer = Resolved data
    /\ job_status data <> "completed"
    /\ job_status data <> "failed".

End OCRPage.

(** * Sample values

    Concrete library functions, providers and environments on which the
    definitions above are evaluated. *)
Module Samples.

(** The first bytes of a JPEG file. *)
Definition jpeg : list byte := [xff; xd8; xff; xe0].

(** Bytes no decoder accepts. *)
Definition garbage : list byte := [x00; x01].

(** A decoder that knows JPEG by its start-of-image marker. *)
Definition decode (data : list byte) : Outcome LLMOcr.Image :=
  match data with
  | xff :: xd8 :: _ => Ok {| LLMOcr.Dx := 1; LLMOcr.Dy := 1 |}
  | _ => Err "image: unknown format"
  end.

(** A tokenizer stand-in: one token per character. *)
Definition count (model text : string) : Z := Z.of_nat (String.length text).

(** A model that always answers with the given choices. *)
Definition fixedModel (choices : list (option llms.ContentChoice)) : llms.Model :=
  {| llms.GenerateContent := fun _ _ => Ok (Some {| llms.Choices := choices |}) |}.

(** A choice whose metadata carries [TotalTokens] (or no metadata at all). *)
Definition choice (text : string) (total : option GoAny) : option llms.ContentChoice :=
  Some {| llms.Content := text;
          llms.StopReason := "";
          llms.GenerationInfo :=
            match total with
            | Some v => Some (<["TotalTokens" := v]> ∅)
            | None => None
            end |}.

Definition provider (name : string) (maxTokens : Z) (temperature : option float64)
    (topK : option Z) (m : llms.Model) : LLMOcr.LLMProvider :=
  {| LLMOcr.Provider := name;
     LLMOcr.Model := "vision-model";
     LLMOcr.LLM := m;
     LLMOcr.Prompt := "Transcribe the page.";
     LLMOcr.OllamaOcrMaxTokensPerPage := maxTokens;
     LLMOcr.OllamaOcrTemperature := temperature;
     LLMOcr.OllamaOcrTopK := topK |}.

(** OpenAI with a bound of 10 tokens; the backend reports 50. *)
Definition openaiBounded : LLMOcr.LLMProvider :=
  provider "openai" 10 None None
    (fixedModel [choice "some long page text" (Some (AnyInt 50))]).


(** Ollama with a bound of 10 tokens; the backend reports 12. *)
Definition ollamaReported : LLMOcr.LLMProvider :=
  provider "Ollama" 10 None (Some 40)
    (fixedModel [choice "page text" (Some (AnyInt 12))]).

(** A Gemini client with a fixed answer. *)
Definition geminiClient (answer : Outcome (option genai.GenerateContentResponse))
    : genai.Client :=
  {| genai.Models_GenerateContent := fun _ _ _ => answer |}.

Definition gemini (answer : Outcome (option genai.GenerateContentResponse))
    : GoogleAI.GoogleAIProvider :=
  {| GoogleAI.client := Some (geminiClient answer);
     GoogleAI.thinkingBudget := None;
     GoogleAI.model := "gemini-2.0-flash" |}.

Definition geminiProvider (answer : Outcome (option genai.GenerateContentResponse))
    : LLMOcr.LLMProvider :=
  provider "googleai" 0 None None (GoogleAI.asModel (gemini answer)).


Definition emptyResponse : genai.GenerateContentResponse :=
  {| genai.Candidates := [] |}.

Definition textResponse (t : string) : genai.GenerateContentResponse :=
  {| genai.Candidates :=
       [Some {| genai.Content_ :=
                  Some {| genai.Parts := [Some (genai.TextPart t)];
                          genai.Role := "model" |} |}] |}.

(** A world in which the collaborators work, no prompt file exists yet,
    and [ocr.NewProvider] refuses every configuration. *)
Definition world : Main.World :=
  {| Main.strings_ToLower := LLMOcr.asciiToLower;
     Main.strings_Title := fun s => s;
     Main.strconv_Atoi := fun _ => Err "strconv.Atoi: invalid syntax";
     Main.os_MkdirAll := fun _ => None;
     Main.os_ReadFile := fun _ => Err "no such file or directory";
     Main.os_WriteFile := fun _ _ => None;
     Main.template_Parse :=
       fun name content => Ok {| Main.tmplName := name; Main.tmplText := content |};
     Main.template_Execute := fun t _ => Ok (Main.tmplText t);
     Main.defaultTitleTemplate := "title";
     Main.defaultTagTemplate := "tags";
     Main.defaultCorrespondentTemplate := "correspondent";
     Main.defaultCreatedDateTemplate := "date";
     Main.InitializeDB := Ok Main.DB;
     Main.openai_New := fun _ _ => Ok (fixedModel []);
     Main.ollama_New := fun _ _ => Ok (fixedModel []);
     Main.genai_NewClient := fun _ => Err "no network";
     Main.ocr_NewProvider := fun _ => Err "unsupported OCR provider" |}.

(** An environment that names a text model and nothing about OCR. *)
Definition env : gmap string string :=
  <["PAPERLESS_BASE_URL" := "http://paperless:8000"]>
    (<["PAPERLESS_API_TOKEN" := "secret"]>
       (<["LLM_PROVIDER" := "ollama"]> (<["LLM_MODEL" := "llama3"]> ∅))).

(** A page state: two pages and a combined text. *)
Definition pageState : ExperimentalOCR.State unit :=
  {| ExperimentalOCR.documentId := 7;
     ExperimentalOCR.jobId := "job-1";
     ExperimentalOCR.ocrResult := "AB";
     ExperimentalOCR.status := "OCR completed successfully.";
     ExperimentalOCR.error := None;
     ExperimentalOCR.pagesDone := 2;
     ExperimentalOCR.saving := false;
     ExperimentalOCR.documentDetails := None;
     ExperimentalOCR.perPageResults :=
       [ {| ExperimentalOCR.text := "A"; ExperimentalOCR.ocrLimitHit := false;
            ExperimentalOCR.generationInfo := None |};
         {| ExperimentalOCR.text := "B"; ExperimentalOCR.ocrLimitHit := true;
            ExperimentalOCR.generationInfo := None |} ];
     ExperimentalOCR.lastFetchedPagesDoneRef := 2;
     ExperimentalOCR.reOcrLoading := ∅;
     ExperimentalOCR.reOcrErrors := ∅ |}.

End Samples.

(** * More sample values *)
Module MoreSamples.

(** A decimal parser in the place of [strconv.Atoi]. *)
Definition parseDecimal (s : string) : Outcome Z :=
  match NilZero.int_of_string s with
  | Some i => Ok (Z.of_int i)
  | None => Err "strconv.Atoi: invalid syntax"
  end.

(** The sample world with a working [strconv.Atoi] and an [ocr.NewProvider]
    that answers with a document-AI provider named after the provider
    type. *)
Definition world : Main.World :=
  {| Main.strings_ToLower := LLMOcr.asciiToLower;
     Main.strings_Title := fun s => s;
     Main.strconv_Atoi := parseDecimal;
     Main.os_MkdirAll := fun _ => None;
     Main.os_ReadFile := fun _ => Err "no such file or directory";
     Main.os_WriteFile := fun _ _ => None;
     Main.template_Parse :=
       fun name content => Ok {| Main.tmplName := name; Main.tmplText := content |};
     Main.template_Execute := fun t _ => Ok (Main.tmplText t);
     Main.defaultTitleTemplate := "title";
     Main.defaultTagTemplate := "tags";
     Main.defaultCorrespondentTemplate := "correspondent";
     Main.defaultCreatedDateTemplate := "date";
     Main.InitializeDB := Ok Main.DB;
     Main.openai_New := fun _ _ => Ok (Samples.fixedModel []);
     Main.ollama_New := fun _ _ => Ok (Samples.fixedModel []);
     Main.genai_NewClient := fun _ => Ok (Samples.geminiClient (Ok None));
     Main.ocr_NewProvider :=
       fun config => Ok (Some (Main.DocumentAIProvider (LLMOcr.cfgProvider config))) |}.

(** The sample environment with a document-AI provider, a token limit and
    a page limit. *)
Definition env : gmap string string :=
  <["OCR_PROVIDER" := "google_docai"]>
    (<["TOKEN_LIMIT" := "2000"]>
       (<["OCR_LIMIT_PAGES" := "3"]> Samples.env)).

(** The sample environment with Gemini named as the vision provider. *)
Definition envGeminiVision : gmap string string :=
  <["VISION_LLM_PROVIDER" := "googleai"]> Samples.env.


(** A vision configuration for one provider name. *)
Definition visionConfig (name : string) : LLMOcr.Config :=
  {| LLMOcr.cfgProvider := "llm";
     LLMOcr.GoogleProjectID := "";
     LLMOcr.GoogleLocation := "";
     LLMOcr.GoogleProcessorID := "";
     LLMOcr.VisionLLMProvider := name;
     LLMOcr.VisionLLMModel := "vision-model";
     LLMOcr.VisionLLMPrompt := "Transcribe the page.";
     LLMOcr.VisionLLMThinkingBudget := 0;
     LLMOcr.AzureEndpoint := "";
     LLMOcr.AzureAPIKey := "";
     LLMOcr.AzureModelID := "";
     LLMOcr.AzureOutputContentFormat := "";
     LLMOcr.AzureTimeout := 0;
     LLMOcr.cfgOllamaOcrMaxTokensPerPage := 512;
     LLMOcr.cfgOllamaOcrTemperature := None;
     LLMOcr.cfgOllamaOcrTopK := None |}.

(** Client constructors that work; Gemini answers with one line of text. *)
Definition openaiNew (model token : string) : Outcome llms.Model :=
  Ok (Samples.fixedModel [Samples.choice "from openai" None]).
Definition ollamaNew (model host : string) (numCtx : Z) : Outcome llms.Model :=
  Ok (Samples.fixedModel [Samples.choice "from ollama" None]).
Definition genaiNew (apiKey : string) : Outcome genai.Client :=
  Ok (Samples.geminiClient (Ok (Some (Samples.textResponse "from gemini")))).

(** An environment with the Gemini key. *)
Definition keys : gmap string string := <["GOOGLEAI_API_KEY" := "key"]> ∅.

(** The provider [newLLMProvider] builds for Gemini from these. *)
Definition geminiBuilt : LLMOcr.LLMProvider :=
  {| LLMOcr.Provider := "GoogleAI";
     LLMOcr.Model := "vision-model";
     LLMOcr.LLM :=
       GoogleAI.asModel
         {| GoogleAI.client :=
              Some (Samples.geminiClient (Ok (Some (Samples.textResponse "from gemini"))));
            GoogleAI.thinkingBudget := None;
            GoogleAI.model := "vision-model" |};
     LLMOcr.Prompt := "Transcribe the page.";
     LLMOcr.OllamaOcrMaxTokensPerPage := 512;
     LLMOcr.OllamaOcrTemperature := None;
     LLMOcr.OllamaOcrTopK := None |}.

(** A model that always fails. *)
Definition failingModel : llms.Model :=
  {| llms.GenerateContent := fun _ _ => Err "connection refused" |}.

(** A request with a title of its own, and a network that answers 200. *)
Definition request : Transport.Request :=
  {| Transport.Method := "POST";
     Transport.URL := "https://api.example/v1/chat";
     Transport.Header := <["X-Title" := ["mine"]]> ∅ |}.

Definition network (req : Transport.Request) : Outcome Transport.Response :=
  Ok {| Transport.StatusCode := 200; Transport.Body := "" |}.

Definition rangeOf (m : gmap string string) : list (string * string) :=
  map_to_list m.

(** The result of a completed job, as parsed. *)
Definition parsedPages : list ExperimentalOCR.OCRPageResult :=
  [ {| ExperimentalOCR.text := "A"; ExperimentalOCR.ocrLimitHit := false;
       ExperimentalOCR.generationInfo := None |} ].

Definition parse (s : string) : OCRPage.Parsed :=
  if String.eqb s "result" then OCRPage.ParsedResult "A" parsedPages
  else OCRPage.ParseThrows.

Definition jobData (status : string) (done : Z) : OCRPage.JobData :=
  {| OCRPage.job_status := status;
     OCRPage.pages_done := done;
     OCRPage.result := "result";
     OCRPage.job_error := None |}.

End MoreSamples.

(** * The specification's notions

    Definitions that follow the words of the specification, to be compared
    with what the sources compute. *)
Module AsSpecified.






(** The parts [GoogleAIProvider.GenerateContent] accepts. *)
Definition isTextOrBinary (part : llms.ContentPart) : bool :=
  match part with
  | llms.TextContent _ | llms.BinaryContent _ _ => true
  | _ => false
  end.

(** The Gemini part a text or binary part stands for. *)
Definition toGenaiPart (part : llms.ContentPart) : option genai.Part :=
  match part with
  | llms.TextContent t =>
      Some {| genai.Text := t; genai.InlineData := None |}
  | llms.BinaryContent mime data =>
      Some {| genai.Text := "";
              genai.InlineData := Some {| genai.MIMEType := mime; genai.Data := data |} |}
  | _ => None
  end.

(** The request built from one message: a single content, without a
    role, holding the message's parts in order. *)
Definition requestContents (m : llms.MessageContent) : list (option genai.Content) :=
  [Some {| genai.Parts := map toGenaiPart (llms.Parts m); genai.Role := "" |}].

(** A character of the base64 output: a letter, a digit, [+], [/] or the
    padding [=]. *)
Definition isBase64Char (c : ascii) : bool :=
  let n := N_of_ascii c in
  ((65 <=? n) && (n <=? 90) || (97 <=? n) && (n <=? 122)
   || (48 <=? n) && (n <=? 57) || (n =? 43) || (n =? 47) || (n =? 61))%N.

End AsSpecified.

(** * Properties of the base64 encoder *)

Lemma enc_base64_char (v : N) : AsSpecified.isBase64Char (base64.enc v) = true.
Proof.
  unfold base64.enc.
  assert (Hlt : (N.to_nat (N.land v 63) < 64)%nat).
  { change 63%N with (N.ones 6). rewrite N.land_ones.
    change (2 ^ 6)%N with 64%N.
    pose proof (N.mod_upper_bound v 64%N ltac:(discriminate)) as Hb. lia. }
  remember (N.to_nat (N.land v 63)) as k eqn:Hk. clear Hk.
  do 64 (destruct k as [| k]; [reflexivity |]). lia.
Qed.

(** The encoder's output is text-safe: only characters of the standard
    alphabet and the padding. *)
Lemma EncodeToString_base64_chars (src : list byte) :
  Forall (fun c => AsSpecified.isBase64Char c = true)
    (list_ascii_of_string (base64.EncodeToString src)).
Proof.
  assert (Hall : forall (n : nat) (src : list byte), (length src <= n)%nat ->
            Forall (fun c => AsSpecified.isBase64Char c = true)
              (list_ascii_of_string (base64.EncodeToString src))).
  { induction n as [| n IH]; intros [| b0 [| b1 [| b2 rest]]] Hlen;
      cbn [length] in Hlen; try lia; cbn [base64.EncodeToString list_ascii_of_string];
      repeat (constructor; [first [apply enc_base64_char | reflexivity] |]);
      try constructor.
    apply IH. lia. }
  apply (Hall (length src)). lia.
Qed.

(** Four output characters for every started group of three bytes. *)
Lemma EncodeToString_length (src : list byte) :
  String.length (base64.EncodeToString src) = (4 * ((length src + 2) / 3))%nat.
Proof.
  assert (Hall : forall (n : nat) (src : list byte), (length src <= n)%nat ->
            String.length (base64.EncodeToString src)
            = (4 * ((length src + 2) / 3))%nat).
  { induction n as [| n IH]; intros [| b0 [| b1 [| b2 rest]]] Hlen;
      cbn [length] in Hlen; try lia; try reflexivity.
    cbn [base64.EncodeToString String.length length].
    rewrite IH by lia.
    replace (S (S (S (length rest))) + 2)%nat with (1 * 3 + (length rest + 2))%nat by lia.
    rewrite Nat.div_add_l by discriminate. lia. }
  apply (Hall (length src)). lia.
Qed.

(** * Properties of [ProcessImage] *)
Section ProcessImageFacts.

Variable strings_ToLower : string -> string.
Variable image_Decode : list byte -> Outcome LLMOcr.Image.
Variable llms_CountTokens : string -> string -> Z.

Local Abbreviation ProcessImage :=
  (LLMOcr.ProcessImage strings_ToLower image_Decode llms_CountTokens).
Local Abbreviation providerIs := (LLMOcr.providerIs strings_ToLower).
Local Abbreviation buildParts := (LLMOcr.buildParts strings_ToLower).
Local Abbreviation buildCallOpts := (LLMOcr.buildCallOpts strings_ToLower).
Local Abbreviation limitHitOf := (LLMOcr.limitHitOf strings_ToLower llms_CountTokens).
Local Abbreviation tokenCountOf := (LLMOcr.tokenCountOf llms_CountTokens).
Local Abbreviation resultOf := (LLMOcr.resultOf strings_ToLower llms_CountTokens).

(** [ProcessImage] by cases on the answers of the decoder and of the model. *)
Lemma ProcessImage_cases (p : LLMOcr.LLMProvider) (img : list byte) (page : Z) :
  let messages := LLMOcr.messagesOf (buildParts p img) in
  let callOpts := buildCallOpts p in
  let sent := [LLMOcr.EvImageDecode img; LLMOcr.EvGenerateContent messages callOpts] in
  ProcessImage p img page =
  match image_Decode img with
  | Err e => ([LLMOcr.EvImageDecode img], Err ("error decoding image: " +:+ e))
  | Panic msg => ([LLMOcr.EvImageDecode img], Panic msg)
  | Ok _ =>
      match llms.GenerateContent (LLMOcr.LLM p) messages callOpts with
      | Err e => (sent, Err ("error getting response from LLM: " +:+ e))
      | Panic msg => (sent, Panic msg)
      | Ok None => (sent, Panic nil_dereference)
      | Ok (Some completion) =>
          match llms.Choices completion with
          | [] => (sent, Panic index_out_of_range)
          | None :: _ => (sent, Panic nil_dereference)
          | Some choice :: _ => (sent, Ok (resultOf p choice))
          end
      end
  end.
Proof.
  intros messages callOpts sent. unfold LLMOcr.ProcessImage.
  destruct (image_Decode img) as [im | e | msg]; try reflexivity.
  cbn [LLMOcr.perform LLMOcr.wrapError LLMOcr.bind].
  fold messages. fold callOpts.
  destruct (llms.GenerateContent (LLMOcr.LLM p) messages callOpts)
    as [[completion |] | e | msg]; try reflexivity.
  cbn. destruct (llms.Choices completion) as [| [choice |] rest]; reflexivity.
Qed.

(** A successful call: the image decoded, the model answered with a first
    choice, and the result is built from that choice. *)
Lemma ProcessImage_Ok_inv (p : LLMOcr.LLMProvider) (img : list byte) (page : Z)
    (r : LLMOcr.OCRResult) :
  LLMOcr.outcome (ProcessImage p img page) = Ok r ->
  exists completion choice rest,
    is_Ok (image_Decode img) = true
    /\ llms.GenerateContent (LLMOcr.LLM p)
         (LLMOcr.messagesOf (buildParts p img)) (buildCallOpts p) = Ok (Some completion)
    /\ llms.Choices completion = Some choice :: rest
    /\ r = resultOf p choice.
Proof.
  rewrite ProcessImage_cases.
  destruct (image_Decode img) as [im | e | msg]; cbn; try discriminate.
  destruct (llms.GenerateContent _ _ _) as [[completion |] | e | msg] eqn:Hgen;
    cbn; try discriminate.
  destruct (llms.Choices completion) as [| [choice |] rest] eqn:Hch;
    cbn; try discriminate.
  intros [= <-]. exists completion, choice, rest. auto.
Qed.




(** C4: a provider that is not Ollama with a positive
    [OllamaOcrMaxTokensPerPage] never sets [OcrLimitHit] on a successful
    result. *)
Theorem ProcessImage_no_limit_tracking (p : LLMOcr.LLMProvider) (img : list byte)
    (page : Z) (r : LLMOcr.OCRResult) :
  ~ (providerIs p "ollama" = true /\ 0 < LLMOcr.OllamaOcrMaxTokensPerPage p) ->
  LLMOcr.outcome (ProcessImage p img page) = Ok r ->
  LLMOcr.OcrLimitHit r = false.
Proof.
  intros Hnot Hok.
  destruct (ProcessImage_Ok_inv _ _ _ _ Hok) as (completion & choice & rest & _ & _ & _ & ->).
  cbn [LLMOcr.resultOf LLMOcr.OcrLimitHit]. unfold LLMOcr.limitHitOf.
  destruct (providerIs p "ollama") eqn:Hp; [| reflexivity].
  destruct (Z.ltb_spec 0 (LLMOcr.OllamaOcrMaxTokensPerPage p)) as [Hpos | Hle];
    [| reflexivity].
  exfalso. apply Hnot. split; [reflexivity | assumption].
Qed.


(** The requests of a call: one, when the image decodes, and none
    otherwise. *)
Lemma ProcessImage_requests (p : LLMOcr.LLMProvider) (img : list byte) (page : Z) :
  LLMOcr.requests (ProcessImage p img page) =
  if is_Ok (image_Decode img)
  then [(LLMOcr.messagesOf (buildParts p img), buildCallOpts p)]
  else [].
Proof.
  rewrite ProcessImage_cases. unfold LLMOcr.requests, LLMOcr.trace.
  destruct (image_Decode img) as [im | e | msg]; try reflexivity.
  destruct (llms.GenerateContent _ _ _) as [[completion |] | e | msg]; try reflexivity.
  destruct (llms.Choices completion) as [| [choice |] rest]; reflexivity.
Qed.

(** C5: the one request of a call carries two parts, the page image and
    the OCR prompt. The image is a binary part with the raw bytes unless
    the provider is OpenAI, which gets an image URL part holding a base64
    data URI, made of base64 characters only; no request is sent for an
    image that does not decode. *)
Theorem ProcessImage_image_encoding (p : LLMOcr.LLMProvider) (img : list byte)
    (page : Z) :
  LLMOcr.requests (ProcessImage p img page) =
  (if is_Ok (image_Decode img) then
    [ ( [ {| llms.Role := llms.ChatMessageTypeHuman;
             llms.Parts :=
               [ if providerIs p "openai"
                 then llms.ImageURLContent
                        ("data:image/jpeg;base64," +:+ base64.EncodeToString img) ""
                 else llms.BinaryContent "image/jpeg" img;
                 llms.TextContent (LLMOcr.Prompt p) ] |} ],
        buildCallOpts p ) ]
   else [])
  /\ Forall (fun c => AsSpecified.isBase64Char c = true)
       (list_ascii_of_string (base64.EncodeToString img)).
Proof.
  split; [| apply EncodeToString_base64_chars].
  rewrite ProcessImage_requests.
  destruct (is_Ok (image_Decode img)); [| reflexivity].
  unfold LLMOcr.messagesOf, LLMOcr.buildParts.
  destruct (providerIs p "openai"); reflexivity.
Qed.

(** The options built for a provider, option by option. *)
Lemma buildCallOpts_In (p : LLMOcr.LLMProvider) (o : llms.CallOption) :
  In o (buildCallOpts p) <->
  providerIs p "ollama" = true /\
  match o with
  | llms.WithMaxTokens n =>
      0 < LLMOcr.OllamaOcrMaxTokensPerPage p /\ n = LLMOcr.OllamaOcrMaxTokensPerPage p
  | llms.WithTemperature t => LLMOcr.OllamaOcrTemperature p = Some t
  | llms.WithTopK k => LLMOcr.OllamaOcrTopK p = Some k
  end.
Proof.
  unfold LLMOcr.buildCallOpts.
  destruct (providerIs p "ollama"); [| cbn; intuition discriminate].
  destruct (Z.ltb_spec 0 (LLMOcr.OllamaOcrMaxTokensPerPage p)) as [Hpos | Hle];
    destruct (LLMOcr.OllamaOcrTemperature p) as [t |];
    destruct (LLMOcr.OllamaOcrTopK p) as [k |];
    destruct o as [n | t' | k']; cbn;
    intuition (try discriminate; try congruence; try lia).
Qed.

(** C6: in the request of a call, a maximum-token option is present
    exactly when the provider is Ollama and the configured maximum is
    positive, a temperature option exactly when the provider is Ollama and
    a temperature is set, and a top-K option exactly when the provider is
    Ollama and a top-K is set; each carries the configured value. *)
Theorem ProcessImage_call_options (p : LLMOcr.LLMProvider) (img : list byte)
    (page : Z) (messages : list llms.MessageContent) (opts : list llms.CallOption) :
  In (messages, opts) (LLMOcr.requests (ProcessImage p img page)) ->
  (forall n, In (llms.WithMaxTokens n) opts <->
     providerIs p "ollama" = true
     /\ 0 < LLMOcr.OllamaOcrMaxTokensPerPage p
     /\ n = LLMOcr.OllamaOcrMaxTokensPerPage p)
  /\ (forall t, In (llms.WithTemperature t) opts <->
        providerIs p "ollama" = true /\ LLMOcr.OllamaOcrTemperature p = Some t)
  /\ (forall k, In (llms.WithTopK k) opts <->
        providerIs p "ollama" = true /\ LLMOcr.OllamaOcrTopK p = Some k).
Proof.
  rewrite ProcessImage_requests.
  destruct (is_Ok (image_Decode img)); cbn; [| tauto].
  intros [[= <- <-] | []].
  split; [| split]; intros x; rewrite buildCallOpts_In; cbn; tauto.
Qed.

(** C7: when the image bytes do not decode, [ProcessImage] returns the
    decoder's error, wrapped, and no result; the decoder was tried once and
    the model was never called. *)
Theorem ProcessImage_corrupt_image (p : LLMOcr.LLMProvider) (img : list byte)
    (page : Z) (e : string) :
  image_Decode img = Err e ->
  LLMOcr.outcome (ProcessImage p img page) = Err ("error decoding image: " +:+ e)
  /\ LLMOcr.trace (ProcessImage p img page) = [LLMOcr.EvImageDecode img]
  /\ LLMOcr.requests (ProcessImage p img page) = [].
Proof.
  intros Hdec. rewrite ProcessImage_requests, ProcessImage_cases, Hdec.
  repeat split.
Qed.

(** [convertParts] on parts that are all text or binary. *)
Lemma convertParts_supported (parts : list llms.ContentPart)
    (acc : list (option genai.Part)) :
  forallb AsSpecified.isTextOrBinary parts = true ->
  GoogleAI.convertParts parts acc = Ok (acc ++ map AsSpecified.toGenaiPart parts).
Proof.
  revert acc. induction parts as [| part rest IH]; intros acc Hall.
  - cbn. now rewrite app_nil_r.
  - cbn in Hall. apply andb_prop in Hall as [Hp Hrest].
    destruct part; try discriminate; cbn;
      rewrite (IH _ Hrest), <- app_assoc; reflexivity.
Qed.


End ProcessImageFacts.

(** * [ProcessImage] on the sample values *)
Section ProcessImageSamples.

Local Abbreviation ProcessImage :=
  (LLMOcr.ProcessImage LLMOcr.asciiToLower Samples.decode Samples.count).





Lemma ProcessImage_no_limit_tracking_witness :
  exists r,
    LLMOcr.outcome (ProcessImage Samples.openaiBounded Samples.jpeg 0) = Ok r
    /\ LLMOcr.OcrLimitHit r = false.
Proof.
  eexists. split; [vm_compute; reflexivity |].
  apply (ProcessImage_no_limit_tracking LLMOcr.asciiToLower Samples.decode Samples.count
           Samples.openaiBounded Samples.jpeg 0).
  - intros [Hollama _]. vm_compute in Hollama. discriminate Hollama.
  - vm_compute. reflexivity.
Defined.

Lemma ProcessImage_call_options_witness :
  (forall n,
     In (llms.WithMaxTokens n) [llms.WithMaxTokens 10; llms.WithTopK 40] <->
     LLMOcr.providerIs LLMOcr.asciiToLower Samples.ollamaReported "ollama" = true
     /\ 0 < LLMOcr.OllamaOcrMaxTokensPerPage Samples.ollamaReported
     /\ n = LLMOcr.OllamaOcrMaxTokensPerPage Samples.ollamaReported)
  /\ (forall t,
        In (llms.WithTemperature t) [llms.WithMaxTokens 10; llms.WithTopK 40] <->
        LLMOcr.providerIs LLMOcr.asciiToLower Samples.ollamaReported "ollama" = true
        /\ LLMOcr.OllamaOcrTemperature Samples.ollamaReported = Some t)
  /\ (forall k,
        In (llms.WithTopK k) [llms.WithMaxTokens 10; llms.WithTopK 40] <->
        LLMOcr.providerIs LLMOcr.asciiToLower Samples.ollamaReported "ollama" = true
        /\ LLMOcr.OllamaOcrTopK Samples.ollamaReported = Some k).
Proof.
  apply (ProcessImage_call_options LLMOcr.asciiToLower Samples.decode Samples.count
           Samples.ollamaReported Samples.jpeg 0
           (LLMOcr.messagesOf
              (LLMOcr.buildParts LLMOcr.asciiToLower Samples.ollamaReported Samples.jpeg))).
  vm_compute. left. reflexivity.
Defined.

Lemma ProcessImage_corrupt_image_witness :
  LLMOcr.outcome (ProcessImage Samples.openaiBounded Samples.garbage 0)
    = Err "error decoding image: image: unknown format"
  /\ LLMOcr.trace (ProcessImage Samples.openaiBounded Samples.garbage 0)
     = [LLMOcr.EvImageDecode Samples.garbage]
  /\ LLMOcr.requests (ProcessImage Samples.openaiBounded Samples.garbage 0) = [].
Proof.
  apply (ProcessImage_corrupt_image LLMOcr.asciiToLower Samples.decode Samples.count
           Samples.openaiBounded Samples.garbage 0 "image: unknown format").
  reflexivity.
Defined.

End ProcessImageSamples.

(** * Properties of [GoogleAIProvider.GenerateContent] *)

(** [convertParts] stops with an error at a part that is neither text nor
    binary. *)
Lemma convertParts_unsupported (parts : list llms.ContentPart)
    (acc : list (option genai.Part)) :
  forallb AsSpecified.isTextOrBinary parts = false ->
  exists part,
    In part parts
    /\ AsSpecified.isTextOrBinary part = false
    /\ GoogleAI.convertParts parts acc =
       Err ("unsupported content part type for GoogleAIProvider: "
            +:+ llms.type_name part).
Proof.
  revert acc. induction parts as [| part rest IH]; intros acc Hsome.
  - discriminate.
  - cbn in Hsome.
    destruct (AsSpecified.isTextOrBinary part) eqn:Hpart.
    + cbn in Hsome.
      destruct part; try discriminate; cbn;
        match goal with
        | |- context [GoogleAI.convertParts rest ?a] =>
            destruct (IH a Hsome) as (bad & Hin & Hbad & Heq)
        end;
        exists bad; (split; [right; exact Hin | split; [exact Hbad | exact Heq]]).
    + exists part. split; [left; reflexivity | split; [exact Hpart |]].
      destruct part; try discriminate; reflexivity.
Qed.

(** C10: [GenerateContent] returns an error for an empty message list and
    for a first message without parts; it returns an error when the first
    message holds a part that is neither text nor binary; otherwise (with a
    client) its answer is the handled answer of one API call whose contents
    are the converted parts of the first message; and in every case the
    messages after the first and the call options have no effect. *)
Theorem GenerateContent_first_message_only (p : GoogleAI.GoogleAIProvider)
    (opts : list llms.CallOption) :
  GoogleAI.GenerateContent p [] opts = Err "no prompt provided"
  /\ (forall m rest,
        llms.Parts m = [] ->
        GoogleAI.GenerateContent p (m :: rest) opts = Err "no prompt provided")
  /\ (forall m rest part,
        In part (llms.Parts m) ->
        AsSpecified.isTextOrBinary part = false ->
        exists bad,
          In bad (llms.Parts m)
          /\ AsSpecified.isTextOrBinary bad = false
          /\ GoogleAI.GenerateContent p (m :: rest) opts =
             Err ("unsupported content part type for GoogleAIProvider: "
                  +:+ llms.type_name bad))
  /\ (forall m rest c,
        llms.Parts m <> [] ->
        forallb AsSpecified.isTextOrBinary (llms.Parts m) = true ->
        GoogleAI.client p = Some c ->
        GoogleAI.GenerateContent p (m :: rest) opts =
        GoogleAI.handleResponse
          (genai.Models_GenerateContent c (GoogleAI.model p)
             (AsSpecified.requestContents m) (GoogleAI.genConfigOf p)))
  /\ (forall m rest rest' opts',
        GoogleAI.GenerateContent p (m :: rest) opts
        = GoogleAI.GenerateContent p (m :: rest') opts').
Proof.
  split; [reflexivity |].
  split; [intros m rest Hparts; cbn; rewrite Hparts; reflexivity |].
  split; [| split].
  - intros m rest part Hin Hpart.
    assert (Hsome : forallb AsSpecified.isTextOrBinary (llms.Parts m) = false).
    { apply not_true_is_false. intros Hall.
      rewrite forallb_forall in Hall. rewrite (Hall _ Hin) in Hpart. discriminate. }
    destruct (convertParts_unsupported _ [] Hsome) as (bad & Hbin & Hbad & Heq).
    exists bad. split; [exact Hbin | split; [exact Hbad |]].
    cbn. destruct (llms.Parts m) as [| x xs] eqn:Hparts; [destruct Hin |].
    cbn [length Nat.eqb]. rewrite Heq. reflexivity.
  - intros m rest c Hne Hall Hclient.
    cbn. destruct (llms.Parts m) as [| x xs] eqn:Hparts; [congruence |].
    cbn [length Nat.eqb].
    rewrite (convertParts_supported _ [] Hall), Hclient.
    unfold AsSpecified.requestContents. rewrite Hparts. reflexivity.
  - intros m rest rest' opts'. reflexivity.
Qed.

(** * Properties of start-up *)
Section StartupFacts.

Variable w : Main.World.
Variable env : gmap string string.

(** Inverts one step of a start-up sequence that went on. *)
Ltac continue_step H :=
  match type of H with
  | Main.bind ?m _ = Main.Continue _ =>
      let E := fresh "Hstep" in
      destruct m eqn:E; cbn [Main.bind] in H; [| discriminate H | discriminate H]
  end.

Lemma fatalIf_site (cond : bool) (site site' : Main.FatalSite) (msg msg' : string) :
  Main.fatalIf cond site msg = Main.Fatal site' msg' -> site' = site.
Proof. unfold Main.fatalIf. destruct cond; [intros [= <- _]; reflexivity | discriminate]. Qed.

Lemma fatalOnError_site {A} (site site' : Main.FatalSite) (prefix msg' : string)
    (o : Outcome A) :
  Main.fatalOnError site prefix o = Main.Fatal site' msg' -> site' = site.
Proof. destruct o; cbn; [discriminate | intros [= <- _]; reflexivity | discriminate]. Qed.

(** [validateOrDefaultEnvVars] leaves the vision provider name alone. *)
Lemma validateOrDefaultEnvVars_visionLlmProvider (g g' : Main.Globals) :
  Main.validateOrDefaultEnvVars w env g = Main.Continue g' ->
  Main.visionLlmProvider g' = Main.visionLlmProvider g.
Proof.
  unfold Main.validateOrDefaultEnvVars. intros H.
  repeat continue_step H.
  destruct (Main.nonEmpty (os.Getenv env "TOKEN_LIMIT")).
  - destruct (Main.strconv_Atoi w _) as [parsed | e | msg].
    + destruct (parsed <? 0); [discriminate H |].
      injection H as <-. reflexivity.
    + injection H as <-. reflexivity.
    + injection H as <-. reflexivity.
  - injection H as <-. reflexivity.
Qed.

(** With provider type ["llm"] and no vision provider, the provider stays
    nil and [ocr.NewProvider] is not consulted. *)
Lemma initOcrProvider_llm' (w' : Main.World) (g : Main.Globals) (cfg : LLMOcr.Config) :
  Main.visionLlmProvider g = "" ->
  Main.initOcrProvider w' g "llm" cfg = Main.Continue None.
Proof. unfold Main.initOcrProvider. intros ->. reflexivity. Qed.

Lemma initOcrProvider_llm (g : Main.Globals) (cfg : LLMOcr.Config) :
  Main.visionLlmProvider g = "" ->
  Main.initOcrProvider w g "llm" cfg = Main.Continue None.
Proof. apply initOcrProvider_llm'. Qed.

(** What a completed start-up went through. *)
Lemma main_Continue_inv (srv : Main.Server) :
  Main.main w env = Main.Continue srv ->
  exists g prompt ocrProvider,
    Main.validateOrDefaultEnvVars w env (Main.initGlobals w env) = Main.Continue g
    /\ Main.initOcrProvider w g (Main.providerTypeOf env)
         (Main.ocrConfigOf w env g (Main.providerTypeOf env) prompt)
       = Main.Continue ocrProvider
    /\ Main.ocrProvider (Main.app_ srv) = ocrProvider
    /\ Main.numWorkers_ srv = 1
    /\ Main.workers srv = Main.startWorkerPool (Main.app_ srv) 1.
Proof.
  unfold Main.main. intros H.
  repeat continue_step H.
  injection H as <-. cbn.
  eexists _, _, _. repeat split; eassumption.
Qed.



(** Names the site of a fatal step. *)
Ltac fatal_step H :=
  match type of H with
  | Main.bind ?m _ = Main.Fatal _ _ =>
      let E := fresh "Hstep" in
      destruct m eqn:E; cbn [Main.bind] in H;
      [ | injection H as -> -> | discriminate H ]
  end.

Lemma validateOrDefaultEnvVars_site (g : Main.Globals) (site : Main.FatalSite)
    (msg : string) :
  Main.validateOrDefaultEnvVars w env g = Main.Fatal site msg ->
  site = Main.AtValidateEnv.
Proof.
  unfold Main.validateOrDefaultEnvVars, Main.fatalIf. intros H.
  repeat first
    [ match type of H with
      | Main.Fatal _ _ = Main.Fatal _ _ => injection H as <- _; reflexivity
      end
    | discriminate H
    | match type of H with
      | context [if ?c then _ else _] => destruct c; cbn [Main.bind] in H
      end
    | match type of H with
      | context [Main.strconv_Atoi w ?x] => destruct (Main.strconv_Atoi w x)
      end ].
Qed.

Lemma initLogger_site (g : Main.Globals) (site : Main.FatalSite) (msg : string) :
  Main.initLogger g = Main.Fatal site msg -> site = Main.AtInitLogger.
Proof.
  unfold Main.initLogger.
  destruct (_ || _); [discriminate | apply fatalIf_site].
Qed.

Lemma loadTemplate_site (name file dflt what whatParse : string)
    (site : Main.FatalSite) (msg : string) :
  Main.loadTemplate w name file dflt what whatParse = Main.Fatal site msg ->
  site = Main.AtLoadTemplates.
Proof.
  unfold Main.loadTemplate. intros H. fatal_step H.
  - exact (fatalOnError_site _ _ _ _ _ H).
  - destruct (Main.os_ReadFile w _); try discriminate Hstep.
    destruct (Main.os_WriteFile w _ _); [| discriminate Hstep].
    injection Hstep as <- _. reflexivity.
Qed.

Lemma loadTemplates_site (site : Main.FatalSite) (msg : string) :
  Main.loadTemplates w = Main.Fatal site msg -> site = Main.AtLoadTemplates.
Proof.
  unfold Main.loadTemplates. intros H.
  fatal_step H.
  2: { destruct (Main.os_MkdirAll w _); [| discriminate Hstep].
       injection Hstep as <- _. reflexivity. }
  repeat (fatal_step H;
          [| match goal with
             | E : Main.loadTemplate _ _ _ _ _ _ = Main.Fatal _ _ |- _ =>
                 exact (loadTemplate_site _ _ _ _ _ _ _ E)
             end ]).
  discriminate H.
Qed.

Lemma initLimitOcrPages_site (g : Main.Globals) (app : Main.App)
    (site : Main.FatalSite) (msg : string) :
  Main.initLimitOcrPages w env g app = Main.Fatal site msg ->
  site = Main.AtOcrLimitPages.
Proof.
  unfold Main.initLimitOcrPages.
  destruct (Main.isOcrEnabled app); [| discriminate].
  destruct (String.eqb _ ""); [discriminate |].
  intros H. fatal_step H; [discriminate H |].
  exact (fatalOnError_site _ _ _ _ _ Hstep).
Qed.


(** The vision provider name after validation is the one of the
    environment. *)
Lemma validated_visionLlmProvider (g : Main.Globals) :
  Main.validateOrDefaultEnvVars w env (Main.initGlobals w env) = Main.Continue g ->
  Main.visionLlmProvider g = os.Getenv env "VISION_LLM_PROVIDER".
Proof.
  intros H. rewrite (validateOrDefaultEnvVars_visionLlmProvider _ _ H). reflexivity.
Qed.

(** Start-up does not depend on [ocr.NewProvider] when the provider type
    is ["llm"] and no vision provider is named. *)
Lemma main_withNewProvider
    (newProvider : LLMOcr.Config -> Outcome (option Main.Provider)) :
  Main.providerTypeOf env = "llm" ->
  os.Getenv env "VISION_LLM_PROVIDER" = "" ->
  Main.main (Main.withNewProvider w newProvider) env = Main.main w env.
Proof.
  intros Htype Hvision. unfold Main.main. rewrite Htype.
  repeat match goal with
  | |- Main.bind (Main.initOcrProvider _ ?g "llm" ?c1) _
       = Main.bind (Main.initOcrProvider _ ?g "llm" ?c2) _ =>
      rewrite (initOcrProvider_llm g c2), (fun H => initOcrProvider_llm' _ g c1 H)
        by (erewrite validated_visionLlmProvider by eassumption; exact Hvision);
      cbn [Main.bind]
  | |- Main.bind ?m1 _ = Main.bind ?m2 _ =>
      change m1 with m2;
      let E := fresh "Hstep" in
      destruct m2 eqn:E; cbn [Main.bind]; [| reflexivity | reflexivity]
  end.
  reflexivity.
Qed.


(** C9: with provider type ["llm"] (also when [OCR_PROVIDER] is not set)
    and no [VISION_LLM_PROVIDER], start-up never ends at the OCR provider
    initialisation, whatever [ocr.NewProvider] would answer; a start-up
    that reaches the server has a nil OCR provider and reports OCR as
    disabled. *)
Theorem main_llm_without_vision_provider :
  Main.providerTypeOf env = "llm" ->
  os.Getenv env "VISION_LLM_PROVIDER" = "" ->
  (forall site msg,
     Main.main w env = Main.Fatal site msg -> site <> Main.AtOcrProvider)
  /\ (forall srv,
        Main.main w env = Main.Continue srv ->
        Main.ocrProvider (Main.app_ srv) = None
        /\ Main.isOcrEnabled (Main.app_ srv) = false)
  /\ (forall newProvider,
        Main.main (Main.withNewProvider w newProvider) env = Main.main w env).
Proof.
  intros Htype Hvision. split; [| split].
  - intros site msg H. unfold Main.main in H. rewrite Htype in H.
    fatal_step H.
    2: { rewrite (validateOrDefaultEnvVars_site _ _ _ Hstep). discriminate. }
    fatal_step H.
    2: { rewrite (initLogger_site _ _ _ Hstep0). discriminate. }
    fatal_step H.
    2: { rewrite (fatalOnError_site _ _ _ _ _ Hstep1). discriminate. }
    fatal_step H.
    2: { rewrite (loadTemplates_site _ _ Hstep2). discriminate. }
    fatal_step H.
    2: { rewrite (fatalOnError_site _ _ _ _ _ Hstep3). discriminate. }
    fatal_step H.
    2: { rewrite (fatalOnError_site _ _ _ _ _ Hstep4). discriminate. }
    fatal_step H.
    2: { rewrite (fatalOnError_site _ _ _ _ _ Hstep5). discriminate. }
    rewrite initOcrProvider_llm in H
      by (rewrite (validated_visionLlmProvider _ Hstep); exact Hvision).
    cbn [Main.bind] in H.
    fatal_step H; [discriminate H |].
    match goal with
    | E : Main.initLimitOcrPages _ _ _ _ = Main.Fatal _ _ |- _ =>
        rewrite (initLimitOcrPages_site _ _ _ _ E)
    end.
    discriminate.
  - intros srv H.
    destruct (main_Continue_inv _ H) as (g & prompt & prov & Hval & Hinit & Happ & _).
    rewrite Htype in Hinit.
    rewrite initOcrProvider_llm in Hinit
      by (rewrite (validated_visionLlmProvider _ Hval); exact Hvision).
    injection Hinit as <-.
    unfold Main.isOcrEnabled. rewrite Happ. split; reflexivity.
  - intros newProvider. apply main_withNewProvider; assumption.
Qed.

End StartupFacts.

(** * Start-up on the sample world *)


Lemma main_llm_without_vision_provider_witness :
  exists srv,
    Main.main Samples.world Samples.env = Main.Continue srv
    /\ Main.ocrProvider (Main.app_ srv) = None
    /\ Main.isOcrEnabled (Main.app_ srv) = false.
Proof.
  eexists. split; [vm_compute; reflexivity |].
  apply (main_llm_without_vision_provider Samples.world Samples.env eq_refl eq_refl).
  vm_compute. reflexivity.
Defined.

(** * Properties of the re-OCR handler *)
Section ReOcrFacts.

Variable Document : Type.
Implicit Types (s : ExperimentalOCR.State Document) (prev : list ExperimentalOCR.OCRPageResult).

(** The updater keeps the number of pages. *)
Lemma replacePage_length (pageIdx : Z) (data : ExperimentalOCR.ReOcrData) prev :
  length (ExperimentalOCR.replacePage pageIdx data prev) = length prev.
Proof. unfold ExperimentalOCR.replacePage. apply length_imap. Qed.

(** The updater leaves every other index as it was. *)
Lemma replacePage_other (pageIdx : Z) (data : ExperimentalOCR.ReOcrData) prev (j : nat) :
  Z.of_nat j <> pageIdx ->
  ExperimentalOCR.replacePage pageIdx data prev !! j = prev !! j.
Proof.
  intros Hne. unfold ExperimentalOCR.replacePage. rewrite list_lookup_imap.
  destruct (prev !! j) as [res |]; [| reflexivity]. cbn.
  destruct (Z.eqb_spec (Z.of_nat j) pageIdx); [contradiction | reflexivity].
Qed.

(** The updater puts the new text and flag at the page's index. *)
Lemma replacePage_same (pageIdx : Z) (data : ExperimentalOCR.ReOcrData) prev
    (old : ExperimentalOCR.OCRPageResult) :
  ExperimentalOCR.js_index prev pageIdx = Some old ->
  ExperimentalOCR.js_index (ExperimentalOCR.replacePage pageIdx data prev) pageIdx =
  Some {| ExperimentalOCR.text := ExperimentalOCR.data_text data;
          ExperimentalOCR.ocrLimitHit := ExperimentalOCR.data_ocrLimitHit data;
          ExperimentalOCR.generationInfo := None |}.
Proof.
  unfold ExperimentalOCR.js_index, ExperimentalOCR.replacePage.
  destruct (Z.ltb_spec pageIdx 0) as [Hneg | Hpos]; [discriminate |].
  intros Hold. rewrite list_lookup_imap, Hold. cbn.
  rewrite Z2Nat.id by assumption. rewrite Z.eqb_refl. reflexivity.
Qed.

(** What the handler does to the page list and to the combined text. *)
Lemma handleReOcrPage_pages (pageIdx : Z) (post : ExperimentalOCR.PostResult) s :
  ExperimentalOCR.ocrResult (ExperimentalOCR.handleReOcrPage pageIdx post s)
    = ExperimentalOCR.ocrResult s
  /\ ExperimentalOCR.perPageResults (ExperimentalOCR.handleReOcrPage pageIdx post s) =
     match ExperimentalOCR.js_index (ExperimentalOCR.perPageResults s) pageIdx, post with
     | Some _, ExperimentalOCR.Resolved data =>
         ExperimentalOCR.replacePage pageIdx data (ExperimentalOCR.perPageResults s)
     | _, _ => ExperimentalOCR.perPageResults s
     end.
Proof.
  unfold ExperimentalOCR.handleReOcrPage.
  destruct (ExperimentalOCR.js_index (ExperimentalOCR.perPageResults s) pageIdx);
    [| split; reflexivity].
  destruct post as [data |]; [| split; reflexivity].
  cbn. destruct (pageIdx + 1 >? _); split; reflexivity.
Qed.

(** C3: a re-OCR of a valid page index leaves the combined text, the
    number of pages and every other index of [perPageResults] as they
    were. *)
Theorem handleReOcrPage_frame (pageIdx : Z) (post : ExperimentalOCR.PostResult) s :
  0 <= pageIdx < Z.of_nat (length (ExperimentalOCR.perPageResults s)) ->
  ExperimentalOCR.ocrResult (ExperimentalOCR.handleReOcrPage pageIdx post s)
    = ExperimentalOCR.ocrResult s
  /\ length (ExperimentalOCR.perPageResults
               (ExperimentalOCR.handleReOcrPage pageIdx post s))
     = length (ExperimentalOCR.perPageResults s)
  /\ (forall j : nat,
        Z.of_nat j <> pageIdx ->
        ExperimentalOCR.perPageResults
          (ExperimentalOCR.handleReOcrPage pageIdx post s) !! j
        = ExperimentalOCR.perPageResults s !! j).
Proof.
  intros Hvalid.
  destruct (handleReOcrPage_pages pageIdx post s) as [Htext Hpages].
  split; [exact Htext |]. rewrite Hpages.
  destruct (ExperimentalOCR.js_index _ _); [| split; reflexivity].
  destruct post as [data |]; [| split; reflexivity].
  split; [apply replacePage_length |].
  intros j Hne. apply replacePage_other. exact Hne.
Qed.

(** A successful re-OCR of a valid index does replace that entry. *)
Lemma handleReOcrPage_replaces (pageIdx : Z) (data : ExperimentalOCR.ReOcrData) s :
  0 <= pageIdx < Z.of_nat (length (ExperimentalOCR.perPageResults s)) ->
  ExperimentalOCR.js_index
    (ExperimentalOCR.perPageResults
       (ExperimentalOCR.handleReOcrPage pageIdx (ExperimentalOCR.Resolved data) s))
    pageIdx
  = Some {| ExperimentalOCR.text := ExperimentalOCR.data_text data;
            ExperimentalOCR.ocrLimitHit := ExperimentalOCR.data_ocrLimitHit data;
            ExperimentalOCR.generationInfo := None |}.
Proof.
  intros Hvalid.
  destruct (handleReOcrPage_pages pageIdx (ExperimentalOCR.Resolved data) s)
    as [_ Hpages].
  rewrite Hpages.
  destruct (ExperimentalOCR.js_index (ExperimentalOCR.perPageResults s) pageIdx)
    as [old |] eqn:Hold.
  - exact (replacePage_same _ _ _ _ Hold).
  - exfalso. unfold ExperimentalOCR.js_index in Hold.
    destruct (Z.ltb_spec pageIdx 0); [lia |].
    apply lookup_ge_None in Hold. lia.
Qed.

End ReOcrFacts.

Lemma handleReOcrPage_frame_witness :
  let s' :=
    ExperimentalOCR.handleReOcrPage 1
      (ExperimentalOCR.Resolved
         {| ExperimentalOCR.data_text := "B again";
            ExperimentalOCR.data_ocrLimitHit := false |})
      Samples.pageState in
  ExperimentalOCR.ocrResult s' = "AB"
  /\ length (ExperimentalOCR.perPageResults s') = 2%nat
  /\ (forall j : nat,
        Z.of_nat j <> 1 ->
        ExperimentalOCR.perPageResults s' !! j
        = ExperimentalOCR.perPageResults Samples.pageState !! j).
Proof.
  apply (handleReOcrPage_frame unit 1
           (ExperimentalOCR.Resolved
              {| ExperimentalOCR.data_text := "B again";
                 ExperimentalOCR.data_ocrLimitHit := false |})
           Samples.pageState).
  cbn. lia.
Defined.

(** * Evaluations *)

(** The encoder on the test vectors of RFC 4648. *)
Example EncodeToString_rfc4648 :
  map (fun s => base64.EncodeToString (list_byte_of_string s))
    [""; "f"; "fo"; "foo"; "foob"; "fooba"; "foobar"]
  = [""; "Zg=="; "Zm8="; "Zm9v"; "Zm9vYg=="; "Zm9vYmE="; "Zm9vYmFy"].
Proof. reflexivity. Qed.

(** OpenAI gets the image as a data URI and no call options. *)
Example ProcessImage_openai_request :
  LLMOcr.requests
    (LLMOcr.ProcessImage LLMOcr.asciiToLower Samples.decode Samples.count
       Samples.openaiBounded Samples.jpeg 0)
  = [ ( [ {| llms.Role := llms.ChatMessageTypeHuman;
             llms.Parts :=
               [ llms.ImageURLContent "data:image/jpeg;base64,/9j/4A==" "";
                 llms.TextContent "Transcribe the page." ] |} ],
        [] ) ].
Proof. reflexivity. Qed.

(** A model that answers without any choice makes the call panic. *)
Example ProcessImage_no_choice :
  LLMOcr.outcome
    (LLMOcr.ProcessImage LLMOcr.asciiToLower Samples.decode Samples.count
       (Samples.provider "ollama" 0 None None (Samples.fixedModel []))
       Samples.jpeg 0)
  = Panic index_out_of_range.
Proof. reflexivity. Qed.

(** A Gemini answer without candidates is an error of [ProcessImage]. *)
Example ProcessImage_gemini_no_candidate :
  LLMOcr.outcome
    (LLMOcr.ProcessImage LLMOcr.asciiToLower Samples.decode Samples.count
       (Samples.geminiProvider (Ok (Some Samples.emptyResponse))) Samples.jpeg 0)
  = Err "error getting response from LLM: googleai GenerateContent API returned empty response".
Proof. reflexivity. Qed.

(** Naming a vision provider makes start-up depend on [ocr.NewProvider]. *)
Example main_with_vision_provider :
  Main.main Samples.world (<["VISION_LLM_PROVIDER" := "ollama"]> Samples.env)
  = Main.Fatal Main.AtOcrProvider
      "Failed to initialize OCR provider: unsupported OCR provider".
Proof. vm_compute. reflexivity. Qed.

(** * Further properties of the providers *)
Section ProviderFacts.

Variable strings_ToLower : string -> string.
Variable image_Decode : list byte -> Outcome LLMOcr.Image.
Variable llms_CountTokens : string -> string -> Z.

Local Abbreviation ProcessImage :=
  (LLMOcr.ProcessImage strings_ToLower image_Decode llms_CountTokens).
Local Abbreviation providerIs := (LLMOcr.providerIs strings_ToLower).
Local Abbreviation buildParts := (LLMOcr.buildParts strings_ToLower).
Local Abbreviation buildCallOpts := (LLMOcr.buildCallOpts strings_ToLower).
Local Abbreviation tokenCountOf := (LLMOcr.tokenCountOf llms_CountTokens).

(** The only shape of a successful answer of [GenerateContent]. *)
Lemma GenerateContent_Ok_inv (g : GoogleAI.GoogleAIProvider)
    (messages : list llms.MessageContent) (opts : list llms.CallOption)
    (r : option llms.ContentResponse) :
  GoogleAI.GenerateContent g messages opts = Ok r ->
  exists text,
    r = Some {| llms.Choices :=
                  [Some {| llms.Content := text;
                           llms.StopReason := "";
                           llms.GenerationInfo := None |}] |}.
Proof.
  unfold GoogleAI.GenerateContent.
  destruct messages as [| m0 rest]; [discriminate |].
  destruct (length (llms.Parts m0) =? 0)%nat; [discriminate |].
  destruct (GoogleAI.convertParts _ _); try discriminate.
  destruct (GoogleAI.client g) as [c |]; [| discriminate].
  unfold GoogleAI.handleResponse.
  destruct (genai.Models_GenerateContent _ _ _ _) as [[resp |] | e | m];
    try discriminate.
  destruct (length (genai.Candidates resp) =? 0)%nat; [discriminate |].
  intros [= <-]. eexists. reflexivity.
Qed.

(** X1: whenever [GoogleAIProvider.GenerateContent] succeeds, its
    response is non-nil and holds exactly one choice, non-nil and without
    generation metadata. *)
Theorem GenerateContent_Ok_shape (g : GoogleAI.GoogleAIProvider)
    (messages : list llms.MessageContent) (opts : list llms.CallOption)
    (r : option llms.ContentResponse) :
  GoogleAI.GenerateContent g messages opts = Ok r ->
  exists text,
    r = Some {| llms.Choices :=
                  [Some {| llms.Content := text;
                           llms.StopReason := "";
                           llms.GenerationInfo := None |}] |}.
Proof. apply GenerateContent_Ok_inv. Qed.

(** X2: with a [GoogleAIProvider] as its model, [ProcessImage] never
    panics on the shape of the answer: a panic is one of the decoder or of
    [GenerateContent] itself. A result carries no generation metadata, so
    the token count for limit detection is always the tokenizer's. *)
Theorem ProcessImage_gemini_shape (p : LLMOcr.LLMProvider)
    (g : GoogleAI.GoogleAIProvider) (img : list byte) (page : Z) :
  LLMOcr.LLM p = GoogleAI.asModel g ->
  (forall msg,
     LLMOcr.outcome (ProcessImage p img page) = Panic msg ->
     image_Decode img = Panic msg
     \/ GoogleAI.GenerateContent g (LLMOcr.messagesOf (buildParts p img))
          (buildCallOpts p) = Panic msg)
  /\ (forall r,
        LLMOcr.outcome (ProcessImage p img page) = Ok r ->
        LLMOcr.GenerationInfo r = None
        /\ tokenCountOf p (LLMOcr.Text r) (LLMOcr.GenerationInfo r)
           = llms_CountTokens (LLMOcr.Model p) (LLMOcr.Text r)).
Proof.
  intros Hllm. rewrite ProcessImage_cases, Hllm.
  cbn [GoogleAI.asModel llms.GenerateContent].
  destruct (image_Decode img) as [im | e | m]; cbn [LLMOcr.outcome snd].
  2: { split; [discriminate | discriminate]. }
  2: { split; [intros msg [= <-]; left; reflexivity | discriminate]. }
  destruct (GoogleAI.GenerateContent g _ _) as [r | e | m] eqn:Hgen;
    cbn [LLMOcr.outcome snd].
  - destruct (GenerateContent_Ok_inv _ _ _ _ Hgen) as [text ->].
    cbn [llms.Choices LLMOcr.outcome snd].
    split; [discriminate |]. intros r [= <-]. split; reflexivity.
  - split; discriminate.
  - split; [intros msg [= <-]; right; reflexivity | discriminate].
Qed.

(** X3: the two entry points of [GoogleAIProvider] treat an answer of
    the API alike: [GenerateText] returns the error [GenerateContent]
    would return, and otherwise the content of the choice it would
    build. *)
Theorem GenerateText_as_GenerateContent (g : GoogleAI.GoogleAIProvider)
    (c : genai.Client) (prompt : string) :
  GoogleAI.client g = Some c ->
  GoogleAI.GenerateText g prompt =
  match GoogleAI.handleResponse
          (genai.Models_GenerateContent c (GoogleAI.model g)
             [Some {| genai.Parts := [Some (genai.TextPart prompt)];
                      genai.Role := "user" |}]
             (GoogleAI.genConfigOf g)) with
  | Ok (Some resp) =>
      match llms.Choices resp with
      | Some choice :: _ => Ok (llms.Content choice)
      | _ => Ok ""
      end
  | Ok None => Ok ""
  | Err e => Err e
  | Panic msg => Panic msg
  end.
Proof.
  intros Hclient. unfold GoogleAI.GenerateText, GoogleAI.handleResponse.
  rewrite Hclient.
  destruct (genai.Models_GenerateContent _ _ _ _) as [[resp |] | e | m];
    try reflexivity.
  destruct (length (genai.Candidates resp) =? 0)%nat; reflexivity.
Qed.

(** X4: when the model returns an error, [ProcessImage] returns it
    wrapped and no result, after exactly one request. *)
Theorem ProcessImage_model_error (p : LLMOcr.LLMProvider) (img : list byte)
    (page : Z) (e : string) :
  is_Ok (image_Decode img) = true ->
  llms.GenerateContent (LLMOcr.LLM p) (LLMOcr.messagesOf (buildParts p img))
    (buildCallOpts p) = Err e ->
  LLMOcr.outcome (ProcessImage p img page)
    = Err ("error getting response from LLM: " +:+ e)
  /\ length (LLMOcr.requests (ProcessImage p img page)) = 1%nat.
Proof.
  intros Hdec Hgen. rewrite ProcessImage_requests, ProcessImage_cases, Hgen.
  destruct (image_Decode img); try discriminate. split; reflexivity.
Qed.

(** X5: a model that answers without an error but with a nil response,
    with no choice, or with a nil first choice makes [ProcessImage] panic:
    neither a result nor an error comes back. *)
Theorem ProcessImage_malformed_answer (p : LLMOcr.LLMProvider) (img : list byte)
    (page : Z) (answer : option llms.ContentResponse) :
  is_Ok (image_Decode img) = true ->
  llms.GenerateContent (LLMOcr.LLM p) (LLMOcr.messagesOf (buildParts p img))
    (buildCallOpts p) = Ok answer ->
  match answer with
  | None => True
  | Some completion =>
      match llms.Choices completion with
      | Some _ :: _ => False
      | _ => True
      end
  end ->
  exists msg, LLMOcr.outcome (ProcessImage p img page) = Panic msg.
Proof.
  intros Hdec Hgen Hbad. rewrite ProcessImage_cases, Hgen.
  destruct (image_Decode img); try discriminate.
  destruct answer as [completion |]; [| eexists; reflexivity].
  destruct (llms.Choices completion) as [| [choice |] rest];
    [eexists; reflexivity | contradiction | eexists; reflexivity].
Qed.

(** X6: a result names its provider and model in the metadata, under
    the keys [provider] and [model] and no other, and hands on the text and
    the generation metadata of the model's first choice. *)
Theorem ProcessImage_result_fields (p : LLMOcr.LLMProvider) (img : list byte)
    (page : Z) (r : LLMOcr.OCRResult) :
  LLMOcr.outcome (ProcessImage p img page) = Ok r ->
  LLMOcr.Metadata r !! "provider" = Some (LLMOcr.Provider p)
  /\ LLMOcr.Metadata r !! "model" = Some (LLMOcr.Model p)
  /\ (forall key, key <> "provider" -> key <> "model" ->
        LLMOcr.Metadata r !! key = None)
  /\ exists completion choice rest,
       llms.GenerateContent (LLMOcr.LLM p) (LLMOcr.messagesOf (buildParts p img))
         (buildCallOpts p) = Ok (Some completion)
       /\ llms.Choices completion = Some choice :: rest
       /\ LLMOcr.Text r = llms.Content choice
       /\ LLMOcr.GenerationInfo r = llms.GenerationInfo choice.
Proof.
  intros Hok.
  destruct (ProcessImage_Ok_inv _ _ _ _ _ _ _ Hok)
    as (completion & choice & rest & _ & Hgen & Hch & ->).
  cbn [LLMOcr.resultOf LLMOcr.Metadata LLMOcr.Text LLMOcr.GenerationInfo].
  split; [apply lookup_insert_eq |].
  split; [rewrite lookup_insert_ne by discriminate; apply lookup_insert_eq |].
  split.
  - intros key Hp Hm.
    rewrite !lookup_insert_ne by congruence. apply lookup_empty.
  - exists completion, choice, rest. auto.
Qed.

(** X7: on every path [ProcessImage] tries the decoder once, first, and
    calls the model at most once after it. *)
Theorem ProcessImage_single_attempt (p : LLMOcr.LLMProvider) (img : list byte)
    (page : Z) :
  LLMOcr.trace (ProcessImage p img page) =
    LLMOcr.EvImageDecode img
    :: map (fun request => LLMOcr.EvGenerateContent (fst request) (snd request))
         (LLMOcr.requests (ProcessImage p img page))
  /\ (length (LLMOcr.requests (ProcessImage p img page)) <= 1)%nat.
Proof.
  rewrite ProcessImage_requests, ProcessImage_cases.
  destruct (image_Decode img) as [im | e | m]; cbn; try (split; [reflexivity | lia]).
  destruct (llms.GenerateContent _ _ _) as [[completion |] | e | m]; cbn;
    try (split; [reflexivity | lia]).
  destruct (llms.Choices completion) as [| [choice |] rest]; cbn;
    split; try reflexivity; lia.
Qed.

End ProviderFacts.

(** * Properties of the provider constructor *)
Section ConstructorFacts.

Variable strings_ToLower : string -> string.
Variable image_Decode : list byte -> Outcome LLMOcr.Image.
Variable llms_CountTokens : string -> string -> Z.
Variable openai_New : string -> string -> Outcome llms.Model.
Variable ollama_New : string -> string -> Z -> Outcome llms.Model.
Variable genai_NewClient : string -> Outcome genai.Client.

Local Abbreviation newLLMProvider :=
  (LLMOcr.newLLMProvider strings_ToLower openai_New ollama_New genai_NewClient).
Local Abbreviation ProcessImage :=
  (LLMOcr.ProcessImage strings_ToLower image_Decode llms_CountTokens).

(** What a successful [newLLMProvider] went through. *)
Lemma newLLMProvider_fields (env : gmap string string) (config : LLMOcr.Config)
    (p : LLMOcr.LLMProvider) :
  newLLMProvider env config = Ok p ->
  (strings_ToLower (LLMOcr.VisionLLMProvider config) = "openai"
   /\ os.Getenv env "OPENAI_API_KEY" <> ""
   /\ openai_New (LLMOcr.VisionLLMModel config) (os.Getenv env "OPENAI_API_KEY")
      = Ok (LLMOcr.LLM p)
   \/ strings_ToLower (LLMOcr.VisionLLMProvider config) = "ollama"
      /\ ollama_New (LLMOcr.VisionLLMModel config)
           (if String.eqb (os.Getenv env "OLLAMA_HOST") ""
            then "http://127.0.0.1:11434" else os.Getenv env "OLLAMA_HOST")
           (LLMOcr.cfgOllamaOcrMaxTokensPerPage config)
         = Ok (LLMOcr.LLM p)
   \/ strings_ToLower (LLMOcr.VisionLLMProvider config) = "googleai"
      /\ os.Getenv env "GOOGLEAI_API_KEY" <> ""
      /\ exists c,
           genai_NewClient (os.Getenv env "GOOGLEAI_API_KEY") = Ok c
           /\ LLMOcr.LLM p =
              GoogleAI.asModel
                {| GoogleAI.client := Some c;
                   GoogleAI.thinkingBudget :=
                     (if LLMOcr.VisionLLMThinkingBudget config =? 0
                      then None
                      else Some (LLMOcr.VisionLLMThinkingBudget config));
                   GoogleAI.model := LLMOcr.VisionLLMModel config |})
  /\ LLMOcr.Provider p = LLMOcr.VisionLLMProvider config
  /\ LLMOcr.Model p = LLMOcr.VisionLLMModel config
  /\ LLMOcr.Prompt p = LLMOcr.VisionLLMPrompt config
  /\ LLMOcr.OllamaOcrMaxTokensPerPage p = LLMOcr.cfgOllamaOcrMaxTokensPerPage config
  /\ LLMOcr.OllamaOcrTemperature p = LLMOcr.cfgOllamaOcrTemperature config
  /\ LLMOcr.OllamaOcrTopK p = LLMOcr.cfgOllamaOcrTopK config.
Proof.
  unfold LLMOcr.newLLMProvider.
  destruct (String.eqb_spec (strings_ToLower (LLMOcr.VisionLLMProvider config)) "openai")
    as [Hopenai | _].
  { unfold LLMOcr.createOpenAIClient.
    destruct (String.eqb_spec (os.Getenv env "OPENAI_API_KEY") "") as [| Hkey];
      [discriminate |].
    destruct (openai_New _ _) as [m | e | msg] eqn:Hnew; try discriminate.
    intros [= <-]. cbn. split; [left; auto | repeat split]. }
  destruct (String.eqb_spec (strings_ToLower (LLMOcr.VisionLLMProvider config)) "ollama")
    as [Hollama | _].
  { unfold LLMOcr.createOllamaClient.
    destruct (ollama_New _ _ _) as [m | e | msg] eqn:Hnew; try discriminate.
    intros [= <-]. cbn. split; [right; left; auto | repeat split]. }
  destruct (String.eqb_spec (strings_ToLower (LLMOcr.VisionLLMProvider config)) "googleai")
    as [Hgoogle | _]; [| discriminate].
  unfold LLMOcr.createGoogleAIClient, GoogleAI.NewGoogleAIProvider.
  destruct (String.eqb_spec (os.Getenv env "GOOGLEAI_API_KEY") "") as [| Hkey];
    [discriminate |].
  destruct (genai_NewClient _) as [c | e | msg] eqn:Hnew; try discriminate.
  intros [= <-]. cbn. split; [| repeat split].
  right; right. split; [exact Hgoogle | split; [exact Hkey |]].
  exists c. split; [reflexivity |].
  destruct (LLMOcr.VisionLLMThinkingBudget config =? 0); reflexivity.
Qed.

(** X8: [newLLMProvider] succeeds only for a provider name that
    lower-cases to [openai], [ollama] or [googleai]; for [openai] and
    [googleai] only with a non-empty API key in the environment; the model
    is the one the matching client constructor returned, and the other
    fields are copied from the configuration, the provider name as it was
    written. *)
Theorem newLLMProvider_Ok_inv (env : gmap string string) (config : LLMOcr.Config)
    (p : LLMOcr.LLMProvider) :
  newLLMProvider env config = Ok p ->
  (strings_ToLower (LLMOcr.VisionLLMProvider config) = "openai"
   /\ os.Getenv env "OPENAI_API_KEY" <> ""
   /\ openai_New (LLMOcr.VisionLLMModel config) (os.Getenv env "OPENAI_API_KEY")
      = Ok (LLMOcr.LLM p)
   \/ strings_ToLower (LLMOcr.VisionLLMProvider config) = "ollama"
      /\ ollama_New (LLMOcr.VisionLLMModel config)
           (if String.eqb (os.Getenv env "OLLAMA_HOST") ""
            then "http://127.0.0.1:11434" else os.Getenv env "OLLAMA_HOST")
           (LLMOcr.cfgOllamaOcrMaxTokensPerPage config)
         = Ok (LLMOcr.LLM p)
   \/ strings_ToLower (LLMOcr.VisionLLMProvider config) = "googleai"
      /\ os.Getenv env "GOOGLEAI_API_KEY" <> ""
      /\ exists c,
           genai_NewClient (os.Getenv env "GOOGLEAI_API_KEY") = Ok c
           /\ LLMOcr.LLM p =
              GoogleAI.asModel
                {| GoogleAI.client := Some c;
                   GoogleAI.thinkingBudget :=
                     (if LLMOcr.VisionLLMThinkingBudget config =? 0
                      then None
                      else Some (LLMOcr.VisionLLMThinkingBudget config));
                   GoogleAI.model := LLMOcr.VisionLLMModel config |})
  /\ LLMOcr.Provider p = LLMOcr.VisionLLMProvider config
  /\ LLMOcr.Model p = LLMOcr.VisionLLMModel config
  /\ LLMOcr.Prompt p = LLMOcr.VisionLLMPrompt config
  /\ LLMOcr.OllamaOcrMaxTokensPerPage p = LLMOcr.cfgOllamaOcrMaxTokensPerPage config
  /\ LLMOcr.OllamaOcrTemperature p = LLMOcr.cfgOllamaOcrTemperature config
  /\ LLMOcr.OllamaOcrTopK p = LLMOcr.cfgOllamaOcrTopK config.
Proof. apply newLLMProvider_fields. Qed.

(** X9: a provider that [newLLMProvider] built for [googleai] sends
    Gemini the image as an inline JPEG blob followed by the prompt, with
    the thinking budget of the configuration unless that is zero, and
    [ProcessImage] ends as the handled answer of that one API call says:
    the conversion of the parts never fails and the client is never nil. *)
Theorem newLLMProvider_googleai_ProcessImage (env : gmap string string)
    (config : LLMOcr.Config) (p : LLMOcr.LLMProvider) (img : list byte) (page : Z) :
  newLLMProvider env config = Ok p ->
  strings_ToLower (LLMOcr.VisionLLMProvider config) = "googleai" ->
  is_Ok (image_Decode img) = true ->
  exists c,
    genai_NewClient (os.Getenv env "GOOGLEAI_API_KEY") = Ok c
    /\ LLMOcr.outcome (ProcessImage p img page) =
       match genai.Models_GenerateContent c (LLMOcr.VisionLLMModel config)
               [Some {| genai.Parts :=
                          [Some {| genai.Text := "";
                                   genai.InlineData :=
                                     Some {| genai.MIMEType := "image/jpeg";
                                             genai.Data := img |} |};
                           Some {| genai.Text := LLMOcr.VisionLLMPrompt config;
                                   genai.InlineData := None |}];
                        genai.Role := "" |}]
               (if LLMOcr.VisionLLMThinkingBudget config =? 0 then None
                else Some {| genai.ThinkingConfig_ :=
                               Some {| genai.ThinkingBudget :=
                                         Some (LLMOcr.VisionLLMThinkingBudget config) |} |})
       with
       | Ok (Some resp) =>
           if (length (genai.Candidates resp) =? 0)%nat then
             Err "error getting response from LLM: googleai GenerateContent API returned empty response"
           else
             Ok (LLMOcr.resultOf strings_ToLower llms_CountTokens p
                   {| llms.Content := GoogleAI.firstText resp;
                      llms.StopReason := "";
                      llms.GenerationInfo := None |})
       | Ok None =>
           Err "error getting response from LLM: googleai GenerateContent API returned empty response"
       | Err e =>
           Err ("error getting response from LLM: googleai GenerateContent API error: "
                +:+ e)
       | Panic msg => Panic msg
       end.
Proof.
  intros Hnew Hgoogle Hdec.
  destruct (newLLMProvider_fields _ _ _ Hnew)
    as ([(Ho & _) | [(Ho & _) | (_ & _ & c & Hc & Hllm)]] & Hprov & _ & Hprompt & _).
  { rewrite Hgoogle in Ho. discriminate. }
  { rewrite Hgoogle in Ho. discriminate. }
  exists c. split; [exact Hc |].
  rewrite ProcessImage_cases, Hllm.
  destruct (image_Decode img) as [im | e | msg]; try discriminate.
  unfold LLMOcr.messagesOf, LLMOcr.buildParts, LLMOcr.providerIs.
  rewrite Hprov, Hgoogle, Hprompt.
  cbn [String.eqb Ascii.eqb Bool.eqb negb GoogleAI.asModel llms.GenerateContent
       GoogleAI.GenerateContent llms.Parts length Nat.eqb llms.BinaryPart
       llms.TextPart GoogleAI.convertParts app GoogleAI.client GoogleAI.model
       GoogleAI.genConfigOf GoogleAI.thinkingBudget].
  destruct (LLMOcr.VisionLLMThinkingBudget config =? 0);
    destruct (genai.Models_GenerateContent _ _ _ _) as [[resp |] | e | msg];
    cbn; try reflexivity;
    destruct (length (genai.Candidates resp) =? 0)%nat; reflexivity.
Qed.

End ConstructorFacts.

(** * Further properties of start-up *)
Section ValidationFacts.

Variable w : Main.World.
Variable env : gmap string string.

(** Inverts one step of a start-up sequence that went on, keeping what the
    step returned. *)
Ltac went_on H :=
  match type of H with
  | Main.bind ?m _ = Main.Continue _ =>
      let E := fresh "Hstep" in
      destruct m eqn:E; cbn [Main.bind] in H; [| discriminate H | discriminate H]
  end.

Lemma fatalIf_Continue (cond : bool) (site : Main.FatalSite) (msg : string) (u : unit) :
  Main.fatalIf cond site msg = Main.Continue u -> cond = false.
Proof. destruct cond; [discriminate | reflexivity]. Qed.

Lemma fatalOnError_Continue {A} (site : Main.FatalSite) (prefix : string)
    (o : Outcome A) (a : A) :
  Main.fatalOnError site prefix o = Main.Continue a -> o = Ok a.
Proof. destruct o; cbn; [intros [= <-]; reflexivity | discriminate | discriminate]. Qed.

Lemma orDefault_nonempty (s dflt : string) : dflt <> "" -> Main.orDefault s dflt <> "".
Proof.
  intros Hd. unfold Main.orDefault.
  destruct (String.eqb_spec s ""); [exact Hd | assumption].
Qed.

(** The globals after a validation that went on, but for the limit. *)
Lemma validateOrDefaultEnvVars_Continue_inv (g g' : Main.Globals) :
  Main.validateOrDefaultEnvVars w env g = Main.Continue g' ->
  let tagged :=
    Main.withTags g
      (Main.orDefault (Main.manualTag g) "paperless-gpt")
      (Main.orDefault (Main.autoTag g) "paperless-gpt-auto")
      (Main.orDefault (Main.manualOcrTag g) "paperless-gpt-ocr")
      (Main.orDefault (Main.autoOcrTag g) "paperless-gpt-ocr-auto") in
  (g' = tagged
   \/ exists parsed,
        Main.strconv_Atoi w (os.Getenv env "TOKEN_LIMIT") = Ok parsed
        /\ 0 <= parsed
        /\ os.Getenv env "TOKEN_LIMIT" <> ""
        /\ g' = Main.withLimits tagged (Main.limitOcrPages g) parsed
                  (Main.listenInterface g))
  /\ (os.Getenv env "TOKEN_LIMIT" <> "" ->
      forall parsed,
        Main.strconv_Atoi w (os.Getenv env "TOKEN_LIMIT") = Ok parsed ->
        Main.tokenLimit g' = parsed)
  /\ String.eqb (Main.paperlessBaseURL g) "" = false
  /\ String.eqb (Main.paperlessAPIToken g) "" = false
  /\ String.eqb (Main.llmProvider g) "" = false
  /\ (Main.nonEmpty (Main.visionLlmProvider g)
      && negb (String.eqb (Main.visionLlmProvider g) "openai")
      && negb (String.eqb (Main.visionLlmProvider g) "ollama")) = false
  /\ (negb (String.eqb (Main.llmProvider g) "openai")
      && negb (String.eqb (Main.llmProvider g) "ollama")
      && negb (String.eqb (Main.llmProvider g) "googleai")) = false
  /\ (String.eqb (os.Getenv env "OCR_PROVIDER") "azure" = true ->
      String.eqb (Main.azureDocAIEndpoint g) "" = false
      /\ String.eqb (Main.azureDocAIKey g) "" = false)
  /\ String.eqb (Main.llmModel g) "" = false
  /\ ((String.eqb (Main.llmProvider g) "openai"
       || String.eqb (Main.visionLlmProvider g) "openai")
      && String.eqb (Main.openaiAPIKey g) "") = false.
Proof.
  intros H. intros tagged. unfold Main.validateOrDefaultEnvVars in H.
  fold tagged in H. repeat went_on H.
  repeat match goal with
  | E : Main.fatalIf _ _ _ = Main.Continue _ |- _ =>
      apply fatalIf_Continue in E; cbn [Main.withTags Main.paperlessBaseURL
        Main.paperlessAPIToken Main.llmProvider Main.visionLlmProvider
        Main.llmModel Main.openaiAPIKey] in E
  end.
  assert (Hazure : String.eqb (os.Getenv env "OCR_PROVIDER") "azure" = true ->
            String.eqb (Main.azureDocAIEndpoint g) "" = false
            /\ String.eqb (Main.azureDocAIKey g) "" = false).
  { intros Haz.
    match goal with
    | E : (if String.eqb (os.Getenv env "OCR_PROVIDER") "azure" then _ else _)
          = Main.Continue _ |- _ => rewrite Haz in E; went_on E;
        apply fatalIf_Continue in E;
        match goal with
        | E' : Main.fatalIf _ _ _ = Main.Continue _ |- _ =>
            apply fatalIf_Continue in E'; cbn in E, E'; auto
        end
    end. }
  fold tagged in H.
  assert (Hlimit :
    (g' = tagged
     \/ exists parsed,
          Main.strconv_Atoi w (os.Getenv env "TOKEN_LIMIT") = Ok parsed
          /\ 0 <= parsed
          /\ os.Getenv env "TOKEN_LIMIT" <> ""
          /\ g' = Main.withLimits tagged (Main.limitOcrPages g) parsed
                    (Main.listenInterface g))
    /\ (os.Getenv env "TOKEN_LIMIT" <> "" ->
        forall parsed,
          Main.strconv_Atoi w (os.Getenv env "TOKEN_LIMIT") = Ok parsed ->
          Main.tokenLimit g' = parsed)).
  { unfold Main.nonEmpty in H.
    destruct (String.eqb_spec (os.Getenv env "TOKEN_LIMIT") "") as [Hempty | Hset];
      cbn [negb] in H.
    - injection H as <-. split; [left; reflexivity | congruence].
    - destruct (Main.strconv_Atoi w _) as [parsed | e | msg] eqn:Hatoi.
      + destruct (Z.ltb_spec parsed 0); [discriminate H |].
        injection H as <-. split.
        * right. exists parsed. repeat split; assumption.
        * intros _ parsed' [= <-]. reflexivity.
      + injection H as <-. split; [left; reflexivity | discriminate].
      + injection H as <-. split; [left; reflexivity | discriminate]. }
  destruct Hlimit as [Hg' Htok].
  repeat split; try assumption; try (apply Hazure; assumption).
Qed.


(** The globals a validation lets through. *)
Lemma validated_globals (g g' : Main.Globals) :
  Main.validateOrDefaultEnvVars w env g = Main.Continue g' ->
  (Main.manualTag g' <> "" /\ Main.autoTag g' <> ""
   /\ Main.manualOcrTag g' <> "" /\ Main.autoOcrTag g' <> "")
  /\ Main.paperlessBaseURL g' <> ""
  /\ Main.paperlessAPIToken g' <> ""
  /\ (Main.llmProvider g' = "openai" \/ Main.llmProvider g' = "ollama"
      \/ Main.llmProvider g' = "googleai")
  /\ (Main.visionLlmProvider g' = "" \/ Main.visionLlmProvider g' = "openai"
      \/ Main.visionLlmProvider g' = "ollama")
  /\ Main.llmModel g' <> ""
  /\ (Main.llmProvider g' = "openai" \/ Main.visionLlmProvider g' = "openai" ->
      Main.openaiAPIKey g' <> "")
  /\ (os.Getenv env "OCR_PROVIDER" = "azure" ->
      Main.azureDocAIEndpoint g' <> "" /\ Main.azureDocAIKey g' <> "")
  /\ (0 <= Main.tokenLimit g -> 0 <= Main.tokenLimit g').
Proof.
  intros H.
  destruct (validateOrDefaultEnvVars_Continue_inv _ _ H)
    as (Hg' & _ & Hurl & Htoken & _ & Hvision & Hllm & Hazure & Hmodel & Hkey).
  assert (Hfields :
    Main.manualTag g' = Main.orDefault (Main.manualTag g) "paperless-gpt"
    /\ Main.autoTag g' = Main.orDefault (Main.autoTag g) "paperless-gpt-auto"
    /\ Main.manualOcrTag g' = Main.orDefault (Main.manualOcrTag g) "paperless-gpt-ocr"
    /\ Main.autoOcrTag g' = Main.orDefault (Main.autoOcrTag g) "paperless-gpt-ocr-auto"
    /\ Main.paperlessBaseURL g' = Main.paperlessBaseURL g
    /\ Main.paperlessAPIToken g' = Main.paperlessAPIToken g
    /\ Main.llmProvider g' = Main.llmProvider g
    /\ Main.visionLlmProvider g' = Main.visionLlmProvider g
    /\ Main.llmModel g' = Main.llmModel g
    /\ Main.openaiAPIKey g' = Main.openaiAPIKey g
    /\ Main.azureDocAIEndpoint g' = Main.azureDocAIEndpoint g
    /\ Main.azureDocAIKey g' = Main.azureDocAIKey g
    /\ (0 <= Main.tokenLimit g -> 0 <= Main.tokenLimit g')).
  { destruct Hg' as [-> | (parsed & _ & Hpos & _ & ->)]; cbn; repeat split; auto. }
  destruct Hfields as (-> & -> & -> & -> & -> & -> & -> & -> & -> & -> & -> & -> & Htl).
  apply String.eqb_neq in Hurl, Htoken, Hmodel.
  split; [repeat split; apply orDefault_nonempty; discriminate |].
  repeat split; try assumption.
  - destruct (String.eqb_spec (Main.llmProvider g) "openai"); [auto |].
    destruct (String.eqb_spec (Main.llmProvider g) "ollama"); [auto |].
    destruct (String.eqb_spec (Main.llmProvider g) "googleai"); [auto |].
    discriminate Hllm.
  - unfold Main.nonEmpty in Hvision.
    destruct (String.eqb_spec (Main.visionLlmProvider g) ""); [auto |].
    destruct (String.eqb_spec (Main.visionLlmProvider g) "openai"); [auto |].
    destruct (String.eqb_spec (Main.visionLlmProvider g) "ollama"); [auto |].
    discriminate Hvision.
  - intros [Ho | Ho]; rewrite Ho in Hkey; cbn in Hkey;
      [| rewrite orb_true_r in Hkey];
      apply String.eqb_neq; exact Hkey.
  - apply String.eqb_neq. apply Hazure. apply String.eqb_eq. assumption.
  - apply String.eqb_neq. apply Hazure. apply String.eqb_eq. assumption.
Qed.

(** X10: a validation that goes on leaves the four tags non-empty, a
    base URL, an API token and a text model named, the text provider equal
    to [openai], [ollama] or [googleai] as written, the vision provider
    empty or equal to [openai] or [ollama], an OpenAI key whenever one of
    the two providers is [openai], the Azure endpoint and key set when the
    OCR provider is [azure], and a token limit that is not negative. *)
Theorem validateOrDefaultEnvVars_postcondition (g g' : Main.Globals) :
  Main.validateOrDefaultEnvVars w env g = Main.Continue g' ->
  (Main.manualTag g' <> "" /\ Main.autoTag g' <> ""
   /\ Main.manualOcrTag g' <> "" /\ Main.autoOcrTag g' <> "")
  /\ Main.paperlessBaseURL g' <> ""
  /\ Main.paperlessAPIToken g' <> ""
  /\ (Main.llmProvider g' = "openai" \/ Main.llmProvider g' = "ollama"
      \/ Main.llmProvider g' = "googleai")
  /\ (Main.visionLlmProvider g' = "" \/ Main.visionLlmProvider g' = "openai"
      \/ Main.visionLlmProvider g' = "ollama")
  /\ Main.llmModel g' <> ""
  /\ (Main.llmProvider g' = "openai" \/ Main.visionLlmProvider g' = "openai" ->
      Main.openaiAPIKey g' <> "")
  /\ (os.Getenv env "OCR_PROVIDER" = "azure" ->
      Main.azureDocAIEndpoint g' <> "" /\ Main.azureDocAIKey g' <> "")
  /\ (0 <= Main.tokenLimit g -> 0 <= Main.tokenLimit g').
Proof. apply validated_globals. Qed.

(** X11: after a validation that went on, the token limit is the
    parsed [TOKEN_LIMIT] when that variable is set and parses, and the
    previous limit otherwise: a value that does not parse is ignored
    without a message. *)
Theorem validateOrDefaultEnvVars_tokenLimit (g g' : Main.Globals) :
  Main.validateOrDefaultEnvVars w env g = Main.Continue g' ->
  Main.tokenLimit g' =
  match os.Getenv env "TOKEN_LIMIT" with
  | "" => Main.tokenLimit g
  | limit =>
      match Main.strconv_Atoi w limit with
      | Ok parsed => parsed
      | _ => Main.tokenLimit g
      end
  end.
Proof.
  intros H.
  destruct (validateOrDefaultEnvVars_Continue_inv _ _ H) as (Hg' & Htok & _).
  destruct (os.Getenv env "TOKEN_LIMIT") as [| ch rest] eqn:Hlimit.
  - destruct Hg' as [-> | (parsed & _ & _ & Hne & _)]; [reflexivity | congruence].
  - destruct (Main.strconv_Atoi w (String ch rest)) as [parsed | e | msg] eqn:Hatoi.
    + apply Htok; [discriminate | reflexivity].
    + destruct Hg' as [-> | (parsed & Hp & _)]; [reflexivity | discriminate Hp].
    + destruct Hg' as [-> | (parsed & Hp & _)]; [reflexivity | discriminate Hp].
Qed.


End ValidationFacts.

Section MainFacts.

Variable w : Main.World.
Variable env : gmap string string.

Ltac went_on' H :=
  match type of H with
  | Main.bind ?m _ = Main.Continue _ =>
      let E := fresh "Hstep" in
      destruct m eqn:E; cbn [Main.bind] in H; [| discriminate H | discriminate H]
  end.

(** Every step of a start-up that reached the server. *)
Lemma main_steps (srv : Main.Server) :
  Main.main w env = Main.Continue srv ->
  exists g database templates llm visionLlm prompt ocrProvider g2,
    Main.validateOrDefaultEnvVars w env (Main.initGlobals w env) = Main.Continue g
    /\ Main.initLogger g = Main.Continue tt
    /\ Main.InitializeDB w = Ok database
    /\ Main.loadTemplates w = Main.Continue templates
    /\ Main.createLLM w env g = Ok llm
    /\ Main.createVisionLLM w env g = Ok visionLlm
    /\ Main.template_Execute w (Main.ocrTemplate templates)
         (Main.getLikelyLanguage w env) = Ok prompt
    /\ Main.initOcrProvider w g (Main.providerTypeOf env)
         (Main.ocrConfigOf w env g (Main.providerTypeOf env) prompt)
       = Main.Continue ocrProvider
    /\ Main.initLimitOcrPages w env g (Main.app_ srv) = Main.Continue g2
    /\ Main.app_ srv =
       {| Main.Client := {| Main.BaseURL := Main.paperlessBaseURL g;
                            Main.APIToken := Main.paperlessAPIToken g |};
          Main.Database_ := database;
          Main.LLM := Some llm;
          Main.VisionLLM := visionLlm;
          Main.ocrProvider := ocrProvider |}
    /\ Main.listenOn srv = Main.orDefault (Main.listenInterface g2) ":8080"
    /\ Main.globals srv =
       Main.withLimits g2 (Main.limitOcrPages g2) (Main.tokenLimit g2)
         (Main.orDefault (Main.listenInterface g2) ":8080").
Proof.
  unfold Main.main. intros H.
  repeat went_on' H.
  injection H as <-. cbn [Main.app_ Main.listenOn Main.globals].
  repeat match goal with
  | E : Main.fatalOnError _ _ _ = Main.Continue _ |- _ =>
      apply fatalOnError_Continue in E
  end.
  match goal with
  | E : Main.initLogger _ = Main.Continue ?u |- _ => destruct u
  end.
  eexists _, _, _, _, _, _, _, _. repeat split; eassumption.
Qed.

(** Validation ends by going on or by [log.Fatal]: it does not panic. *)
Lemma validateOrDefaultEnvVars_no_crash (g : Main.Globals) (msg : string) :
  Main.validateOrDefaultEnvVars w env g <> Main.Crash msg.
Proof.
  unfold Main.validateOrDefaultEnvVars, Main.fatalIf. intros H.
  repeat first
    [ discriminate H
    | match type of H with
      | context [if ?c then _ else _] => destruct c; cbn [Main.bind] in H
      end
    | match type of H with
      | context [Main.strconv_Atoi w ?x] => destruct (Main.strconv_Atoi w x)
      end ].
Qed.

(** X13: a [VISION_LLM_PROVIDER] other than [openai] and [ollama] (such
    as [googleai], which [newLLMProvider] knows) ends start-up with a fatal
    message during validation. *)
Theorem main_refuses_vision_provider :
  os.Getenv env "VISION_LLM_PROVIDER" <> "" ->
  os.Getenv env "VISION_LLM_PROVIDER" <> "openai" ->
  os.Getenv env "VISION_LLM_PROVIDER" <> "ollama" ->
  exists msg, Main.main w env = Main.Fatal Main.AtValidateEnv msg.
Proof.
  intros Hne Hopenai Hollama. unfold Main.main.
  destruct (Main.validateOrDefaultEnvVars w env (Main.initGlobals w env))
    as [g | site msg | msg] eqn:Hval.
  - exfalso.
    destruct (validated_globals _ _ _ _ Hval)
      as (_ & _ & _ & _ & Hvision & _).
    rewrite (validateOrDefaultEnvVars_visionLlmProvider _ _ _ _ Hval) in Hvision.
    cbn in Hvision. tauto.
  - rewrite (validateOrDefaultEnvVars_site _ _ _ _ _ Hval).
    exists msg. reflexivity.
  - exfalso. exact (validateOrDefaultEnvVars_no_crash _ _ Hval).
Qed.

(** X14: the page limit of a running server is 0 when OCR is disabled
    ([OCR_LIMIT_PAGES] is then not read at all), 5 when OCR is enabled and
    [OCR_LIMIT_PAGES] is not set, and otherwise the number
    [OCR_LIMIT_PAGES] parses to. *)
Theorem main_limitOcrPages (srv : Main.Server) :
  Main.main w env = Main.Continue srv ->
  if Main.isOcrEnabled (Main.app_ srv) then
    match os.Getenv env "OCR_LIMIT_PAGES" with
    | "" => Main.limitOcrPages (Main.globals srv) = 5
    | raw => Main.strconv_Atoi w raw = Ok (Main.limitOcrPages (Main.globals srv))
    end
  else Main.limitOcrPages (Main.globals srv) = 0.
Proof.
  intros H.
  destruct (main_steps _ H)
    as (g & db & tm & llm & vis & prompt & prov & g2 & Hval & _ & _ & _ & _ & _ & _
        & _ & Hlimit & _ & _ & ->).
  cbn [Main.withLimits Main.limitOcrPages].
  unfold Main.initLimitOcrPages in Hlimit.
  destruct (Main.isOcrEnabled (Main.app_ srv)).
  - destruct (os.Getenv env "OCR_LIMIT_PAGES") as [| ch rest] eqn:Hraw.
    + cbn in Hlimit. injection Hlimit as <-. reflexivity.
    + cbn [String.eqb] in Hlimit.
      destruct (Main.strconv_Atoi w (String ch rest)) as [limit | e | msg];
        cbn in Hlimit; try discriminate Hlimit.
      injection Hlimit as <-. reflexivity.
  - injection Hlimit as <-.
    destruct (validateOrDefaultEnvVars_Continue_inv _ _ _ _ Hval)
      as ([-> | (parsed & _ & _ & _ & ->)] & _); reflexivity.
Qed.

(** X15: unless the provider type is [llm] with no vision provider
    named, the OCR provider of a running server is the one
    [ocr.NewProvider] returned for a configuration that carries the
    provider type, the vision provider and model of the environment, the
    executed OCR prompt, and zero for every Ollama setting. *)
Theorem main_ocr_provider_from_NewProvider (srv : Main.Server) :
  ~ (Main.providerTypeOf env = "llm" /\ os.Getenv env "VISION_LLM_PROVIDER" = "") ->
  Main.main w env = Main.Continue srv ->
  exists templates config,
    Main.loadTemplates w = Main.Continue templates
    /\ Main.ocr_NewProvider w config = Ok (Main.ocrProvider (Main.app_ srv))
    /\ LLMOcr.cfgProvider config = Main.providerTypeOf env
    /\ LLMOcr.VisionLLMProvider config = os.Getenv env "VISION_LLM_PROVIDER"
    /\ LLMOcr.VisionLLMModel config = os.Getenv env "VISION_LLM_MODEL"
    /\ Main.template_Execute w (Main.ocrTemplate templates)
         (Main.getLikelyLanguage w env) = Ok (LLMOcr.VisionLLMPrompt config)
    /\ LLMOcr.cfgOllamaOcrMaxTokensPerPage config = 0
    /\ LLMOcr.cfgOllamaOcrTemperature config = None
    /\ LLMOcr.cfgOllamaOcrTopK config = None
    /\ LLMOcr.VisionLLMThinkingBudget config = 0.
Proof.
  intros Hnot H.
  destruct (main_steps _ H)
    as (g & db & tm & llm & vis & prompt & prov & g2 & Hval & _ & _ & Htm & _ & _
        & Hexec & Hinit & _ & -> & _).
  pose proof (validateOrDefaultEnvVars_visionLlmProvider _ _ _ _ Hval) as Hvp.
  cbn [Main.initGlobals Main.visionLlmProvider] in Hvp.
  assert (Hmodel : Main.visionLlmModel g = os.Getenv env "VISION_LLM_MODEL").
  { destruct (validateOrDefaultEnvVars_Continue_inv _ _ _ _ Hval)
      as ([-> | (parsed & _ & _ & _ & ->)] & _); reflexivity. }
  unfold Main.initOcrProvider in Hinit.
  destruct (String.eqb_spec (Main.providerTypeOf env) "llm") as [Htype | Htype];
    destruct (String.eqb_spec (Main.visionLlmProvider g) "") as [Hv | Hv];
    cbn [andb] in Hinit;
    try (exfalso; apply Hnot; split; [assumption | congruence]);
    apply fatalOnError_Continue in Hinit;
    exists tm, (Main.ocrConfigOf w env g (Main.providerTypeOf env) prompt);
    cbn [Main.ocrProvider Main.ocrConfigOf LLMOcr.cfgProvider
         LLMOcr.VisionLLMProvider LLMOcr.VisionLLMModel LLMOcr.VisionLLMPrompt
         LLMOcr.cfgOllamaOcrMaxTokensPerPage LLMOcr.cfgOllamaOcrTemperature
         LLMOcr.cfgOllamaOcrTopK LLMOcr.VisionLLMThinkingBudget];
    repeat split; assumption.
Qed.

End MainFacts.

Section MainConfigFacts.

Variable w : Main.World.
Variable env : gmap string string.
Variable image_Decode : list byte -> Outcome LLMOcr.Image.
Variable llms_CountTokens : string -> string -> Z.
Variable openai_New : string -> string -> Outcome llms.Model.
Variable ollama_New : string -> string -> Z -> Outcome llms.Model.
Variable genai_NewClient : string -> Outcome genai.Client.

(** X16: a provider built by [newLLMProvider] from the configuration
    that [main] puts together carries the executed prompt, sends the model
    no call option, and never flags a result as cut off by the token
    limit: [main] leaves the Ollama settings of the configuration at
    zero. *)
Theorem main_config_no_limit_detection (toLower : string -> string)
    (g : Main.Globals) (providerType prompt : string)
    (env' : gmap string string) (p : LLMOcr.LLMProvider) :
  LLMOcr.newLLMProvider toLower openai_New ollama_New genai_NewClient env'
    (Main.ocrConfigOf w env g providerType prompt) = Ok p ->
  LLMOcr.Prompt p = prompt
  /\ LLMOcr.buildCallOpts toLower p = []
  /\ forall img page r,
       LLMOcr.outcome
         (LLMOcr.ProcessImage toLower image_Decode llms_CountTokens p img page)
       = Ok r ->
       LLMOcr.OcrLimitHit r = false.
Proof.
  intros Hnew.
  destruct (newLLMProvider_fields _ _ _ _ _ _ _ Hnew)
    as (_ & _ & _ & Hprompt & Hmax & Htemp & Htopk).
  cbn in Hprompt, Hmax, Htemp, Htopk.
  split; [exact Hprompt |]. split.
  - unfold LLMOcr.buildCallOpts. rewrite Hmax, Htemp, Htopk.
    destruct (LLMOcr.providerIs toLower p "ollama"); reflexivity.
  - intros img page r Hok.
    destruct (ProcessImage_Ok_inv _ _ _ _ _ _ _ Hok)
      as (completion & choice & rest & _ & _ & _ & ->).
    cbn [LLMOcr.resultOf LLMOcr.OcrLimitHit]. unfold LLMOcr.limitHitOf.
    rewrite Hmax. rewrite andb_false_r. reflexivity.
Qed.

End MainConfigFacts.

(** * Properties of [removeTagFromList] *)

Lemma removeTagLoop_filter (tags : list string) (tagToRemove : string)
    (acc : list string) :
  Tags.removeTagLoop tags tagToRemove acc
  = acc ++ filter (fun tag => tag <> tagToRemove) tags.
Proof.
  revert acc. induction tags as [| tag rest IH]; intros acc;
    cbn [Tags.removeTagLoop].
  - rewrite filter_nil. now rewrite app_nil_r.
  - destruct (String.eqb_spec tag tagToRemove) as [-> | Hne]; cbn [negb].
    + rewrite IH, filter_cons_False by (intros H; apply H; reflexivity).
      reflexivity.
    + rewrite IH, filter_cons_True, <- app_assoc by assumption. reflexivity.
Qed.

(** X17: [removeTagFromList] keeps exactly the tags that differ from the
    one to remove, in their order and with their repetitions; the removed
    tag is nowhere in the result. *)
Theorem removeTagFromList_filter (tags : list string) (tagToRemove : string) :
  Tags.removeTagFromList tags tagToRemove
    = filter (fun tag => tag <> tagToRemove) tags
  /\ (forall tag,
        tag ∈ Tags.removeTagFromList tags tagToRemove <->
        tag ∈ tags /\ tag <> tagToRemove)
  /\ tagToRemove ∉ Tags.removeTagFromList tags tagToRemove.
Proof.
  assert (Heq : Tags.removeTagFromList tags tagToRemove
                = filter (fun tag => tag <> tagToRemove) tags).
  { unfold Tags.removeTagFromList. now rewrite removeTagLoop_filter. }
  rewrite Heq. split; [reflexivity |]. split.
  - intros tag. rewrite list_elem_of_filter. tauto.
  - rewrite list_elem_of_filter. intros [Hne _]. apply Hne. reflexivity.
Qed.

(** X18: removing a tag that is not in the list changes nothing,
    removing a tag twice is removing it once, and removals of two tags can
    be done in either order. *)
Theorem removeTagFromList_again (tags : list string) (a b : string) :
  (a ∉ tags -> Tags.removeTagFromList tags a = tags)
  /\ Tags.removeTagFromList (Tags.removeTagFromList tags a) a
     = Tags.removeTagFromList tags a
  /\ Tags.removeTagFromList (Tags.removeTagFromList tags a) b
     = Tags.removeTagFromList (Tags.removeTagFromList tags b) a.
Proof.
  unfold Tags.removeTagFromList.
  repeat (rewrite removeTagLoop_filter; cbn [app]).
  split; [| split].
  - intros Hnot. induction tags as [| tag rest IH]; [reflexivity |].
    apply not_elem_of_cons in Hnot as [Hne Hrest].
    rewrite filter_cons_True by congruence. now rewrite IH.
  - induction tags as [| tag rest IH]; [reflexivity |].
    destruct (decide (tag <> a)) as [Hne | Heq];
      repeat first
        [ rewrite filter_cons_True by assumption
        | rewrite filter_cons_False by assumption ];
      rewrite ?IH; reflexivity.
  - induction tags as [| tag rest IH]; [reflexivity |].
    destruct (decide (tag <> a)) as [Ha | Ha];
      destruct (decide (tag <> b)) as [Hb | Hb];
      repeat first
        [ rewrite filter_cons_True by assumption
        | rewrite filter_cons_False by assumption ];
      rewrite ?IH; reflexivity.
Qed.

(** * Properties of [headerTransport] *)
Section TransportFacts.

Variable canonical : string -> string.
Variable rangeOf : gmap string string -> list (string * string).
Variable network : Transport.Request -> Outcome Transport.Response.

Local Abbreviation addHeaders := (Transport.addHeaders canonical).
Local Abbreviation RoundTrip := (Transport.RoundTrip canonical rangeOf network).

(** The values under a header key; none when the key is missing. *)
Local Abbreviation values req key :=
  (default [] (Transport.Header req !! key)).

(** The loop adds, under each canonical key, the values of the visited
    entries with that key, in the order of the visit, after the values
    that were there. *)
Lemma addHeaders_values (entries : list (string * string))
    (req : Transport.Request) (key : string) :
  values (addHeaders entries req) key =
  values req key
  ++ map snd (filter (fun entry => canonical (fst entry) = key) entries).
Proof.
  revert req. induction entries as [| [k v] rest IH]; intros req.
  - cbn. now rewrite app_nil_r.
  - cbn [Transport.addHeaders]. rewrite IH.
    cbn [Transport.setHeader Transport.Header]. unfold Transport.Header_Add.
    destruct (decide (canonical k = key)) as [<- | Hne].
    + rewrite lookup_insert_eq. cbn [default].
      rewrite filter_cons_True by reflexivity. cbn [map snd]. unfold id.
      now rewrite <- app_assoc.
    + rewrite lookup_insert_ne by assumption.
      rewrite filter_cons_False by (cbn; assumption). reflexivity.
Qed.

(** The loop leaves a key alone that no visited entry has. *)
Lemma addHeaders_other (entries : list (string * string))
    (req : Transport.Request) (key : string) :
  (forall entry, entry ∈ entries -> canonical (fst entry) <> key) ->
  Transport.Header (addHeaders entries req) !! key = Transport.Header req !! key.
Proof.
  revert req. induction entries as [| [k v] rest IH]; intros req Hother.
  - reflexivity.
  - cbn [Transport.addHeaders]. rewrite IH.
    + cbn [Transport.setHeader Transport.Header]. unfold Transport.Header_Add.
      apply lookup_insert_ne. apply (Hother (k, v)). left.
    + intros entry Hin. apply Hother. right. exact Hin.
Qed.

Lemma addHeaders_target (entries : list (string * string))
    (req : Transport.Request) :
  Transport.Method (addHeaders entries req) = Transport.Method req
  /\ Transport.URL (addHeaders entries req) = Transport.URL req.
Proof.
  revert req. induction entries as [| [k v] rest IH]; intros req;
    [split; reflexivity |].
  cbn [Transport.addHeaders]. destruct (IH (Transport.setHeader
    (Transport.Header_Add canonical (Transport.Header req) k v) req)) as [-> ->].
  split; reflexivity.
Qed.

(** X19: whatever the order in which the header map is visited, a
    [headerTransport] over the default transport hands the network the
    same method and URL, every header of its map among the values of the
    canonical key, the values that were there before in front, and every
    key that no header of the map canonicalises to as it was; the answer is
    the network's answer to that request. *)
Theorem RoundTrip_adds_headers (headers : gmap string string)
    (req : Transport.Request) :
  rangeOf headers ≡ₚ map_to_list headers ->
  let sent :=
    fst (RoundTrip (Transport.headerTransport Transport.DefaultTransport headers) req) in
  snd (RoundTrip (Transport.headerTransport Transport.DefaultTransport headers) req)
    = network sent
  /\ Transport.Method sent = Transport.Method req
  /\ Transport.URL sent = Transport.URL req
  /\ (forall key value,
        headers !! key = Some value -> value ∈ values sent (canonical key))
  /\ (forall key, values req key `prefix_of` values sent key)
  /\ (forall key,
        (forall k, is_Some (headers !! k) -> canonical k <> key) ->
        Transport.Header sent !! key = Transport.Header req !! key).
Proof.
  intros Hperm sent. subst sent. cbn [Transport.RoundTrip fst snd].
  split; [reflexivity |].
  destruct (addHeaders_target (rangeOf headers) req) as [Hm Hu].
  split; [exact Hm |]. split; [exact Hu |]. split; [| split].
  - intros key value Hkv. rewrite addHeaders_values.
    apply elem_of_app. right. apply list_elem_of_fmap.
    exists (key, value). split; [reflexivity |].
    apply list_elem_of_filter. split; [reflexivity |].
    rewrite Hperm. apply elem_of_map_to_list. exact Hkv.
  - intros key. rewrite addHeaders_values. apply prefix_app_r. reflexivity.
  - intros key Hother. apply addHeaders_other.
    intros [k v] Hin. rewrite Hperm in Hin.
    apply elem_of_map_to_list in Hin. apply Hother. exists v. exact Hin.
Qed.

(** X20: [createCustomHTTPClient] returns the shared default client and
    replaces its transport, whatever it was, by a header transport directly
    over the default transport: a second call changes nothing more. A
    request sent through the client reaches the network with
    [paperless-gpt] added once after the [X-Title] values it had; since the
    header map is changed in place, sending the same request again adds it
    once more. *)
Theorem createCustomHTTPClient_effect (st st' : Transport.Globals)
    (req : Transport.Request) :
  (forall headers, rangeOf headers ≡ₚ map_to_list headers) ->
  let after := fst (Transport.createCustomHTTPClient st) in
  let client := Transport.deref after (snd (Transport.createCustomHTTPClient st)) in
  let sent := fst (Transport.Client_Do canonical rangeOf network client req) in
  let again := fst (Transport.Client_Do canonical rangeOf network client sent) in
  Transport.createCustomHTTPClient st = Transport.createCustomHTTPClient st'
  /\ Transport.createCustomHTTPClient after = Transport.createCustomHTTPClient st
  /\ client = Transport.DefaultClient after
  /\ snd (Transport.Client_Do canonical rangeOf network client req) = network sent
  /\ values sent (canonical "X-Title")
     = values req (canonical "X-Title") ++ ["paperless-gpt"]
  /\ values again (canonical "X-Title")
     = values req (canonical "X-Title") ++ ["paperless-gpt"; "paperless-gpt"].
Proof.
  intros Hperm after client sent again.
  assert (Hrange : rangeOf (<["X-Title" := "paperless-gpt"]> ∅)
                   = [("X-Title", "paperless-gpt")]).
  { specialize (Hperm (<["X-Title" := "paperless-gpt"]> ∅)).
    rewrite insert_empty, map_to_list_singleton in Hperm.
    apply Permutation_singleton_r in Hperm. exact Hperm. }
  assert (Hsent : forall r,
    values (fst (Transport.Client_Do canonical rangeOf network client r))
      (canonical "X-Title")
    = values r (canonical "X-Title") ++ ["paperless-gpt"]).
  { intros r. subst client after.
    cbn [Transport.createCustomHTTPClient fst snd Transport.deref
         Transport.DefaultClient Transport.Client_Do Transport.Transport
         Transport.RoundTrip].
    rewrite Hrange, addHeaders_values.
    rewrite filter_cons_True by reflexivity. reflexivity. }
  split; [reflexivity |]. split; [reflexivity |]. split; [reflexivity |].
  split; [reflexivity |]. split; [apply Hsent |].
  subst again. rewrite Hsent. subst sent. rewrite Hsent.
  now rewrite <- app_assoc.
Qed.

End TransportFacts.

(** * Properties of the page's handlers *)
Section PageFacts.

Variable Document : Type.
Variable JSON_parse : string -> OCRPage.Parsed.

Implicit Types (s : ExperimentalOCR.State Document).

Local Abbreviation submitOCRJob := (OCRPage.submitOCRJob Document).
Local Abbreviation checkJobStatus := (OCRPage.checkJobStatus Document JSON_parse).
Local Abbreviation poll := (OCRPage.poll Document JSON_parse).
Local Abbreviation handleSaveContent := (OCRPage.handleSaveContent Document).
Local Abbreviation ref := (@ExperimentalOCR.lastFetchedPagesDoneRef Document).

(** X21: however its requests settle, [submitOCRJob] leaves the page
    without a combined text, without pages and with both page counters at
    zero; it posts the OCR request for the document exactly once, last,
    also when fetching the document details failed; and the job id is the
    one of the answer, or empty when the post failed. *)
Theorem submitOCRJob_clears (details : OCRPage.Settled Document)
    (post : OCRPage.Settled string) s :
  let sent := fst (submitOCRJob details post s) in
  let s' := snd (submitOCRJob details post s) in
  ExperimentalOCR.ocrResult s' = ""
  /\ ExperimentalOCR.perPageResults s' = []
  /\ ExperimentalOCR.pagesDone Document s' = 0
  /\ ref s' = 0
  /\ ExperimentalOCR.jobId Document s' =
     match post with OCRPage.Resolved job_id => job_id | OCRPage.Rejected => "" end
  /\ sent =
     (if ExperimentalOCR.documentId s =? 0 then []
      else [OCRPage.GetDocument Document (ExperimentalOCR.documentId s)])
     ++ [OCRPage.PostOcr Document (ExperimentalOCR.documentId s)].
Proof.
  unfold OCRPage.submitOCRJob, OCRPage.fetchDocumentDetails.
  destruct (ExperimentalOCR.documentId s =? 0); destruct details; destruct post;
    cbn; repeat split.
Qed.

(** X22: after a submission whose post failed, the status still reads
    "Submitting OCR job...", the error is set, and a run of
    [checkJobStatus] for the job id of the page sends nothing and changes
    nothing: no polling starts. *)
Theorem submitOCRJob_failed (details : OCRPage.Settled Document) s
    (documentId : Z) (job : OCRPage.Settled OCRPage.JobData)
    (pages : OCRPage.Settled (list ExperimentalOCR.OCRPageResult)) :
  let s' := snd (submitOCRJob details OCRPage.Rejected s) in
  ExperimentalOCR.status Document s' = "Submitting OCR job..."
  /\ ExperimentalOCR.error Document s' = Some "Failed to submit OCR job."
  /\ checkJobStatus (ExperimentalOCR.jobId Document s') documentId job pages s'
     = ([], s', false).
Proof.
  unfold OCRPage.submitOCRJob, OCRPage.fetchDocumentDetails.
  destruct (ExperimentalOCR.documentId s =? 0); destruct details;
    cbn; repeat split.
Qed.

(** One run of [checkJobStatus] on an answer of the server. *)
Lemma checkJobStatus_Resolved (jobId : string) (documentId : Z)
    (data : OCRPage.JobData)
    (pages : OCRPage.Settled (list ExperimentalOCR.OCRPageResult)) s :
  jobId <> "" ->
  let run := checkJobStatus jobId documentId (OCRPage.Resolved data) pages s in
  ExperimentalOCR.pagesDone Document (snd (fst run)) = OCRPage.pages_done data
  /\ ref (snd (fst run)) = Z.max (ref s) (OCRPage.pages_done data)
  /\ (snd run = true <->
      OCRPage.job_status data <> "completed" /\ OCRPage.job_status data <> "failed")
  /\ (forall request, In request (fst (fst run)) ->
        request = OCRPage.GetJob Document jobId
        \/ request = OCRPage.GetOcrPages Document documentId).
Proof.
  intros Hjob run. subst run. unfold OCRPage.checkJobStatus.
  apply String.eqb_neq in Hjob. rewrite Hjob.
  cbn [OCRPage.setPagesDone ExperimentalOCR.lastFetchedPagesDoneRef].
  unfold OCRPage.fetchPerPageResults.
  destruct (Z.gtb_spec (OCRPage.pages_done data) (ref s)) as [Hgt | Hle];
    destruct (documentId =? 0); destruct pages as [ps |];
    destruct (String.eqb_spec (OCRPage.job_status data) "completed") as [Hc | Hc];
    destruct (String.eqb_spec (OCRPage.job_status data) "failed") as [Hf | Hf];
    try destruct (JSON_parse (OCRPage.result data));
    cbn;
    (split; [reflexivity |]); (split; [lia |]);
    (split; [split; [try discriminate; tauto | try tauto; intros [? ?]; congruence] |]);
    intros request Hin; cbn in Hin; intuition.
Qed.

(** X23: a run of [checkJobStatus] that gets an answer sets the page
    count to the job's, moves the fetched-pages mark up to it (also when
    fetching the pages failed or was skipped) and never down, asks for
    another run exactly when the job is neither completed nor failed, and
    sends nothing but the status request and at most the pages request. *)
Theorem checkJobStatus_progress (jobId : string) (documentId : Z)
    (data : OCRPage.JobData)
    (pages : OCRPage.Settled (list ExperimentalOCR.OCRPageResult)) s :
  jobId <> "" ->
  let run := checkJobStatus jobId documentId (OCRPage.Resolved data) pages s in
  ExperimentalOCR.pagesDone Document (snd (fst run)) = OCRPage.pages_done data
  /\ ref (snd (fst run)) = Z.max (ref s) (OCRPage.pages_done data)
  /\ (snd run = true <->
      OCRPage.job_status data <> "completed" /\ OCRPage.job_status data <> "failed")
  /\ (forall request, In request (fst (fst run)) ->
        request = OCRPage.GetJob Document jobId
        \/ request = OCRPage.GetOcrPages Document documentId).
Proof. exact (checkJobStatus_Resolved jobId documentId data pages s). Qed.


(** One run of [checkJobStatus] never lowers the fetched-pages mark and
    sends nothing but status and pages requests. *)
Lemma checkJobStatus_any (jobId : string) (documentId : Z)
    (job : OCRPage.Settled OCRPage.JobData)
    (pages : OCRPage.Settled (list ExperimentalOCR.OCRPageResult)) s :
  let run := checkJobStatus jobId documentId job pages s in
  ref s <= ref (snd (fst run))
  /\ (forall request, In request (fst (fst run)) ->
        request = OCRPage.GetJob Document jobId
        \/ request = OCRPage.GetOcrPages Document documentId)
  /\ (length (List.filter
                (fun request =>
                   match request with OCRPage.GetJob _ _ => true | _ => false end)
                (fst (fst run))) <= 1)%nat.
Proof.
  intros run. subst run.
  destruct (String.eqb_spec jobId "") as [-> | Hjob].
  { cbn. split; [lia |]. split; [intros ? [] | lia]. }
  destruct job as [data |].
  - destruct (checkJobStatus_Resolved jobId documentId data pages s Hjob)
      as (_ & Href & _ & Hreq).
    split; [rewrite Href; lia |]. split; [exact Hreq |]. clear Href Hreq.
    unfold OCRPage.checkJobStatus. apply String.eqb_neq in Hjob. rewrite Hjob.
    cbn [OCRPage.setPagesDone ExperimentalOCR.lastFetchedPagesDoneRef].
    unfold OCRPage.fetchPerPageResults.
    destruct (OCRPage.pages_done data >? ref s); destruct (documentId =? 0);
      destruct pages;
      destruct (String.eqb (OCRPage.job_status data) "completed");
      destruct (String.eqb (OCRPage.job_status data) "failed");
      try destruct (JSON_parse (OCRPage.result data)); cbn; lia.
  - unfold OCRPage.checkJobStatus. apply String.eqb_neq in Hjob. rewrite Hjob.
    cbn. split; [lia |]. split; [| lia]. intros request [<- | []]. left. reflexivity.
Qed.

(** What a polling keeps, whatever the server answers. *)
Lemma poll_keeps (jobId : string) (documentId : Z)
    (answers : list (OCRPage.Settled OCRPage.JobData
                     * OCRPage.Settled (list ExperimentalOCR.OCRPageResult))) s :
  ref s <= ref (snd (poll jobId documentId answers s))
  /\ (forall request, In request (fst (poll jobId documentId answers s)) ->
        request = OCRPage.GetJob Document jobId
        \/ request = OCRPage.GetOcrPages Document documentId)
  /\ (length (List.filter
                (fun request =>
                   match request with OCRPage.GetJob _ _ => true | _ => false end)
                (fst (poll jobId documentId answers s)))
      <= length answers)%nat.
Proof.
  revert s. induction answers as [| [job pages] rest IH]; intros s.
  - cbn. split; [lia |]. split; [intros ? [] | lia].
  - cbn [OCRPage.poll].
    destruct (checkJobStatus_any jobId documentId job pages s) as (Href & Hreq & Hcount).
    destruct (checkJobStatus jobId documentId job pages s) as [[sent s1] again].
    cbn [fst snd] in Href, Hreq, Hcount.
    destruct again.
    + destruct (IH s1) as (Href' & Hreq' & Hcount').
      destruct (poll jobId documentId rest s1) as [sent' s2].
      cbn [fst snd] in *. split; [lia |]. split.
      * intros request Hin. apply in_app_or in Hin as [Hin | Hin]; auto.
      * rewrite List.filter_app, length_app. cbn [length]. lia.
    + cbn [fst snd length]. split; [lia |]. split; [exact Hreq | lia].
Qed.

(** X24: over a whole polling, whatever the server answers and however
    long it goes on, the fetched-pages mark never goes down, the page sends
    nothing but status requests for its job and pages requests for its
    document, and at most one status request for each answer. *)
Theorem poll_invariant (jobId : string) (documentId : Z)
    (answers : list (OCRPage.Settled OCRPage.JobData
                     * OCRPage.Settled (list ExperimentalOCR.OCRPageResult))) s :
  ref s <= ref (snd (poll jobId documentId answers s))
  /\ (forall request, In request (fst (poll jobId documentId answers s)) ->
        request = OCRPage.GetJob Document jobId
        \/ request = OCRPage.GetOcrPages Document documentId)
  /\ (length (List.filter
                (fun request =>
                   match request with OCRPage.GetJob _ _ => true | _ => false end)
                (fst (poll jobId documentId answers s)))
      <= length answers)%nat.
Proof. exact (poll_keeps jobId documentId answers s). Qed.

(** X25: a polling that sees any number of answers for a running job
    and then a completed job whose result parses ends with the combined
    text and the pages of that result on the page (whatever pages were
    fetched on the way), the job's page count and the completion status. *)
Theorem poll_completed (jobId : string) (documentId : Z)
    (running : list (OCRPage.Settled OCRPage.JobData
                     * OCRPage.Settled (list ExperimentalOCR.OCRPageResult)))
    (final : OCRPage.JobData)
    (pages : OCRPage.Settled (list ExperimentalOCR.OCRPageResult))
    (combinedText : string) (perPage : list ExperimentalOCR.OCRPageResult)
    (later : list (OCRPage.Settled OCRPage.JobData
                   * OCRPage.Settled (list ExperimentalOCR.OCRPageResult))) s :
  jobId <> "" ->
  Forall OCRPage.stillRunning running ->
  OCRPage.job_status final = "completed" ->
  JSON_parse (OCRPage.result final) = OCRPage.ParsedResult combinedText perPage ->
  let s' :=
    snd (poll jobId documentId
           (running ++ (OCRPage.Resolved final, pages) :: later) s) in
  ExperimentalOCR.ocrResult s' = combinedText
  /\ ExperimentalOCR.perPageResults s' = perPage
  /\ ExperimentalOCR.pagesDone Document s' = OCRPage.pages_done final
  /\ ExperimentalOCR.status Document s' = "OCR completed successfully.".
Proof.
  intros Hjob Hrunning Hdone Hparse. revert s.
  induction Hrunning as [| [job pgs] rest (data & Hres & Hc & Hf) _ IH]; intros s.
  - cbn [app OCRPage.poll]. unfold OCRPage.checkJobStatus.
    pose proof Hjob as Hjob'. apply String.eqb_neq in Hjob'. rewrite Hjob'.
    rewrite Hdone, Hparse. cbn [String.eqb Ascii.eqb Bool.eqb].
    unfold OCRPage.fetchPerPageResults.
    cbn [OCRPage.setPagesDone ExperimentalOCR.lastFetchedPagesDoneRef].
    destruct (OCRPage.pages_done final >? ref s); destruct (documentId =? 0);
      destruct pages; cbn; repeat split.
  - cbn [fst] in Hres. subst job. cbn [app OCRPage.poll].
    destruct (checkJobStatus_Resolved jobId documentId data pgs s Hjob)
      as (_ & _ & Hagain & _).
    destruct (checkJobStatus jobId documentId (OCRPage.Resolved data) pgs s)
      as [[sent s1] again].
    cbn [fst snd] in Hagain.
    assert (again = true) as -> by (apply Hagain; split; assumption).
    specialize (IH s1).
    destruct (poll jobId documentId
                (rest ++ (OCRPage.Resolved final, pages) :: later) s1) as [sent' s2].
    exact IH.
Qed.

(** X26: [handleSaveContent] always ends with the saving flag off.
    Without document details it sends nothing and the error reads "Failed
    to save content." (the more specific message is overwritten); with
    them it sends one patch with the document id, the details and the
    combined text of the page. *)
Theorem handleSaveContent_outcome (patch : OCRPage.Settled unit) s :
  let sent := fst (handleSaveContent patch s) in
  let s' := snd (handleSaveContent patch s) in
  ExperimentalOCR.saving Document s' = false
  /\ ExperimentalOCR.ocrResult s' = ExperimentalOCR.ocrResult s
  /\ match ExperimentalOCR.documentDetails Document s with
     | None =>
         sent = []
         /\ ExperimentalOCR.error Document s' = Some "Failed to save content."
         /\ ExperimentalOCR.status Document s' = ExperimentalOCR.status Document s
     | Some details =>
         sent = [OCRPage.PatchUpdateDocuments Document
                   (ExperimentalOCR.documentId s) details (ExperimentalOCR.ocrResult s)]
         /\ (ExperimentalOCR.error Document s' = None <-> patch = OCRPage.Resolved tt)
     end.
Proof.
  unfold OCRPage.handleSaveContent.
  destruct (ExperimentalOCR.documentDetails Document s) as [details |];
    [destruct patch as [[] |] |]; cbn; repeat split; try discriminate; auto.
Qed.

(** What [handleReOcrPage] leaves alone besides the other pages. *)
Lemma handleReOcrPage_keeps (pageIdx : Z) (post : ExperimentalOCR.PostResult) s :
  ExperimentalOCR.documentId (ExperimentalOCR.handleReOcrPage pageIdx post s)
    = ExperimentalOCR.documentId s
  /\ ExperimentalOCR.documentDetails Document
       (ExperimentalOCR.handleReOcrPage pageIdx post s)
     = ExperimentalOCR.documentDetails Document s
  /\ ExperimentalOCR.ocrResult (ExperimentalOCR.handleReOcrPage pageIdx post s)
     = ExperimentalOCR.ocrResult s.
Proof.
  unfold ExperimentalOCR.handleReOcrPage.
  destruct (ExperimentalOCR.js_index _ _); [| repeat split].
  destruct post as [data |]; [| repeat split].
  cbn. destruct (pageIdx + 1 >? _); repeat split.
Qed.

(** X27: what [handleSaveContent] sends after a re-OCR of a page is
    what it would have sent before it: the new page text does not reach the
    saved content. *)
Theorem handleSaveContent_after_reOcr (pageIdx : Z)
    (post : ExperimentalOCR.PostResult) (patch : OCRPage.Settled unit) s :
  fst (handleSaveContent patch (ExperimentalOCR.handleReOcrPage pageIdx post s))
  = fst (handleSaveContent patch s).
Proof.
  destruct (handleReOcrPage_keeps pageIdx post s) as (Hid & Hdetails & Htext).
  unfold OCRPage.handleSaveContent. rewrite Hid, Hdetails, Htext.
  destruct (ExperimentalOCR.documentDetails Document s); [| reflexivity].
  destruct patch; reflexivity.
Qed.

(** X28: the flags [handleReOcrPage] leaves behind. For an index
    outside the pages it records "Page data not available." for that
    index and touches nothing else. For an index inside it ends with the
    loading flag of the index off and with an empty error after a success
    or "Failed to re-OCR page." after a failure; a success also moves the
    fetched-pages mark up to the index plus one. The flags and errors of
    the other indices stay as they were. *)
Theorem handleReOcrPage_flags (pageIdx : Z) (post : ExperimentalOCR.PostResult) s :
  let s' := ExperimentalOCR.handleReOcrPage pageIdx post s in
  (forall other, other <> pageIdx ->
     ExperimentalOCR.reOcrLoading s' !! other = ExperimentalOCR.reOcrLoading s !! other
     /\ ExperimentalOCR.reOcrErrors s' !! other = ExperimentalOCR.reOcrErrors s !! other)
  /\ match ExperimentalOCR.js_index (ExperimentalOCR.perPageResults s) pageIdx with
     | None =>
         ExperimentalOCR.reOcrErrors s' !! pageIdx = Some "Page data not available."
         /\ ExperimentalOCR.reOcrLoading s' = ExperimentalOCR.reOcrLoading s
         /\ ExperimentalOCR.perPageResults s' = ExperimentalOCR.perPageResults s
         /\ ref s' = ref s
     | Some _ =>
         ExperimentalOCR.reOcrLoading s' !! pageIdx = Some false
         /\ match post with
            | ExperimentalOCR.Resolved _ =>
                ExperimentalOCR.reOcrErrors s' !! pageIdx = Some ""
                /\ ref s' = Z.max (ref s) (pageIdx + 1)
            | ExperimentalOCR.Rejected =>
                ExperimentalOCR.reOcrErrors s' !! pageIdx = Some "Failed to re-OCR page."
                /\ ref s' = ref s
            end
     end.
Proof.
  intros s'. subst s'. unfold ExperimentalOCR.handleReOcrPage.
  destruct (ExperimentalOCR.js_index _ _).
  - destruct post as [data |]; cbn.
    + destruct (Z.gtb_spec (pageIdx + 1) (ref s)); cbn.
      all: split;
        [ intros other Hne; rewrite !lookup_insert_ne by congruence; split; reflexivity
        | rewrite !lookup_insert_eq; repeat split; lia ].
    + split;
        [ intros other Hne; rewrite !lookup_insert_ne by congruence; split; reflexivity
        | rewrite !lookup_insert_eq; repeat split ].
  - cbn. split.
    + intros other Hne. rewrite lookup_insert_ne by congruence. split; reflexivity.
    + rewrite lookup_insert_eq. repeat split.
Qed.

(** X29: what a re-OCR does to the page it names, for an index inside
    the pages. After an answer the entry holds the text and the limit flag
    of the answer and no generation info, whatever the entry was; after a
    failed request the page list is the one before. *)
Theorem handleReOcrPage_page (pageIdx : Z) (post : ExperimentalOCR.PostResult) s :
  0 <= pageIdx < Z.of_nat (length (ExperimentalOCR.perPageResults s)) ->
  match post with
  | ExperimentalOCR.Resolved data =>
      ExperimentalOCR.js_index
        (ExperimentalOCR.perPageResults
           (ExperimentalOCR.handleReOcrPage pageIdx post s))
        pageIdx
      = Some {| ExperimentalOCR.text := ExperimentalOCR.data_text data;
                ExperimentalOCR.ocrLimitHit := ExperimentalOCR.data_ocrLimitHit data;
                ExperimentalOCR.generationInfo := None |}
  | ExperimentalOCR.Rejected =>
      ExperimentalOCR.perPageResults
        (ExperimentalOCR.handleReOcrPage pageIdx post s)
      = ExperimentalOCR.perPageResults s
  end.
Proof.
  intros Hvalid. destruct post as [data |].
  - apply handleReOcrPage_replaces. exact Hvalid.
  - destruct (handleReOcrPage_pages Document pageIdx ExperimentalOCR.Rejected s)
      as [_ Hpages].
    rewrite Hpages.
    destruct (ExperimentalOCR.js_index _ _); reflexivity.
Qed.

End PageFacts.

(** * The further properties on the sample values *)

Lemma GenerateContent_Ok_shape_witness :
  exists text,
    Some {| llms.Choices :=
              [Some {| llms.Content := "from gemini";
                       llms.StopReason := "";
                       llms.GenerationInfo := None |}] |}
    = Some {| llms.Choices :=
                [Some {| llms.Content := text;
                         llms.StopReason := "";
                         llms.GenerationInfo := None |}] |}.
Proof.
  apply (GenerateContent_Ok_shape
           (Samples.gemini (Ok (Some (Samples.textResponse "from gemini"))))
           (LLMOcr.messagesOf [llms.TextPart "hello"]) []).
  reflexivity.
Defined.

Lemma ProcessImage_gemini_shape_witness :
  exists r,
    LLMOcr.outcome
      (LLMOcr.ProcessImage LLMOcr.asciiToLower Samples.decode Samples.count
         MoreSamples.geminiBuilt Samples.jpeg 0) = Ok r
    /\ LLMOcr.GenerationInfo r = None.
Proof.
  eexists. split; [vm_compute; reflexivity |].
  apply (proj2 (ProcessImage_gemini_shape LLMOcr.asciiToLower Samples.decode
                  Samples.count MoreSamples.geminiBuilt _ Samples.jpeg 0 eq_refl)).
  vm_compute. reflexivity.
Defined.

Lemma GenerateText_as_GenerateContent_witness :
  GoogleAI.GenerateText
    (Samples.gemini (Ok (Some (Samples.textResponse "from gemini")))) "hello"
  = Ok "from gemini".
Proof.
  exact (GenerateText_as_GenerateContent
           (Samples.gemini (Ok (Some (Samples.textResponse "from gemini"))))
           (Samples.geminiClient (Ok (Some (Samples.textResponse "from gemini"))))
           "hello" eq_refl).
Defined.

Lemma ProcessImage_model_error_witness :
  LLMOcr.outcome
    (LLMOcr.ProcessImage LLMOcr.asciiToLower Samples.decode Samples.count
       (Samples.provider "ollama" 0 None None MoreSamples.failingModel)
       Samples.jpeg 0)
  = Err "error getting response from LLM: connection refused"
  /\ length
       (LLMOcr.requests
          (LLMOcr.ProcessImage LLMOcr.asciiToLower Samples.decode Samples.count
             (Samples.provider "ollama" 0 None None MoreSamples.failingModel)
             Samples.jpeg 0)) = 1%nat.
Proof.
  exact (ProcessImage_model_error LLMOcr.asciiToLower Samples.decode Samples.count
           (Samples.provider "ollama" 0 None None MoreSamples.failingModel)
           Samples.jpeg 0 "connection refused" eq_refl eq_refl).
Defined.

Lemma ProcessImage_malformed_answer_witness :
  exists msg,
    LLMOcr.outcome
      (LLMOcr.ProcessImage LLMOcr.asciiToLower Samples.decode Samples.count
         (Samples.provider "ollama" 0 None None (Samples.fixedModel [None]))
         Samples.jpeg 0)
    = Panic msg.
Proof.
  exact (ProcessImage_malformed_answer LLMOcr.asciiToLower Samples.decode
           Samples.count
           (Samples.provider "ollama" 0 None None (Samples.fixedModel [None]))
           Samples.jpeg 0 _ eq_refl eq_refl I).
Defined.

Lemma ProcessImage_result_fields_witness :
  exists r,
    LLMOcr.outcome
      (LLMOcr.ProcessImage LLMOcr.asciiToLower Samples.decode Samples.count
         Samples.ollamaReported Samples.jpeg 0) = Ok r
    /\ LLMOcr.Metadata r !! "provider" = Some "Ollama"
    /\ LLMOcr.Metadata r !! "model" = Some "vision-model".
Proof.
  eexists. split; [vm_compute; reflexivity |].
  match goal with
  | |- LLMOcr.Metadata ?r !! _ = _ /\ _ =>
      destruct (ProcessImage_result_fields LLMOcr.asciiToLower Samples.decode
                  Samples.count Samples.ollamaReported Samples.jpeg 0 r
                  ltac:(vm_compute; reflexivity)) as (Hp & Hm & _)
  end.
  split; [exact Hp | exact Hm].
Defined.

Lemma newLLMProvider_Ok_inv_witness :
  LLMOcr.Provider MoreSamples.geminiBuilt = "GoogleAI"
  /\ LLMOcr.OllamaOcrMaxTokensPerPage MoreSamples.geminiBuilt = 512.
Proof.
  destruct (newLLMProvider_Ok_inv LLMOcr.asciiToLower MoreSamples.openaiNew
              MoreSamples.ollamaNew MoreSamples.genaiNew MoreSamples.keys
              (MoreSamples.visionConfig "GoogleAI") MoreSamples.geminiBuilt eq_refl)
    as (_ & Hprovider & _ & _ & Hmax & _).
  split; [exact Hprovider | exact Hmax].
Defined.

Lemma newLLMProvider_googleai_ProcessImage_witness :
  exists c,
    MoreSamples.genaiNew (os.Getenv MoreSamples.keys "GOOGLEAI_API_KEY") = Ok c
    /\ exists r,
         LLMOcr.outcome
           (LLMOcr.ProcessImage LLMOcr.asciiToLower Samples.decode Samples.count
              MoreSamples.geminiBuilt Samples.jpeg 0) = Ok r
         /\ LLMOcr.Text r = "from gemini".
Proof.
  destruct (newLLMProvider_googleai_ProcessImage LLMOcr.asciiToLower Samples.decode
              Samples.count MoreSamples.openaiNew MoreSamples.ollamaNew
              MoreSamples.genaiNew MoreSamples.keys
              (MoreSamples.visionConfig "GoogleAI") MoreSamples.geminiBuilt
              Samples.jpeg 0 eq_refl eq_refl eq_refl) as (c & Hc & Hout).
  exists c. split; [exact Hc |].
  eexists. split; [vm_compute; reflexivity | reflexivity].
Defined.

Lemma validateOrDefaultEnvVars_postcondition_witness :
  exists g,
    Main.validateOrDefaultEnvVars MoreSamples.world MoreSamples.env
      (Main.initGlobals MoreSamples.world MoreSamples.env) = Main.Continue g
    /\ Main.manualTag g <> ""
    /\ Main.llmModel g <> "".
Proof.
  eexists. split; [vm_compute; reflexivity |].
  match goal with
  | |- Main.manualTag ?g <> "" /\ _ =>
      destruct (validateOrDefaultEnvVars_postcondition MoreSamples.world
                  MoreSamples.env
                  (Main.initGlobals MoreSamples.world MoreSamples.env) g
                  ltac:(vm_compute; reflexivity))
        as ((Htag & _) & _ & _ & _ & _ & Hmodel & _)
  end.
  split; [exact Htag | exact Hmodel].
Defined.

Lemma validateOrDefaultEnvVars_tokenLimit_witness :
  exists g,
    Main.validateOrDefaultEnvVars MoreSamples.world MoreSamples.env
      (Main.initGlobals MoreSamples.world MoreSamples.env) = Main.Continue g
    /\ Main.tokenLimit g = 2000.
Proof.
  eexists. split; [vm_compute; reflexivity |].
  match goal with
  | |- Main.tokenLimit ?g = _ =>
      exact (validateOrDefaultEnvVars_tokenLimit MoreSamples.world MoreSamples.env
               (Main.initGlobals MoreSamples.world MoreSamples.env) g
               ltac:(vm_compute; reflexivity))
  end.
Defined.


Lemma main_refuses_vision_provider_witness :
  exists msg,
    Main.main Samples.world MoreSamples.envGeminiVision
    = Main.Fatal Main.AtValidateEnv msg.
Proof.
  apply (main_refuses_vision_provider Samples.world MoreSamples.envGeminiVision);
    vm_compute; discriminate.
Defined.

Lemma main_limitOcrPages_witness :
  exists srv,
    Main.main MoreSamples.world MoreSamples.env = Main.Continue srv
    /\ Main.isOcrEnabled (Main.app_ srv) = true
    /\ MoreSamples.parseDecimal "3" = Ok (Main.limitOcrPages (Main.globals srv)).
Proof.
  eexists. split; [vm_compute; reflexivity |]. split; [reflexivity |].
  match goal with
  | |- _ = Ok (Main.limitOcrPages (Main.globals ?srv)) =>
      exact (main_limitOcrPages MoreSamples.world MoreSamples.env srv
               ltac:(vm_compute; reflexivity))
  end.
Defined.

Lemma main_ocr_provider_from_NewProvider_witness :
  exists srv,
    Main.main MoreSamples.world MoreSamples.env = Main.Continue srv
    /\ exists templates config,
         Main.loadTemplates MoreSamples.world = Main.Continue templates
         /\ Main.ocr_NewProvider MoreSamples.world config
            = Ok (Main.ocrProvider (Main.app_ srv))
         /\ LLMOcr.cfgProvider config = Main.providerTypeOf MoreSamples.env.
Proof.
  eexists. split; [vm_compute; reflexivity |].
  match goal with
  | |- context [Main.app_ ?srv] =>
      destruct (main_ocr_provider_from_NewProvider MoreSamples.world MoreSamples.env
                  srv
                  ltac:(intros [Htype _]; vm_compute in Htype; discriminate Htype)
                  ltac:(vm_compute; reflexivity))
        as (templates & config & Ht & Hnew & Hprov & _)
  end.
  exists templates, config. split; [exact Ht | split; [exact Hnew | exact Hprov]].
Defined.

Lemma main_config_no_limit_detection_witness :
  exists p,
    LLMOcr.newLLMProvider LLMOcr.asciiToLower MoreSamples.openaiNew
      MoreSamples.ollamaNew MoreSamples.genaiNew MoreSamples.keys
      (Main.ocrConfigOf Samples.world
         (<["VISION_LLM_PROVIDER" := "ollama"]> Samples.env)
         (Main.initGlobals Samples.world
            (<["VISION_LLM_PROVIDER" := "ollama"]> Samples.env))
         "llm" "Transcribe.") = Ok p
    /\ LLMOcr.Prompt p = "Transcribe."
    /\ LLMOcr.buildCallOpts LLMOcr.asciiToLower p = [].
Proof.
  eexists. split; [vm_compute; reflexivity |].
  match goal with
  | |- LLMOcr.Prompt ?p = _ /\ _ =>
      lapply (main_config_no_limit_detection Samples.world
                (<["VISION_LLM_PROVIDER" := "ollama"]> Samples.env)
                Samples.decode Samples.count MoreSamples.openaiNew
                MoreSamples.ollamaNew MoreSamples.genaiNew LLMOcr.asciiToLower
                (Main.initGlobals Samples.world
                   (<["VISION_LLM_PROVIDER" := "ollama"]> Samples.env))
                "llm" "Transcribe." MoreSamples.keys p);
        [intros (Hprompt & Hopts & _) | vm_compute; reflexivity]
  end.
  split; [exact Hprompt | exact Hopts].
Defined.

Lemma RoundTrip_adds_headers_witness :
  "paperless-gpt" ∈
    default []
      (Transport.Header
         (fst (Transport.RoundTrip (fun key => key) MoreSamples.rangeOf
                 MoreSamples.network
                 (Transport.headerTransport Transport.DefaultTransport
                    (<["X-Title" := "paperless-gpt"]> ∅))
                 MoreSamples.request))
       !! "X-Title").
Proof.
  destruct (RoundTrip_adds_headers (fun key => key) MoreSamples.rangeOf
              MoreSamples.network (<["X-Title" := "paperless-gpt"]> ∅)
              MoreSamples.request (Permutation_refl _))
    as (_ & _ & _ & Hin & _).
  apply (Hin "X-Title" "paperless-gpt"). reflexivity.
Defined.

Lemma createCustomHTTPClient_effect_witness :
  default []
    (Transport.Header
       (fst (Transport.Client_Do (fun key => key) MoreSamples.rangeOf
               MoreSamples.network
               (Transport.deref
                  (fst (Transport.createCustomHTTPClient
                          {| Transport.DefaultClient :=
                               {| Transport.Transport := None |} |}))
                  Transport.PtrDefaultClient)
               MoreSamples.request))
     !! "X-Title")
  = ["mine"; "paperless-gpt"].
Proof.
  destruct (createCustomHTTPClient_effect (fun key => key) MoreSamples.rangeOf
              MoreSamples.network
              {| Transport.DefaultClient := {| Transport.Transport := None |} |}
              {| Transport.DefaultClient := {| Transport.Transport := None |} |}
              MoreSamples.request (fun headers => Permutation_refl _))
    as (_ & _ & _ & _ & Hsent & _).
  exact Hsent.
Defined.

Lemma checkJobStatus_progress_witness :
  ExperimentalOCR.pagesDone unit
    (snd (fst (OCRPage.checkJobStatus unit MoreSamples.parse "job-1" 7
                 (OCRPage.Resolved (MoreSamples.jobData "in_progress" 3))
                 OCRPage.Rejected Samples.pageState))) = 3
  /\ ExperimentalOCR.lastFetchedPagesDoneRef
       (snd (fst (OCRPage.checkJobStatus unit MoreSamples.parse "job-1" 7
                    (OCRPage.Resolved (MoreSamples.jobData "in_progress" 3))
                    OCRPage.Rejected Samples.pageState))) = 3.
Proof.
  destruct (checkJobStatus_progress unit MoreSamples.parse "job-1" 7
              (MoreSamples.jobData "in_progress" 3) OCRPage.Rejected
              Samples.pageState ltac:(discriminate)) as (Hdone & Href & _).
  split; [exact Hdone | exact Href].
Defined.

Lemma poll_completed_witness :
  ExperimentalOCR.ocrResult
    (snd (OCRPage.poll unit MoreSamples.parse "job-1" 7
            ([(OCRPage.Resolved (MoreSamples.jobData "in_progress" 0),
               OCRPage.Rejected)]
             ++ (OCRPage.Resolved (MoreSamples.jobData "completed" 1),
                 OCRPage.Rejected) :: [])
            Samples.pageState)) = "A"
  /\ ExperimentalOCR.perPageResults
       (snd (OCRPage.poll unit MoreSamples.parse "job-1" 7
               ([(OCRPage.Resolved (MoreSamples.jobData "in_progress" 0),
                  OCRPage.Rejected)]
                ++ (OCRPage.Resolved (MoreSamples.jobData "completed" 1),
                    OCRPage.Rejected) :: [])
               Samples.pageState)) = MoreSamples.parsedPages.
Proof.
  destruct (poll_completed unit MoreSamples.parse "job-1" 7
              [(OCRPage.Resolved (MoreSamples.jobData "in_progress" 0),
                OCRPage.Rejected)]
              (MoreSamples.jobData "completed" 1) OCRPage.Rejected
              "A" MoreSamples.parsedPages [] Samples.pageState
              ltac:(discriminate)
              ltac:(repeat constructor; eexists; split;
                    [reflexivity | split; discriminate])
              eq_refl eq_refl) as (Htext & Hpages & _).
  split; [exact Htext | exact Hpages].
Defined.

Lemma handleReOcrPage_page_witness :
  ExperimentalOCR.js_index
    (ExperimentalOCR.perPageResults
       (ExperimentalOCR.handleReOcrPage 1
          (ExperimentalOCR.Resolved
             {| ExperimentalOCR.data_text := "B again";
                ExperimentalOCR.data_ocrLimitHit := false |})
          Samples.pageState))
    1
  = Some {| ExperimentalOCR.text := "B again";
            ExperimentalOCR.ocrLimitHit := false;
            ExperimentalOCR.generationInfo := None |}.
Proof.
  apply (handleReOcrPage_page unit 1
           (ExperimentalOCR.Resolved
              {| ExperimentalOCR.data_text := "B again";
                 ExperimentalOCR.data_ocrLimitHit := false |})
           Samples.pageState).
  cbn. lia.
Defined.
